(** * Task ordering, hierarchy and reference validation of the planning backend

    A shallow embedding of [backend/src/routes/tasks.ts],
    [backend/src/routes/plans.ts] (import), the task schemas the routes
    import from [schemas/task] and the Mongoose models, with the document
    store written out as explicit state.  Identifiers are ObjectIds, kept as
    the strings the routes handle; JavaScript numbers are restricted to
    integers.

    The second part adds the access middleware
    [backend/src/middleware/planAccess.ts] in front of the task routes, the
    plan, member and export routes of [routes/plans.ts], [GET /me] of
    [routes/auth.ts] and the import dialog of the client. *)

From Stdlib Require Import ZArith List String Ascii Bool Lia Arith.
From Stdlib Require Import Sorted Permutation DecimalString.
From Stdlib Require DecimalNat DecimalFacts.
Import ListNotations.
Local Open Scope string_scope.
Local Open Scope list_scope.

(** ** JavaScript helpers *)

Module Js.

(** Truthiness of an optional string: [undefined], [null] and the empty
    string are falsy. *)
Definition truthy (s : option string) : bool :=
  match s with
  | Some s' => negb (s' =? "")
  | None => false
  end.

(** [x || y] on numbers: zero is falsy. *)
Definition or_num (x y : Z) : Z := if (x =? 0)%Z then y else x.

(** [Array.prototype.map] with the index argument. *)
Fixpoint mapi_from {A B : Type} (k : nat) (f : A -> nat -> B) (l : list A)
  : list B :=
  match l with
  | [] => []
  | x :: l' => f x k :: mapi_from (S k) f l'
  end.

Definition mapi {A B : Type} (f : A -> nat -> B) (l : list A) : list B :=
  mapi_from 0 f l.

(** [Array.prototype.includes] on strings. *)
Definition includes (l : list string) (x : string) : bool :=
  existsb (String.eqb x) l.

(** [includes] applied to a possibly [undefined] element. *)
Definition includes_opt (l : list string) (x : option string) : bool :=
  match x with
  | Some x' => includes l x'
  | None => false
  end.

Definition is_space (c : ascii) : bool :=
  let n := nat_of_ascii c in
  (n =? 32)%nat || ((9 <=? n)%nat && (n <=? 13)%nat).

Fixpoint trim_start (s : string) : string :=
  match s with
  | String c s' => if is_space c then trim_start s' else s
  | EmptyString => EmptyString
  end.

Fixpoint trim_end (s : string) : string :=
  match s with
  | String c s' =>
      match trim_end s' with
      | EmptyString => if is_space c then EmptyString else String c EmptyString
      | r => String c r
      end
  | EmptyString => EmptyString
  end.

(** [String.prototype.trim], on ASCII white space. *)
Definition trim (s : string) : string := trim_end (trim_start s).

(** A number printed in a template literal. *)
Definition string_of_nat (n : nat) : string :=
  NilZero.string_of_uint (Nat.to_uint n).

End Js.

Definition ObjectId := string.

Inductive Status := todo | in_progress | done.
Inductive Priority := low | medium | high | urgent.
Inductive Role := owner | editor | viewer.

Definition Status_str (s : Status) : string :=
  match s with
  | todo => "todo"
  | in_progress => "in_progress"
  | done => "done"
  end.

Definition Priority_str (p : Priority) : string :=
  match p with
  | low => "low"
  | medium => "medium"
  | high => "high"
  | urgent => "urgent"
  end.

Definition Status_eqb (a b : Status) : bool :=
  match a, b with
  | todo, todo | in_progress, in_progress | done, done => true
  | _, _ => false
  end.

Definition Priority_eqb (a b : Priority) : bool :=
  match a, b with
  | low, low | medium, medium | high, high | urgent, urgent => true
  | _, _ => false
  end.

(** ** models/Task.ts *)

(** The plain object handed to [new Task(...)] and [Task.insertMany]: the
    request body after schema parsing, spread together with the fields the
    route adds.  Every property may be missing. *)
Module TaskData.

Record t := {
  _id : option ObjectId;
  plan_id : option ObjectId;
  title : option string;
  description : option string;
  status : option Status;
  priority : option Priority;
  assignee_ids : option (list ObjectId);
  start_date : option string;
  due_date : option string;
  progress_pct : option Z;
  parent_id : option ObjectId;
  dependency_ids : option (list ObjectId);
  tags : option (list string);
  estimate_hours : option Z;
  order_index : option Z;
  goal : option string;
  notes : option string;
  deliverables : option string;
  created_by : option ObjectId;
  updated_by : option ObjectId
}.

Definition empty : t :=
  {| _id := None; plan_id := None; title := None; description := None;
     status := None; priority := None; assignee_ids := None;
     start_date := None; due_date := None; progress_pct := None;
     parent_id := None; dependency_ids := None; tags := None;
     estimate_hours := None; order_index := None; goal := None;
     notes := None; deliverables := None; created_by := None;
     updated_by := None |}.

(** [{ ...d, created_by: user, updated_by: user }] *)
Definition with_user (user : ObjectId) (d : t) : t :=
  {| _id := _id d; plan_id := plan_id d; title := title d;
     description := description d; status := status d; priority := priority d;
     assignee_ids := assignee_ids d; start_date := start_date d;
     due_date := due_date d; progress_pct := progress_pct d;
     parent_id := parent_id d; dependency_ids := dependency_ids d;
     tags := tags d; estimate_hours := estimate_hours d;
     order_index := order_index d; goal := goal d; notes := notes d;
     deliverables := deliverables d; created_by := Some user;
     updated_by := Some user |}.

(** [{ ...d, plan_id }] *)
Definition with_plan_id (p : option ObjectId) (d : t) : t :=
  {| _id := _id d; plan_id := p; title := title d;
     description := description d; status := status d; priority := priority d;
     assignee_ids := assignee_ids d; start_date := start_date d;
     due_date := due_date d; progress_pct := progress_pct d;
     parent_id := parent_id d; dependency_ids := dependency_ids d;
     tags := tags d; estimate_hours := estimate_hours d;
     order_index := order_index d; goal := goal d; notes := notes d;
     deliverables := deliverables d; created_by := created_by d;
     updated_by := updated_by d |}.

(** [d.order_index = v] *)
Definition with_order_index (v : Z) (d : t) : t :=
  {| _id := _id d; plan_id := plan_id d; title := title d;
     description := description d; status := status d; priority := priority d;
     assignee_ids := assignee_ids d; start_date := start_date d;
     due_date := due_date d; progress_pct := progress_pct d;
     parent_id := parent_id d; dependency_ids := dependency_ids d;
     tags := tags d; estimate_hours := estimate_hours d;
     order_index := Some v; goal := goal d; notes := notes d;
     deliverables := deliverables d; created_by := created_by d;
     updated_by := updated_by d |}.

End TaskData.

Module Task.

(** [ITask]: a stored task document. *)
Record ITask := {
  _id : ObjectId;
  plan_id : ObjectId;
  title : string;
  description : option string;
  status : Status;
  priority : option Priority;
  assignee_ids : list ObjectId;
  start_date : option string;
  due_date : option string;
  progress_pct : Z;
  parent_id : option ObjectId;
  dependency_ids : list ObjectId;
  tags : list string;
  estimate_hours : option Z;
  order_index : Z;
  goal : option string;
  notes : option string;
  deliverables : option string;
  created_by : ObjectId;
  updated_by : ObjectId
}.

Definition set_order_index (v : Z) (d : ITask) : ITask :=
  {| _id := _id d; plan_id := plan_id d; title := title d;
     description := description d; status := status d; priority := priority d;
     assignee_ids := assignee_ids d; start_date := start_date d;
     due_date := due_date d; progress_pct := progress_pct d;
     parent_id := parent_id d; dependency_ids := dependency_ids d;
     tags := tags d; estimate_hours := estimate_hours d; order_index := v;
     goal := goal d; notes := notes d; deliverables := deliverables d;
     created_by := created_by d; updated_by := updated_by d |}.

Definition set_updated_by (v : ObjectId) (d : ITask) : ITask :=
  {| _id := _id d; plan_id := plan_id d; title := title d;
     description := description d; status := status d; priority := priority d;
     assignee_ids := assignee_ids d; start_date := start_date d;
     due_date := due_date d; progress_pct := progress_pct d;
     parent_id := parent_id d; dependency_ids := dependency_ids d;
     tags := tags d; estimate_hours := estimate_hours d;
     order_index := order_index d; goal := goal d; notes := notes d;
     deliverables := deliverables d; created_by := created_by d;
     updated_by := v |}.

Definition opt_or {A : Type} (o : option A) (d : A) : A :=
  match o with
  | Some a => a
  | None => d
  end.

(** [new Task(data)] followed by the validation Mongoose runs before a
    write: the schema's setters ([trim]) and defaults are applied, the
    [required], [min] and [max] validators are checked, and the document
    keeps a supplied [_id] or takes the freshly generated [oid].  [None] is
    the [ValidationError] that makes the write throw. *)
Definition construct (data : TaskData.t) (oid : ObjectId) : option ITask :=
  match TaskData.plan_id data, TaskData.title data,
        TaskData.created_by data, TaskData.updated_by data with
  | Some plan, Some ttl, Some cb, Some ub =>
      let ttl' := Js.trim ttl in
      let pct := opt_or (TaskData.progress_pct data) 0%Z in
      if (ttl' =? "")
         || negb ((0 <=? pct)%Z && (pct <=? 100)%Z)
         || match TaskData.estimate_hours data with
            | Some h => (h <? 0)%Z
            | None => false
            end
      then None
      else Some
        {| _id := opt_or (TaskData._id data) oid;
           plan_id := plan;
           title := ttl';
           description := option_map Js.trim (TaskData.description data);
           status := opt_or (TaskData.status data) todo;
           priority := Some (opt_or (TaskData.priority data) medium);
           assignee_ids := opt_or (TaskData.assignee_ids data) [];
           start_date := TaskData.start_date data;
           due_date := TaskData.due_date data;
           progress_pct := pct;
           parent_id := TaskData.parent_id data;
           dependency_ids := opt_or (TaskData.dependency_ids data) [];
           tags := opt_or (TaskData.tags data) [];
           estimate_hours := TaskData.estimate_hours data;
           order_index := opt_or (TaskData.order_index data) 0%Z;
           goal := TaskData.goal data;
           notes := TaskData.notes data;
           deliverables := TaskData.deliverables data;
           created_by := cb;
           updated_by := ub |}
  | _, _, _, _ => None
  end.

(** The properties of a loaded document, as a plain object. *)
Definition to_data (d : ITask) : TaskData.t :=
  {|
    TaskData._id := Some (_id d);
    TaskData.plan_id := Some (plan_id d);
    TaskData.title := Some (title d);
    TaskData.description := description d;
    TaskData.status := Some (status d);
    TaskData.priority := priority d;
    TaskData.assignee_ids := Some (assignee_ids d);
    TaskData.start_date := start_date d;
    TaskData.due_date := due_date d;
    TaskData.progress_pct := Some (progress_pct d);
    TaskData.parent_id := parent_id d;
    TaskData.dependency_ids := Some (dependency_ids d);
    TaskData.tags := Some (tags d);
    TaskData.estimate_hours := estimate_hours d;
    TaskData.order_index := Some (order_index d);
    TaskData.goal := goal d;
    TaskData.notes := notes d;
    TaskData.deliverables := deliverables d;
    TaskData.created_by := Some (created_by d);
    TaskData.updated_by := Some (updated_by d) |}.

Definition or_else {A : Type} (a b : option A) : option A :=
  match a with
  | Some _ => a
  | None => b
  end.

(** [Object.assign(dst, src)]: every property present in [src] overwrites
    the one of [dst]. *)
Definition assign (dst src : TaskData.t) : TaskData.t :=
  {|
    TaskData._id :=
      or_else (TaskData._id src) (TaskData._id dst);
    TaskData.plan_id :=
      or_else (TaskData.plan_id src) (TaskData.plan_id dst);
    TaskData.title :=
      or_else (TaskData.title src) (TaskData.title dst);
    TaskData.description :=
      or_else (TaskData.description src) (TaskData.description dst);
    TaskData.status :=
      or_else (TaskData.status src) (TaskData.status dst);
    TaskData.priority :=
      or_else (TaskData.priority src) (TaskData.priority dst);
    TaskData.assignee_ids :=
      or_else (TaskData.assignee_ids src) (TaskData.assignee_ids dst);
    TaskData.start_date :=
      or_else (TaskData.start_date src) (TaskData.start_date dst);
    TaskData.due_date :=
      or_else (TaskData.due_date src) (TaskData.due_date dst);
    TaskData.progress_pct :=
      or_else (TaskData.progress_pct src) (TaskData.progress_pct dst);
    TaskData.parent_id :=
      or_else (TaskData.parent_id src) (TaskData.parent_id dst);
    TaskData.dependency_ids :=
      or_else (TaskData.dependency_ids src) (TaskData.dependency_ids dst);
    TaskData.tags :=
      or_else (TaskData.tags src) (TaskData.tags dst);
    TaskData.estimate_hours :=
      or_else (TaskData.estimate_hours src) (TaskData.estimate_hours dst);
    TaskData.order_index :=
      or_else (TaskData.order_index src) (TaskData.order_index dst);
    TaskData.goal :=
      or_else (TaskData.goal src) (TaskData.goal dst);
    TaskData.notes :=
      or_else (TaskData.notes src) (TaskData.notes dst);
    TaskData.deliverables :=
      or_else (TaskData.deliverables src) (TaskData.deliverables dst);
    TaskData.created_by :=
      or_else (TaskData.created_by src) (TaskData.created_by dst);
    TaskData.updated_by :=
      or_else (TaskData.updated_by src) (TaskData.updated_by dst) |}.

End Task.

(** ** models/User.ts and models/Plan.ts *)

Module User.

Record IUser := {
  _id : ObjectId;
  email : string;
  password_hash : string;
  name : string;
  is_placeholder : bool
}.

Definition lower (c : ascii) : ascii :=
  let n := nat_of_ascii c in
  if ((65 <=? n)%nat && (n <=? 90)%nat) then ascii_of_nat (n + 32) else c.

Fixpoint lowercase (s : string) : string :=
  match s with
  | String c s' => String (lower c) (lowercase s')
  | EmptyString => EmptyString
  end.

(** [new User({ name, email, password_hash, is_placeholder })] with the
    schema's setters ([lowercase], [trim]) and [required] validators. *)
Definition construct (name' email' hash : string) (placeholder : bool)
    (oid : ObjectId) : option IUser :=
  let e := Js.trim (lowercase email') in
  let n := Js.trim name' in
  if (e =? "") || (n =? "") || (hash =? "") then None
  else Some {| _id := oid; email := e; password_hash := hash; name := n;
               is_placeholder := placeholder |}.

End User.

Module Plan.

Record IPlanMember := {
  user_id : ObjectId;
  role : Role;
  joined_at : Z
}.

Record IPlan := {
  _id : ObjectId;
  name : string;
  description : option string;
  owner_id : ObjectId;
  members : list IPlanMember
}.

Definition set_members (ms : list IPlanMember) (p : IPlan) : IPlan :=
  {| _id := _id p; name := name p; description := description p;
     owner_id := owner_id p; members := ms |}.

(** [new Plan({ name, description, owner_id, members: [] })] with [trim],
    [required] and [maxlength]. *)
Definition construct (name' : string) (description' : option string)
    (owner' : ObjectId) (oid : ObjectId) : option IPlan :=
  let n := Js.trim name' in
  let d := option_map Js.trim description' in
  if (n =? "") || (100 <? String.length n)%nat
     || match d with
        | Some d' => (500 <? String.length d')%nat
        | None => false
        end
  then None
  else Some {| _id := oid; name := n; description := d; owner_id := owner';
               members := [] |}.

End Plan.

(** ** The document store

    Three collections in insertion order and the number of ObjectIds the
    process has generated so far. *)

Record Db := {
  Tasks : list Task.ITask;
  Users : list User.IUser;
  Plans : list Plan.IPlan;
  oids : nat
}.

Definition with_Tasks (c : list Task.ITask) (db : Db) : Db :=
  {| Tasks := c; Users := Users db; Plans := Plans db; oids := oids db |}.

Definition with_Users (c : list User.IUser) (db : Db) : Db :=
  {| Tasks := Tasks db; Users := c; Plans := Plans db; oids := oids db |}.

Definition with_Plans (c : list Plan.IPlan) (db : Db) : Db :=
  {| Tasks := Tasks db; Users := Users db; Plans := c; oids := oids db |}.

Definition next_oid (db : Db) : Db :=
  {| Tasks := Tasks db; Users := Users db; Plans := Plans db;
     oids := S (oids db) |}.

Module Collection.

Section Generic.
Context {D : Type}.
Variable key : D -> ObjectId.

(** [insertOne]: the unique index on [_id] refuses a duplicate key. *)
Definition insertOne (d : D) (c : list D) : option (list D) :=
  if existsb (fun x => key x =? key d) c then None else Some (c ++ [d]).

(** Ordered [insertMany]: documents are written in order and the first
    duplicate key stops the batch, leaving the earlier ones written.  The
    flag tells whether the whole batch went through. *)
Fixpoint insertMany (ds : list D) (c : list D) : bool * list D :=
  match ds with
  | [] => (true, c)
  | d :: ds' =>
      match insertOne d c with
      | Some c' => insertMany ds' c'
      | None => (false, c)
      end
  end.

(** [updateOne(filter, update)]: the first matching document is rewritten.
    The schemas stamp [updated_at] on every update, so a matched document
    always counts as modified. *)
Fixpoint updateOne (filter : D -> bool) (update : D -> D) (c : list D)
  : list D * nat :=
  match c with
  | [] => ([], 0%nat)
  | d :: c' =>
      if filter d then (update d :: c', 1%nat)
      else let (c'', n) := updateOne filter update c' in (d :: c'', n)
  end.

(** Saving a loaded document writes it back under its [_id]. *)
Definition replaceOne (d : D) (c : list D) : list D :=
  fst (updateOne (fun x => key x =? key d) (fun _ => d) c).

(** [findByIdAndDelete]. *)
Fixpoint deleteOne (filter : D -> bool) (c : list D) : list D :=
  match c with
  | [] => []
  | d :: c' => if filter d then c' else d :: deleteOne filter c'
  end.

End Generic.

Record UpdateOne (D : Type) := {
  filter : D -> bool;
  update : D -> D
}.
Arguments filter {D}.
Arguments update {D}.

(** Ordered [bulkWrite] of [updateOne] operations; the second component is
    [result.modifiedCount]. *)
Fixpoint bulkWrite {D : Type} (ops : list (UpdateOne D)) (c : list D)
  : list D * nat :=
  match ops with
  | [] => (c, 0%nat)
  | op :: ops' =>
      let (c1, n1) := updateOne (filter op) (update op) c in
      let (c2, n2) := bulkWrite ops' c1 in
      (c2, (n1 + n2)%nat)
  end.

End Collection.

(** ** HTTP responses *)

Inductive Json :=
| JError (error : string)
| JValidation (error : string) (details : list (string * string))
| JTask (task : Task.ITask)
| JMessage (message : string)
| JBulk (message : string) (tasks : list Task.ITask)
| JReorder (message : string) (modifiedCount : nat)
| JTasks (tasks : list Task.ITask) (page limit : Z) (total : nat)
    (pages : option Z)
| JImport (plan : Plan.IPlan) (tasks_created : nat) (message : string).

Record Response := {
  status : nat;
  json : Json
}.

Definition res (code : nat) (body : Json) : Response :=
  {| status := code; json := body |}.

(** ** Sorting a query result

    Field values are compared the way the store compares BSON values: a
    missing value sorts before numbers, numbers before strings, strings by
    their bytes. *)

Inductive Bson := BNull | BNum (z : Z) | BStr (s : string).

Definition Bson_of_string (o : option string) : Bson :=
  match o with
  | Some s => BStr s
  | None => BNull
  end.

Definition Bson_compare (a b : Bson) : comparison :=
  match a, b with
  | BNull, BNull => Eq
  | BNull, _ => Lt
  | _, BNull => Gt
  | BNum x, BNum y => (x ?= y)%Z
  | BNum _, BStr _ => Lt
  | BStr _, BNum _ => Gt
  | BStr x, BStr y => String.compare x y
  end.

(** The scalar paths of a task document; array-valued and unknown paths are
    read as missing. *)
Definition Task_field (k : string) (d : Task.ITask) : Bson :=
  if k =? "_id" then BStr (Task._id d)
  else if k =? "plan_id" then BStr (Task.plan_id d)
  else if k =? "title" then BStr (Task.title d)
  else if k =? "description" then Bson_of_string (Task.description d)
  else if k =? "status" then BStr (Status_str (Task.status d))
  else if k =? "priority"
       then Bson_of_string (option_map Priority_str (Task.priority d))
  else if k =? "start_date" then Bson_of_string (Task.start_date d)
  else if k =? "due_date" then Bson_of_string (Task.due_date d)
  else if k =? "progress_pct" then BNum (Task.progress_pct d)
  else if k =? "parent_id" then Bson_of_string (Task.parent_id d)
  else if k =? "estimate_hours"
       then match Task.estimate_hours d with
            | Some h => BNum h
            | None => BNull
            end
  else if k =? "order_index" then BNum (Task.order_index d)
  else if k =? "goal" then Bson_of_string (Task.goal d)
  else if k =? "notes" then Bson_of_string (Task.notes d)
  else if k =? "deliverables" then Bson_of_string (Task.deliverables d)
  else if k =? "created_by" then BStr (Task.created_by d)
  else if k =? "updated_by" then BStr (Task.updated_by d)
  else BNull.

(** A sort document: keys in insertion order, each with direction [1] or
    [-1]. *)
Definition SortObj := list (string * Z).

Fixpoint compare_by (sortObj : SortObj) (a b : Task.ITask) : comparison :=
  match sortObj with
  | [] => Eq
  | (k, dir) :: rest =>
      let c := Bson_compare (Task_field k a) (Task_field k b) in
      match (if (dir =? -1)%Z then CompOpp c else c) with
      | Eq => compare_by rest a b
      | r => r
      end
  end.

Definition sort_leb (sortObj : SortObj) (a b : Task.ITask) : bool :=
  match compare_by sortObj a b with
  | Gt => false
  | _ => true
  end.

Section Sort.
Context {D : Type}.
Variable leb : D -> D -> bool.

(** A stable insertion sort stands for the sort of the store. *)
Fixpoint insert (x : D) (l : list D) : list D :=
  match l with
  | [] => [x]
  | y :: l' => if leb x y then x :: l else y :: insert x l'
  end.

Definition sort (l : list D) : list D := fold_right insert [] l.

End Sort.

(** [.skip(skip).limit(limit)]; a limit of [0] means no limit and a negative
    limit is read by its absolute value. *)
Definition paginate {D : Type} (skip limit : Z) (l : list D) : list D :=
  let rest := skipn (Z.to_nat skip) l in
  if (limit =? 0)%Z then rest else firstn (Z.abs_nat limit) rest.

(** ** schemas/task.ts *)

Module Schema.

(** A zod issue: the path of the offending field and the message. *)
Definition Issue := (list string * string)%type.

Inductive Parsed (A : Type) :=
| Valid (a : A)
| Invalid (issues : list Issue).
Arguments Valid {A}.
Arguments Invalid {A}.

Definition required {A : Type} (k : string) (o : option A) : list Issue :=
  match o with
  | Some _ => []
  | None => [([k], "Required")]
  end.

Definition string_min1 (k msg : string) (o : option string) : list Issue :=
  match o with
  | Some s => if (String.length s <? 1)%nat then [([k], msg)] else []
  | None => []
  end.

Definition string_max (k : string) (n : nat) (msg : string)
    (o : option string) : list Issue :=
  match o with
  | Some s => if (n <? String.length s)%nat then [([k], msg)] else []
  | None => []
  end.

Definition number_min0 (k : string) (o : option Z) : list Issue :=
  match o with
  | Some v =>
      if (v <? 0)%Z
      then [([k], "Number must be greater than or equal to 0")]
      else []
  | None => []
  end.

Definition number_max100 (k : string) (o : option Z) : list Issue :=
  match o with
  | Some v =>
      if (100 <? v)%Z
      then [([k], "Number must be less than or equal to 100")]
      else []
  | None => []
  end.

(** The issues [taskBaseSchema] raises, in key order.  With [partial] set
    ([taskBaseSchema.partial()]) no key is required. *)
Definition taskBaseSchema_issues (partial : bool) (d : TaskData.t)
  : list Issue :=
  (if partial then [] else required "plan_id" (TaskData.plan_id d))
  ++ string_min1 "plan_id" "Plan ID is required" (TaskData.plan_id d)
  ++ (if partial then [] else required "title" (TaskData.title d))
  ++ string_min1 "title" "Title is required" (TaskData.title d)
  ++ string_max "title" 200 "Title too long" (TaskData.title d)
  ++ (if partial then [] else required "status" (TaskData.status d))
  ++ number_min0 "progress_pct" (TaskData.progress_pct d)
  ++ number_max100 "progress_pct" (TaskData.progress_pct d)
  ++ number_min0 "estimate_hours" (TaskData.estimate_hours d).

(** A missing required key aborts the object parse, so that refinements do
    not run. *)
Definition aborted (d : TaskData.t) : bool :=
  match TaskData.plan_id d, TaskData.title d, TaskData.status d with
  | Some _, Some _, Some _ => false
  | _, _, _ => true
  end.

(** The parsed object holds the schema's keys only. *)
Definition strip (keep_id keep_plan : bool) (d : TaskData.t) : TaskData.t :=
  {| TaskData._id := if keep_id then TaskData._id d else None;
     TaskData.plan_id := if keep_plan then TaskData.plan_id d else None;
     TaskData.title := TaskData.title d;
     TaskData.description := TaskData.description d;
     TaskData.status := TaskData.status d;
     TaskData.priority := TaskData.priority d;
     TaskData.assignee_ids := TaskData.assignee_ids d;
     TaskData.start_date := TaskData.start_date d;
     TaskData.due_date := TaskData.due_date d;
     TaskData.progress_pct := TaskData.progress_pct d;
     TaskData.parent_id := TaskData.parent_id d;
     TaskData.dependency_ids := TaskData.dependency_ids d;
     TaskData.tags := TaskData.tags d;
     TaskData.estimate_hours := TaskData.estimate_hours d;
     TaskData.order_index := TaskData.order_index d;
     TaskData.goal := TaskData.goal d;
     TaskData.notes := TaskData.notes d;
     TaskData.deliverables := TaskData.deliverables d;
     TaskData.created_by := None;
     TaskData.updated_by := None |}.

Definition finish {A : Type} (issues : list Issue) (a : A) : Parsed A :=
  match issues with
  | [] => Valid a
  | _ => Invalid issues
  end.

Section Refinement.
(** [new Date(s)] as milliseconds since the epoch, [None] for an invalid
    date (whose number value is [NaN]). *)
Variable Date : string -> option Z.

(** [new Date(a) >= new Date(b)]: false as soon as one side is [NaN]. *)
Definition Date_ge (a b : string) : bool :=
  match Date a, Date b with
  | Some x, Some y => (y <=? x)%Z
  | _, _ => false
  end.

(** The refinement of [taskSchema]: checked when both strings are truthy. *)
Definition due_after_start (d : TaskData.t) : bool :=
  match TaskData.start_date d, TaskData.due_date d with
  | Some s, Some e =>
      if Js.truthy (Some s) && Js.truthy (Some e) then Date_ge e s
      else true
  | _, _ => true
  end.

Definition taskSchema (d : TaskData.t) : Parsed TaskData.t :=
  let issues := taskBaseSchema_issues false d in
  if aborted d then Invalid issues
  else finish
         (issues ++
          (if due_after_start d then []
           else [(["due_date"], "Due date must be after start date")]))
         (strip false true d).

End Refinement.

(** [taskBaseSchema.partial().omit({ plan_id: true })]. *)
Definition taskUpdateSchema (d : TaskData.t) : Parsed TaskData.t :=
  let d' := strip false false d in
  finish (taskBaseSchema_issues true d') d'.

(** [taskBaseSchema.extend({ _id: z.string().optional() })]. *)
Definition bulkTaskItemSchema_issues (d : TaskData.t) : list Issue :=
  taskBaseSchema_issues false d.

Record BulkTaskInput := {
  tasks : list TaskData.t;
  plan_id : option string
}.

Definition prefix (p : list string) (i : Issue) : Issue :=
  (p ++ fst i, snd i).

Definition bulkTaskSchema (b : BulkTaskInput) : Parsed BulkTaskInput :=
  finish
    (List.concat
       (Js.mapi
          (fun d i => map (prefix ["tasks"; Js.string_of_nat i])
                        (bulkTaskItemSchema_issues d))
          (tasks b))
     ++ required "plan_id" (plan_id b)
     ++ string_min1 "plan_id" "Plan ID is required" (plan_id b))
    {| tasks := map (strip true true) (tasks b); plan_id := plan_id b |}.

Record ReorderTasksInput := {
  task_ids : list string;
  reorder_plan_id : option string
}.

Definition reorderTasksSchema (b : ReorderTasksInput)
  : Parsed ReorderTasksInput :=
  finish
    (required "plan_id" (reorder_plan_id b)
     ++ string_min1 "plan_id" "Plan ID is required" (reorder_plan_id b))
    b.

End Schema.

(** Modelled from the spec: [utils/validation.ts] is missing from the
    sources.  A payload that fails its schema is rejected before the handler
    runs, with a field path and a message per issue; otherwise the handler
    receives the parsed body.  The routes wrap their schema in
    [z.object({ body: ... })], hence the leading path segment. *)
Definition validateRequest {A : Type} (parsed : Schema.Parsed A)
    (handler : A -> Db -> Response * Db) (db : Db) : Response * Db :=
  match parsed with
  | Schema.Valid body => handler body db
  | Schema.Invalid issues =>
      (res 400
         (JValidation "Validation failed"
            (map (fun i => (String.concat "." ("body" :: fst i), snd i))
               issues)),
       db)
  end.

(** ** routes/tasks.ts

    The handlers run after [authenticateToken] and [requirePlanAccess] have
    admitted the request; [user] is [req.user._id]. *)

Definition eq_opt (o : option string) (s : string) : bool :=
  match o with
  | Some x => x =? s
  | None => false
  end.

Definition is_some {A : Type} (o : option A) : bool :=
  match o with
  | Some _ => true
  | None => false
  end.

Definition str_or_undefined (o : option string) : string :=
  match o with
  | Some s => s
  | None => "undefined"
  end.

(** The query string of [GET /tasks], with [page] and [limit] already read
    by [parseInt] and the defaults of the destructuring applied. *)
Module ListQuery.

Inductive Param := One (v : string) | Many (vs : list string).

Record t := {
  plan_id : option string;
  q : option string;
  status : option Param;
  assignee : option Param;
  tag : option Param;
  priority : option Param;
  parent_id : option string;
  page : Z;
  limit : Z;
  sort : string;
  order : string
}.

Definition truthy (p : option Param) : bool :=
  match p with
  | Some (One v) => negb (v =? "")
  | Some (Many _) => true
  | None => false
  end.

Definition values (p : Param) : list string :=
  match p with
  | One v => [v]
  | Many vs => vs
  end.

End ListQuery.

Module TasksRoute.

Section Routes.
Variable Date : string -> option Z.
Variable newObjectId : nat -> ObjectId.
(** [{ $text: { $search: q } }] on the text index. *)
Variable textSearch : string -> Task.ITask -> bool.

(** [new Task(data)] and [task.save()]: [None] when the write throws. *)
Definition save_new (data : TaskData.t) (db : Db)
  : option Task.ITask * Db :=
  let db1 := next_oid db in
  match Task.construct data (newObjectId (oids db)) with
  | None => (None, db1)
  | Some task =>
      match Collection.insertOne Task._id task (Tasks db1) with
      | None => (None, db1)
      | Some c => (Some task, with_Tasks c db1)
      end
  end.

(** *** GET / *)

Definition intersects (vs ws : list string) : bool :=
  existsb (Js.includes ws) vs.

Definition query (rq : ListQuery.t) (d : Task.ITask) : bool :=
  eq_opt (ListQuery.plan_id rq) (Task.plan_id d)
  && (if ListQuery.truthy (ListQuery.status rq)
      then match ListQuery.status rq with
           | Some p =>
               Js.includes (ListQuery.values p) (Status_str (Task.status d))
           | None => true
           end
      else true)
  && (if ListQuery.truthy (ListQuery.assignee rq)
      then match ListQuery.assignee rq with
           | Some p => intersects (ListQuery.values p) (Task.assignee_ids d)
           | None => true
           end
      else true)
  && (if ListQuery.truthy (ListQuery.tag rq)
      then match ListQuery.tag rq with
           | Some p => intersects (ListQuery.values p) (Task.tags d)
           | None => true
           end
      else true)
  && (if ListQuery.truthy (ListQuery.priority rq)
      then match ListQuery.priority rq, Task.priority d with
           | Some p, Some v =>
               Js.includes (ListQuery.values p) (Priority_str v)
           | Some _, None => false
           | None, _ => true
           end
      else true)
  && match ListQuery.parent_id rq with
     | Some p =>
         if p =? "null" then negb (is_some (Task.parent_id d))
         else eq_opt (Task.parent_id d) p
     | None => true
     end
  && (if Js.truthy (ListQuery.q rq)
      then match ListQuery.q rq with
           | Some s => textSearch s d
           | None => true
           end
      else true).

Definition sortObj (sort order : string) : SortObj :=
  if sort =? "order_index"
  then [("status", 1%Z);
        ("order_index", if order =? "desc" then (-1)%Z else 1%Z)]
  else [(sort, if order =? "desc" then (-1)%Z else 1%Z)].

(** [Math.ceil(total / limitNum)]; [None] when the quotient is not a finite
    number. *)
Definition pages (total : nat) (limitNum : Z) : option Z :=
  if (limitNum =? 0)%Z then None
  else Some (- ((- Z.of_nat total) / limitNum))%Z.

Definition get_tasks (rq : ListQuery.t) (db : Db) : Response * Db :=
  if negb (Js.truthy (ListQuery.plan_id rq))
  then (res 400 (JError "plan_id is required"), db)
  else
    let pageNum := ListQuery.page rq in
    let limitNum := ListQuery.limit rq in
    let skip := ((pageNum - 1) * limitNum)%Z in
    if (skip <? 0)%Z
    then (res 500 (JError "Failed to fetch tasks"), db)
    else
      let found := filter (query rq) (Tasks db) in
      let tasks :=
        paginate skip limitNum
          (sort (sort_leb (sortObj (ListQuery.sort rq) (ListQuery.order rq)))
             found) in
      (res 200
         (JTasks tasks pageNum limitNum (List.length found)
            (pages (List.length found) limitNum)),
       db).

(** *** POST / *)

Definition in_plan (id : ObjectId) (plan : option ObjectId)
    (d : Task.ITask) : bool :=
  (Task._id d =? id) && eq_opt plan (Task.plan_id d).

Definition in_plan_among (ids : list ObjectId) (plan : option ObjectId)
    (d : Task.ITask) : bool :=
  Js.includes ids (Task._id d) && eq_opt plan (Task.plan_id d).

(** [Task.findOne({ plan_id, status }).sort({ order_index: -1 })] *)
Definition maxOrder (plan : option ObjectId) (st : option Status)
    (db : Db) : option Task.ITask :=
  hd_error
    (sort (sort_leb [("order_index", (-1)%Z)])
       (filter
          (fun d =>
             eq_opt plan (Task.plan_id d)
             && match st with
                | Some s => Status_eqb (Task.status d) s
                | None => false
                end)
          (Tasks db))).

(** [(maxOrder?.order_index || 0) + 1] *)
Definition default_order_index (plan : option ObjectId)
    (st : option Status) (db : Db) : Z :=
  (match maxOrder plan st db with
   | Some m => Js.or_num (Task.order_index m) 0
   | None => 0
   end + 1)%Z.

Definition post_task_handler (user : ObjectId) (body : TaskData.t)
    (db : Db) : Response * Db :=
  let taskData := TaskData.with_user user body in
  let plan := TaskData.plan_id taskData in
  if match TaskData.parent_id taskData with
     | Some pid =>
         Js.truthy (Some pid)
         && negb (is_some (find (in_plan pid plan) (Tasks db)))
     | None => false
     end
  then (res 400 (JError "Parent task not found or not in same plan"), db)
  else if match TaskData.dependency_ids taskData with
          | Some deps =>
              (0 <? List.length deps)%nat
              && negb (List.length (filter (in_plan_among deps plan) (Tasks db))
                       =? List.length deps)%nat
          | None => false
          end
  then (res 400
          (JError "Some dependencies not found or not in same plan"), db)
  else
    let taskData :=
      match TaskData.order_index taskData with
      | None =>
          TaskData.with_order_index
            (default_order_index plan (TaskData.status taskData) db)
            taskData
      | Some _ => taskData
      end in
    match save_new taskData db with
    | (Some task, db') => (res 201 (JTask task), db')
    | (None, db') => (res 500 (JError "Failed to create task"), db')
    end.

Definition post_task (user : ObjectId) (body : TaskData.t) (db : Db)
  : Response * Db :=
  validateRequest (Schema.taskSchema Date body) (post_task_handler user) db.

(** *** PATCH /:id *)

Definition opt_eqb (a b : option string) : bool :=
  match a, b with
  | Some x, Some y => x =? y
  | None, None => true
  | _, _ => false
  end.

(** [task.updated_by = user] *)
Definition with_updated_by (user : ObjectId) (d : TaskData.t)
  : TaskData.t :=
  Task.assign d
    {| TaskData._id := None; TaskData.plan_id := None;
       TaskData.title := None; TaskData.description := None;
       TaskData.status := None; TaskData.priority := None;
       TaskData.assignee_ids := None; TaskData.start_date := None;
       TaskData.due_date := None; TaskData.progress_pct := None;
       TaskData.parent_id := None; TaskData.dependency_ids := None;
       TaskData.tags := None; TaskData.estimate_hours := None;
       TaskData.order_index := None; TaskData.goal := None;
       TaskData.notes := None; TaskData.deliverables := None;
       TaskData.created_by := None; TaskData.updated_by := Some user |}.

Definition patch_task_handler (user id : ObjectId)
    (query_plan_id : option string) (body : TaskData.t) (db : Db)
  : Response * Db :=
  match find (in_plan id query_plan_id) (Tasks db) with
  | None => (res 404 (JError "Task not found"), db)
  | Some task =>
      if match TaskData.parent_id body with
         | Some pid =>
             Js.truthy (Some pid)
             && negb (opt_eqb (Some pid) (Task.parent_id task))
             && negb (is_some
                        (find (in_plan pid (Some (Task.plan_id task)))
                           (Tasks db)))
         | None => false
         end
      then (res 400 (JError "Parent task not found or not in same plan"),
            db)
      else if match TaskData.dependency_ids body with
              | Some deps =>
                  (0 <? List.length deps)%nat
                  && negb (List.length
                             (filter
                                (in_plan_among deps
                                   (Some (Task.plan_id task)))
                                (Tasks db))
                           =? List.length deps)%nat
              | None => false
              end
      then (res 400
              (JError "Some dependencies not found or not in same plan"),
            db)
      else
        match Task.construct
                (with_updated_by user (Task.assign (Task.to_data task) body))
                (Task._id task) with
        | Some task' =>
            (res 200 (JTask task'),
             with_Tasks (Collection.replaceOne Task._id task' (Tasks db))
               db)
        | None => (res 500 (JError "Failed to update task"), db)
        end
  end.

Definition patch_task (user id : ObjectId) (query_plan_id : option string)
    (body : TaskData.t) (db : Db) : Response * Db :=
  validateRequest (Schema.taskUpdateSchema body)
    (patch_task_handler user id query_plan_id) db.

(** *** DELETE /:id *)

Definition delete_task (id : ObjectId) (query_plan_id : option string)
    (db : Db) : Response * Db :=
  match find (in_plan id query_plan_id) (Tasks db) with
  | None => (res 404 (JError "Task not found"), db)
  | Some task =>
      let hasChildren :=
        find (fun d => eq_opt (Task.parent_id d) id) (Tasks db) in
      if is_some hasChildren
      then (res 400
              (JError
                 "Cannot delete task with subtasks. Delete subtasks first or use cascade delete."),
            db)
      else (res 200 (JMessage "Task deleted successfully"),
            with_Tasks
              (Collection.deleteOne (fun d => Task._id d =? id) (Tasks db))
              db)
  end.

(** *** POST /bulk *)

(** The body of the validation loop for one [taskData]: the response the
    loop returns with, if any. *)
Definition validate_one (tasks : list TaskData.t) (plan_id : option string)
    (db : Db) (taskData : TaskData.t) : option Response :=
  if match TaskData.parent_id taskData with
     | Some pid =>
         Js.truthy (Some pid)
         && negb (existsb (fun t => opt_eqb (TaskData._id t) (Some pid))
                    tasks
                  || is_some (find (in_plan pid plan_id) (Tasks db)))
     | None => false
     end
  then Some
         (res 400
            (JError
               ("Parent task "
                ++ str_or_undefined (TaskData.parent_id taskData)
                ++ " not found for task "
                ++ str_or_undefined (TaskData.title taskData))%string))
  else if match TaskData.dependency_ids taskData with
          | Some deps =>
              (0 <? List.length deps)%nat
              && let validDeps :=
                   filter (fun t => Js.includes_opt deps (TaskData._id t))
                     tasks in
                 let existingDeps :=
                   filter (in_plan_among deps plan_id) (Tasks db) in
                 negb (List.length validDeps + List.length existingDeps
                       =? List.length deps)%nat
          | None => false
          end
  then Some
         (res 400
            (JError
               ("Some dependencies not found for task "
                ++ str_or_undefined (TaskData.title taskData))%string))
  else None.

(** [for (const taskData of tasks) { ... }] with its early returns. *)
Fixpoint validate_loop (tasks : list TaskData.t) (plan_id : option string)
    (db : Db) (rest : list TaskData.t) : option Response :=
  match rest with
  | [] => None
  | taskData :: rest' =>
      match validate_one tasks plan_id db taskData with
      | Some r => Some r
      | None => validate_loop tasks plan_id db rest'
      end
  end.

Definition tasksToInsert (tasks : list TaskData.t)
    (plan_id : option string) (userId : ObjectId) : list TaskData.t :=
  map (fun taskData =>
         TaskData.with_user userId (TaskData.with_plan_id plan_id taskData))
    tasks.

(** The documents [insertMany] builds and validates before it writes; one
    invalid document makes it throw with nothing written. *)
Fixpoint construct_all (ds : list TaskData.t) (n : nat)
  : option (list Task.ITask) :=
  match ds with
  | [] => Some []
  | d :: ds' =>
      match Task.construct d (newObjectId n), construct_all ds' (S n) with
      | Some x, Some xs => Some (x :: xs)
      | _, _ => None
      end
  end.

Definition add_oids (n : nat) (db : Db) : Db :=
  {| Tasks := Tasks db; Users := Users db; Plans := Plans db;
     oids := oids db + n |}.

Definition post_bulk_handler (userId : ObjectId)
    (body : Schema.BulkTaskInput) (db : Db) : Response * Db :=
  let tasks := Schema.tasks body in
  let plan_id := Schema.plan_id body in
  match validate_loop tasks plan_id db tasks with
  | Some r => (r, db)
  | None =>
      let db1 := add_oids (List.length tasks) db in
      match construct_all (tasksToInsert tasks plan_id userId) (oids db)
      with
      | None => (res 500 (JError "Failed to create tasks"), db1)
      | Some docs =>
          match Collection.insertMany Task._id docs (Tasks db1) with
          | (true, c) =>
              (res 201
                 (JBulk
                    (Js.string_of_nat (List.length docs)
                     ++ " tasks created successfully")%string
                    docs),
               with_Tasks c db1)
          | (false, c) =>
              (res 500 (JError "Failed to create tasks"),
               with_Tasks c db1)
          end
      end
  end.

Definition post_bulk (userId : ObjectId) (body : Schema.BulkTaskInput)
    (db : Db) : Response * Db :=
  validateRequest (Schema.bulkTaskSchema body) (post_bulk_handler userId)
    db.

(** *** POST /reorder *)

Definition updates (task_ids : list string) (plan_id : option string)
    (user : ObjectId) : list (Collection.UpdateOne Task.ITask) :=
  Js.mapi
    (fun taskId index =>
       {| Collection.filter := in_plan taskId plan_id;
          Collection.update :=
            fun d =>
              Task.set_updated_by user
                (Task.set_order_index (Z.of_nat index + 1)%Z d) |})
    task_ids.

Definition post_reorder_handler (user : ObjectId)
    (body : Schema.ReorderTasksInput) (db : Db) : Response * Db :=
  let (c, modifiedCount) :=
    Collection.bulkWrite
      (updates (Schema.task_ids body) (Schema.reorder_plan_id body) user)
      (Tasks db) in
  (res 200 (JReorder "Tasks reordered successfully" modifiedCount),
   with_Tasks c db).

Definition post_reorder (user : ObjectId)
    (body : Schema.ReorderTasksInput) (db : Db) : Response * Db :=
  validateRequest (Schema.reorderTasksSchema body)
    (post_reorder_handler user) db.

End Routes.

End TasksRoute.

(** ** routes/plans.ts: POST /import *)

Module ImportData.

Record Person := {
  name : string;
  email : string;
  role : option Role
}.

Record TaskEntry := {
  title : string;
  description : option string;
  status : option Status;
  priority : option Priority;
  assignees : option (list Person);
  start_date : option string;
  due_date : option string;
  progress_pct : option Z;
  parent_id : option string;
  dependency_ids : option (list string);
  tags : option (list string);
  estimate_hours : option Z;
  order_index : option Z;
  goal : option string;
  notes : option string;
  deliverables : option string
}.

Record PlanInfo := {
  plan_name : string;
  plan_description : option string;
  members : option (list Person)
}.

Record t := {
  plan : PlanInfo;
  tasks : option (list TaskEntry)
}.

(** [.optional().default(d)] *)
Definition default {A : Type} (d : A) (o : option A) : option A :=
  match o with
  | Some _ => o
  | None => Some d
  end.

Section Parse.
(** The test of [z.string().email()]. *)
Variable isEmail : string -> bool.

Definition person_issues (with_role : bool) (p : Person)
  : list Schema.Issue :=
  (if isEmail (email p) then [] else [(["email"], "Invalid email")])
  ++ (if with_role
      then match role p with
           | Some owner => [(["role"], "Invalid enum value")]
           | _ => []
           end
      else []).

Definition indexed (k : string) {A : Type}
    (f : A -> list Schema.Issue) (l : list A) : list Schema.Issue :=
  List.concat
    (Js.mapi
       (fun a i => map (Schema.prefix [k; Js.string_of_nat i]) (f a))
       l).

Definition opt_list {A : Type} (o : option (list A)) : list A :=
  match o with
  | Some l => l
  | None => []
  end.

Definition task_issues (e : TaskEntry) : list Schema.Issue :=
  Schema.string_min1 "title" "Task title is required" (Some (title e))
  ++ indexed "assignees" (person_issues false) (opt_list (assignees e))
  ++ Schema.number_min0 "progress_pct" (progress_pct e)
  ++ Schema.number_max100 "progress_pct" (progress_pct e)
  ++ match estimate_hours e with
     | Some h =>
         if (h <=? 0)%Z
         then [(["estimate_hours"], "Number must be greater than 0")]
         else []
     | None => []
     end.

Definition member_default (p : Person) : Person :=
  {| name := name p; email := email p; role := default viewer (role p) |}.

Definition task_default (e : TaskEntry) : TaskEntry :=
  {| title := title e; description := description e;
     status := default todo (status e); priority := priority e;
     assignees := default [] (assignees e);
     start_date := start_date e; due_date := due_date e;
     progress_pct := default 0%Z (progress_pct e);
     parent_id := parent_id e;
     dependency_ids := default [] (dependency_ids e);
     tags := default [] (tags e);
     estimate_hours := estimate_hours e;
     order_index := default 0%Z (order_index e);
     goal := goal e; notes := notes e; deliverables := deliverables e |}.

(** The inline schema of the route, for [plan_data]. *)
Definition importSchema (d : t) : Schema.Parsed t :=
  Schema.finish
    (map (Schema.prefix ["plan_data"])
       (map (Schema.prefix ["plan"])
          (Schema.string_min1 "name" "Plan name is required"
             (Some (plan_name (plan d)))
           ++ Schema.string_max "name" 100 "Plan name too long"
                (Some (plan_name (plan d)))
           ++ Schema.string_max "description" 500 "Description too long"
                (plan_description (plan d))
           ++ indexed "members" (person_issues true)
                (opt_list (members (plan d))))
        ++ indexed "tasks" task_issues (opt_list (tasks d))))
    {| plan :=
         {| plan_name := plan_name (plan d);
            plan_description := plan_description (plan d);
            members :=
              Some (map member_default (opt_list (members (plan d)))) |};
       tasks := Some (map task_default (opt_list (tasks d))) |}.

End Parse.

End ImportData.

Module PlansRoute.

Section Routes.
Variable newObjectId : nat -> ObjectId.
Variable isEmail : string -> bool.
(** [new Date()] at the time of the request. *)
Variable now : Z.

(** The user collection has unique indexes on [email] and [_id]. *)
Definition Users_insert (u : User.IUser) (c : list User.IUser)
  : option (list User.IUser) :=
  if existsb (fun x => User.email x =? User.email u) c then None
  else Collection.insertOne User._id u c.

(** The body shared by the member and the assignee callbacks: look the user
    up by email, or save a placeholder; [None] is the [catch] branch. *)
Definition find_or_placeholder (p : ImportData.Person) (db : Db)
  : option ObjectId * Db :=
  match find
          (fun u =>
             User.email u
             =? Js.trim (User.lowercase (ImportData.email p)))
          (Users db) with
  | Some existingUser => (Some (User._id existingUser), db)
  | None =>
      let db1 := next_oid db in
      match User.construct (ImportData.name p) (ImportData.email p)
              "placeholder" true (newObjectId (oids db)) with
      | None => (None, db1)
      | Some placeholderUser =>
          match Users_insert placeholderUser (Users db1) with
          | None => (None, db1)
          | Some c => (Some (User._id placeholderUser), with_Users c db1)
          end
      end
  end.

(** [Promise.all(list.map(async ...))]: the callbacks are taken in list
    order, each one run to its end before the next. *)
Fixpoint all {A B : Type} (f : A -> nat -> Db -> B * Db) (k : nat)
    (l : list A) (db : Db) : list B * Db :=
  match l with
  | [] => ([], db)
  | a :: l' =>
      let (b, db1) := f a k db in
      let (bs, db2) := all f (S k) l' db1 in
      (b :: bs, db2)
  end.

(** [.filter(Boolean)] *)
Fixpoint filter_Boolean {A : Type} (l : list (option A)) : list A :=
  match l with
  | [] => []
  | Some a :: l' => a :: filter_Boolean l'
  | None :: l' => filter_Boolean l'
  end.

Definition memberPromise (memberData : ImportData.Person) (_ : nat)
    (db : Db) : option Plan.IPlanMember * Db :=
  let (u, db') := find_or_placeholder memberData db in
  (match u, ImportData.role memberData with
   | Some uid, Some r =>
       Some {| Plan.user_id := uid; Plan.role := r;
               Plan.joined_at := now |}
   | Some uid, None =>
       Some {| Plan.user_id := uid; Plan.role := viewer;
               Plan.joined_at := now |}
   | None, _ => None
   end, db').

Definition assigneePromise (assigneeData : ImportData.Person) (_ : nat)
    (db : Db) : option ObjectId * Db :=
  find_or_placeholder assigneeData db.

Definition taskPromise (plan_id userId : ObjectId)
    (taskData : ImportData.TaskEntry) (index : nat) (db : Db)
  : option Task.ITask * Db :=
  let (assignees, db1) :=
    all assigneePromise 0
      (ImportData.opt_list (ImportData.assignees taskData)) db in
  let assigneeIds := filter_Boolean assignees in
  TasksRoute.save_new newObjectId
    {| TaskData._id := None;
       TaskData.plan_id := Some plan_id;
       TaskData.title := Some (ImportData.title taskData);
       TaskData.description := ImportData.description taskData;
       TaskData.status := ImportData.status taskData;
       TaskData.priority := ImportData.priority taskData;
       TaskData.assignee_ids := Some assigneeIds;
       TaskData.start_date := ImportData.start_date taskData;
       TaskData.due_date := ImportData.due_date taskData;
       TaskData.progress_pct := ImportData.progress_pct taskData;
       TaskData.parent_id := ImportData.parent_id taskData;
       TaskData.dependency_ids := ImportData.dependency_ids taskData;
       TaskData.tags := ImportData.tags taskData;
       TaskData.estimate_hours := ImportData.estimate_hours taskData;
       TaskData.order_index :=
         Some
           match ImportData.order_index taskData with
           | Some v => Js.or_num v (Z.of_nat index)
           | None => Z.of_nat index
           end;
       TaskData.goal := ImportData.goal taskData;
       TaskData.notes := ImportData.notes taskData;
       TaskData.deliverables := ImportData.deliverables taskData;
       TaskData.created_by := Some userId;
       TaskData.updated_by := Some userId |}
    db1.

Definition post_import_handler (userId : ObjectId)
    (plan_data : ImportData.t) (db : Db) : Response * Db :=
  let db1 := next_oid db in
  match Plan.construct
          (ImportData.plan_name (ImportData.plan plan_data))
          (ImportData.plan_description (ImportData.plan plan_data))
          userId (newObjectId (oids db)) with
  | None => (res 500 (JError "Failed to import plan"), db1)
  | Some plan =>
      match Collection.insertOne Plan._id plan (Plans db1) with
      | None => (res 500 (JError "Failed to import plan"), db1)
      | Some plans =>
          let db2 := with_Plans plans db1 in
          let (members, db3) :=
            all memberPromise 0
              (ImportData.opt_list
                 (ImportData.members (ImportData.plan plan_data)))
              db2 in
          let processedMembers := filter_Boolean members in
          let plan' := Plan.set_members processedMembers plan in
          let db4 :=
            with_Plans (Collection.replaceOne Plan._id plan' (Plans db3))
              db3 in
          let (tasks, db5) :=
            all (taskPromise (Plan._id plan) userId) 0
              (ImportData.opt_list (ImportData.tasks plan_data)) db4 in
          let createdTasks := filter_Boolean tasks in
          (res 201
             (JImport plan' (List.length createdTasks)
                "Plan imported successfully"),
           db5)
      end
  end.

Definition post_import (userId : ObjectId) (plan_data : ImportData.t)
    (db : Db) : Response * Db :=
  validateRequest (ImportData.importSchema isEmail plan_data)
    (post_import_handler userId) db.

End Routes.

End PlansRoute.

(** ** Sample data, used to run the routes on concrete requests *)

Module Sample.

Definition digit (c : ascii) : option Z :=
  let n := nat_of_ascii c in
  if ((48 <=? n)%nat && (n <=? 57)%nat) then Some (Z.of_nat (n - 48))
  else None.

Fixpoint number (acc : Z) (l : list ascii) : option Z :=
  match l with
  | [] => Some acc
  | c :: l' =>
      match digit c with
      | Some v => number (acc * 10 + v)%Z l'
      | None => None
      end
  end.

(** Days between 1970-01-01 and a civil date. *)
Definition days_from_civil (y m d : Z) : Z :=
  let y' := (if m <=? 2 then y - 1 else y)%Z in
  let era := (y' / 400)%Z in
  let yoe := (y' - era * 400)%Z in
  let doy := ((153 * (if 2 <? m then m - 3 else m + 9) + 2) / 5 + d - 1)%Z in
  let doe := (yoe * 365 + yoe / 4 - yoe / 100 + doy)%Z in
  (era * 146097 + doe - 719468)%Z.

(** [new Date(s)] on the date-only ISO form [YYYY-MM-DD] the task model
    documents for [start_date] and [due_date]; any other string is taken as
    an invalid date. *)
Definition isoDate (s : string) : option Z :=
  match list_ascii_of_string s with
  | [y1; y2; y3; y4; "-"%char; m1; m2; "-"%char; d1; d2] =>
      match number 0 [y1; y2; y3; y4], number 0 [m1; m2], number 0 [d1; d2]
      with
      | Some y, Some m, Some d =>
          if ((1 <=? m) && (m <=? 12) && (1 <=? d) && (d <=? 31))%Z
          then Some (days_from_civil y m d * 86400000)%Z
          else None
      | _, _, _ => None
      end
  | _ => None
  end.

(** A generator of ObjectIds. *)
Definition oid (n : nat) : ObjectId := ("oid" ++ Js.string_of_nat n)%string.

Definition noSearch (_ : string) (_ : Task.ITask) : bool := false.

Definition isEmail (s : string) : bool :=
  existsb (Ascii.eqb "@"%char) (list_ascii_of_string s).

Definition task (id plan : ObjectId) (st : Status) (ord : Z)
    (parent : option ObjectId) : Task.ITask :=
  {| Task._id := id; Task.plan_id := plan; Task.title := id;
     Task.description := None; Task.status := st;
     Task.priority := Some medium; Task.assignee_ids := [];
     Task.start_date := None; Task.due_date := None;
     Task.progress_pct := 0%Z; Task.parent_id := parent;
     Task.dependency_ids := []; Task.tags := [];
     Task.estimate_hours := None; Task.order_index := ord;
     Task.goal := None; Task.notes := None; Task.deliverables := None;
     Task.created_by := "ann"; Task.updated_by := "ann" |}.

Definition db_of (ts : list Task.ITask) : Db :=
  {| Tasks := ts; Users := []; Plans := []; oids := 0 |}.

(** Plan P with A and B in the todo column, and a task of another plan. *)
Definition board : Db :=
  db_of [task "A" "P" todo 1 None; task "B" "P" todo 2 None;
         task "Z" "Q" todo 7 None].


(** Plan P where B is a subtask of A. *)
Definition family : Db :=
  db_of [task "A" "P" todo 1 None; task "B" "P" todo 2 (Some "A")].


(** A request body with the properties that tell the samples apart. *)
Definition body (id : option ObjectId) (plan title' : option string)
    (st : option Status) (start due : option string)
    (parent : option ObjectId) (deps : option (list ObjectId)) : TaskData.t :=
  {| TaskData._id := id; TaskData.plan_id := plan;
     TaskData.title := title'; TaskData.description := None;
     TaskData.status := st; TaskData.priority := None;
     TaskData.assignee_ids := None; TaskData.start_date := start;
     TaskData.due_date := due; TaskData.progress_pct := None;
     TaskData.parent_id := parent; TaskData.dependency_ids := deps;
     TaskData.tags := None; TaskData.estimate_hours := None;
     TaskData.order_index := None; TaskData.goal := None;
     TaskData.notes := None; TaskData.deliverables := None;
     TaskData.created_by := None; TaskData.updated_by := None |}.

Definition payload (plan title' : string) (st : Status) : TaskData.t :=
  body None (Some plan) (Some title') (Some st) None None None None.

(** A payload that starts on 2024-01-15 and is due on 2024-01-01. *)
Definition backwards (d : TaskData.t) : TaskData.t :=
  Task.assign d
    (body None None None None (Some "2024-01-15") (Some "2024-01-01") None
       None).

(** A payload that names itself as its parent. *)
Definition own_parent : TaskData.t :=
  body (Some "X") (Some "P") (Some "X") (Some todo) None None (Some "X")
    None.

(** A payload with the given dependency ids. *)
Definition depending (title' : string) (deps : list ObjectId) : TaskData.t :=
  body None (Some "P") (Some title') (Some todo) None None None (Some deps).

(** A payload that carries a client-supplied id. *)
Definition identified (id : ObjectId) (d : TaskData.t) : TaskData.t :=
  Task.assign d (body (Some id) None None None None None None None).





End Sample.

(** ** What a reorder does to one document

    The [update] of the operation built for position [index], and the effect
    of the whole batch on a single document. *)

Definition reorder_update (user : ObjectId) (index : nat) (d : Task.ITask)
  : Task.ITask :=
  Task.set_updated_by user (Task.set_order_index (Z.of_nat index + 1)%Z d).

Fixpoint reorder_one (user : ObjectId) (plan : option string) (k : nat)
    (ids : list string) (d : Task.ITask) : Task.ITask :=
  match ids with
  | [] => d
  | id :: ids' =>
      reorder_one user plan (S k) ids'
        (if TasksRoute.in_plan id plan d then reorder_update user k d else d)
  end.


(** ** Orders used to state the listing and creation contracts *)

(** Statuses ordered as the store orders their names. *)
Definition Status_lt (a b : Status) : Prop :=
  (Status_str a ?= Status_str b)%string = Lt.

(** Board order: by status first, then by [order_index], upwards or, with
    [desc], downwards. *)
Definition board_le (desc : bool) (a b : Task.ITask) : Prop :=
  Status_lt (Task.status a) (Task.status b)
  \/ (Task.status a = Task.status b
      /\ if desc then (Task.order_index b <= Task.order_index a)%Z
         else (Task.order_index a <= Task.order_index b)%Z).



(** The (plan, status) partition of the task collection. *)
Definition partition_of (plan : ObjectId) (st : Status) (db : Db)
  : list Task.ITask :=
  filter (fun d => (Task.plan_id d =? plan) && Status_eqb (Task.status d) st)
    (Tasks db).

(** ** Error categories of the contract, as the routes answer them *)

(** Delete blocked by existing children. *)
Definition ConflictError : Response :=
  res 400
    (JError
       "Cannot delete task with subtasks. Delete subtasks first or use cascade delete.").

(** A payload rejected by its schema: the response that
    [validateRequest] sends. *)
Definition ValidationError (r : Response) : Prop :=
  exists details, r = res 400 (JValidation "Validation failed" details).

(** ** Reference resolution for a bulk batch *)

(** The ids the client supplied for the payloads of a batch. *)
Definition client_ids (tasks : list TaskData.t) : list ObjectId :=
  flat_map
    (fun t =>
       match TaskData._id t with
       | Some i => [i]
       | None => []
       end)
    tasks.

(** The ids of the persisted tasks of a plan. *)
Definition plan_ids (plan : ObjectId) (db : Db) : list ObjectId :=
  map Task._id (filter (fun d => Task.plan_id d =? plan) (Tasks db)).

(** How many of [ids] are listed in [deps]. *)
Definition count_listed (deps ids : list ObjectId) : nat :=
  List.length (filter (Js.includes deps) ids).

(** The parent test of the bulk route: a non-empty [parent_id] names a
    payload of the batch or a persisted task of the plan. *)
Definition parent_found (tasks : list TaskData.t) (plan : ObjectId) (db : Db)
    (p : TaskData.t) : Prop :=
  forall pid,
    TaskData.parent_id p = Some pid -> pid <> "" ->
    In pid (client_ids tasks) \/ In pid (plan_ids plan db).

(** The dependency test of the bulk route: as many payloads and persisted
    tasks are listed as there are dependency ids. *)
Definition dependencies_counted (tasks : list TaskData.t) (plan : ObjectId)
    (db : Db) (p : TaskData.t) : Prop :=
  forall deps,
    TaskData.dependency_ids p = Some deps ->
    (count_listed deps (client_ids tasks)
     + count_listed deps (plan_ids plan db))%nat
    = List.length deps.

(** Every reference of [p] is one of [ids]. *)
Definition resolves (ids : list ObjectId) (p : TaskData.t) : Prop :=
  (forall pid, TaskData.parent_id p = Some pid -> pid <> "" -> In pid ids)
  /\ (forall deps dep,
         TaskData.dependency_ids p = Some deps -> In dep deps -> In dep ids).

(** The payloads of a batch other than the one at position [i]. *)
Definition others {A : Type} (i : nat) (l : list A) : list A :=
  firstn i l ++ skipn (S i) l.

(** The reading of the bulk contract in which a payload is checked against
    the persisted tasks of the plan and the other payloads of the batch. *)
Definition bulk_checked_against_others (newObjectId : nat -> ObjectId)
    (userId : ObjectId) (tasks : list TaskData.t) (plan : ObjectId) (db : Db)
  : Prop :=
  (exists i p,
      nth_error tasks i = Some p
      /\ ~ resolves (client_ids (others i tasks) ++ plan_ids plan db) p) ->
  Tasks
    (snd
       (TasksRoute.post_bulk newObjectId userId
          {| Schema.tasks := tasks; Schema.plan_id := Some plan |} db))
  = Tasks db.

(** ** Import outcomes *)




(** The generator has not yet produced any id of the store. *)
Definition fresh_from (newObjectId : nat -> ObjectId) (db : Db) : Prop :=
  forall n,
    oids db <= n ->
    ~ In (newObjectId n) (map Task._id (Tasks db))
    /\ ~ In (newObjectId n) (map User._id (Users db))
    /\ ~ In (newObjectId n) (map Plan._id (Plans db)).




(** ** middleware/planAccess.ts *)

Module PlanAccess.

Definition Role_str (r : Role) : string :=
  match r with
  | owner => "owner"
  | editor => "editor"
  | viewer => "viewer"
  end.

(** [const roleHierarchy = { owner: 3, editor: 2, viewer: 1 }] *)
Definition roleHierarchy (r : Role) : nat :=
  match r with
  | owner => 3
  | editor => 2
  | viewer => 1
  end.

(** [a || b] on strings that may be missing. *)
Definition or_str (a b : option string) : option string :=
  if Js.truthy a then a else b.

(** [Plan.findById(id)] *)
Definition findById (id : ObjectId) (db : Db) : option Plan.IPlan :=
  find (fun p => Plan._id p =? id) (Plans db).

(** [.populate('owner_id', 'name email')]: the user document of the owner,
    [None] when the reference resolves to [null]. *)
Definition populate_owner (plan : Plan.IPlan) (db : Db)
  : option User.IUser :=
  find (fun u => User._id u =? Plan.owner_id plan) (Users db).

(** [plan.members.find(m => m.user_id.toString() === userId)] *)
Definition member (userId : ObjectId) (plan : Plan.IPlan)
  : option Plan.IPlanMember :=
  find (fun m => Plan.user_id m =? userId) (Plan.members plan).

(** What the middleware does with a request: it answers it, or calls
    [next()] with [req.plan] (the plan, its owner populated) and
    [req.userRole] set. *)
Inductive Outcome :=
| Answered (r : Response)
| Next (plan : Plan.IPlan) (owner_doc : User.IUser) (userRole : Role).

(** The role check at the end of the middleware. *)
Definition check_role (requiredRole : Role) (plan : Plan.IPlan)
    (owner_doc : User.IUser) (userRole : Role) : Outcome :=
  if (roleHierarchy userRole <? roleHierarchy requiredRole)%nat
  then Answered
         (res 403
            (JError
               ("Requires " ++ Role_str requiredRole
                ++ " access or higher")%string))
  else Next plan owner_doc userRole.

(** [requirePlanAccess(requiredRole)]; [user] is [req.user], by its [_id].
    Reading [plan.owner_id._id] of a plan whose owner resolves to [null]
    throws, which the [catch] answers. *)
Definition requirePlanAccess (requiredRole : Role) (user : option ObjectId)
    (params_plan_id query_plan_id body_plan_id : option string) (db : Db)
  : Outcome :=
  let plan_id := or_str (or_str params_plan_id query_plan_id) body_plan_id in
  match user with
  | None => Answered (res 401 (JError "Authentication required"))
  | Some user_id =>
      match plan_id with
      | None => Answered (res 400 (JError "plan_id is required"))
      | Some id =>
          if id =? ""
          then Answered (res 400 (JError "plan_id is required"))
          else
            match findById id db with
            | None => Answered (res 404 (JError "Plan not found"))
            | Some plan =>
                match populate_owner plan db with
                | None =>
                    Answered (res 500 (JError "Internal server error"))
                | Some owner_doc =>
                    if User._id owner_doc =? user_id
                    then check_role requiredRole plan owner_doc owner
                    else
                      match member user_id plan with
                      | None =>
                          Answered
                            (res 403 (JError "No access to this plan"))
                      | Some m =>
                          check_role requiredRole plan owner_doc
                            (Plan.role m)
                      end
                end
            end
      end
  end.

Definition getUserPlanRole (userId planId : ObjectId) (db : Db)
  : option Role :=
  match findById planId db with
  | None => None
  | Some plan =>
      if Plan.owner_id plan =? userId then Some owner
      else
        match member userId plan with
        | Some m => Some (Plan.role m)
        | None => None
        end
  end.

Definition hasPlanAccess (userId planId : ObjectId) (requiredRole : Role)
    (db : Db) : bool :=
  match getUserPlanRole userId planId db with
  | None => false
  | Some userRole =>
      (roleHierarchy requiredRole <=? roleHierarchy userRole)%nat
  end.

End PlanAccess.

(** ** routes/tasks.ts: the routes as registered

    Each route is a chain: [validateRequest] where the route has a schema,
    then [requirePlanAccess], then the handler.  The task routes have no
    [:plan_id] parameter, so that the middleware reads the plan from the
    query string and then from the body; after [validateRequest] the body
    is the parsed one. *)

Module TasksRouter.

Section Routes.
Variable Date : string -> option Z.
Variable newObjectId : nat -> ObjectId.
Variable textSearch : string -> Task.ITask -> bool.

Definition guard (requiredRole : Role) (user : ObjectId)
    (query_plan_id body_plan_id : option string)
    (handler : Db -> Response * Db) (db : Db) : Response * Db :=
  match PlanAccess.requirePlanAccess requiredRole (Some user) None
          query_plan_id body_plan_id db with
  | PlanAccess.Answered r => (r, db)
  | PlanAccess.Next _ _ _ => handler db
  end.

(** [router.get("/", requirePlanAccess("viewer"), ...)] *)
Definition get_tasks (user : ObjectId) (rq : ListQuery.t)
    (body_plan_id : option string) (db : Db) : Response * Db :=
  guard viewer user (ListQuery.plan_id rq) body_plan_id
    (TasksRoute.get_tasks textSearch rq) db.

(** [router.post("/", validateRequest(...), requirePlanAccess("editor"),
    ...)] *)
Definition post_task (user : ObjectId) (query_plan_id : option string)
    (body : TaskData.t) (db : Db) : Response * Db :=
  validateRequest (Schema.taskSchema Date body)
    (fun parsed =>
       guard editor user query_plan_id (TaskData.plan_id parsed)
         (TasksRoute.post_task_handler newObjectId user parsed))
    db.

(** [router.patch("/:id", ...)] *)
Definition patch_task (user id : ObjectId) (query_plan_id : option string)
    (body : TaskData.t) (db : Db) : Response * Db :=
  validateRequest (Schema.taskUpdateSchema body)
    (fun parsed =>
       guard editor user query_plan_id (TaskData.plan_id parsed)
         (TasksRoute.patch_task_handler user id query_plan_id parsed))
    db.

(** [router.delete("/:id", requirePlanAccess("editor"), ...)] *)
Definition delete_task (user id : ObjectId)
    (query_plan_id body_plan_id : option string) (db : Db)
  : Response * Db :=
  guard editor user query_plan_id body_plan_id
    (TasksRoute.delete_task id query_plan_id) db.

(** [router.post("/bulk", ...)] *)
Definition post_bulk (user : ObjectId) (query_plan_id : option string)
    (body : Schema.BulkTaskInput) (db : Db) : Response * Db :=
  validateRequest (Schema.bulkTaskSchema body)
    (fun parsed =>
       guard editor user query_plan_id (Schema.plan_id parsed)
         (TasksRoute.post_bulk_handler newObjectId user parsed))
    db.

(** [router.post("/reorder", ...)] *)
Definition post_reorder (user : ObjectId) (query_plan_id : option string)
    (body : Schema.ReorderTasksInput) (db : Db) : Response * Db :=
  validateRequest (Schema.reorderTasksSchema body)
    (fun parsed =>
       guard editor user query_plan_id (Schema.reorder_plan_id parsed)
         (TasksRoute.post_reorder_handler user parsed))
    db.

End Routes.

End TasksRouter.

(** ** A team, used to run the guarded routes

    Ann owns plan P, where Bob is an editor and Cy a viewer; Cy owns plan Q;
    Dan belongs to no plan.  The tasks are those of [Sample.board]. *)

Module Team.

Definition user (id : ObjectId) : User.IUser :=
  {| User._id := id; User.email := (id ++ "@x.io")%string;
     User.password_hash := "hash"; User.name := id;
     User.is_placeholder := false |}.

Definition joined (id : ObjectId) (r : Role) : Plan.IPlanMember :=
  {| Plan.user_id := id; Plan.role := r; Plan.joined_at := 0%Z |}.

Definition P : Plan.IPlan :=
  {| Plan._id := "P"; Plan.name := "Launch"; Plan.description := None;
     Plan.owner_id := "ann";
     Plan.members := [joined "bob" editor; joined "cy" viewer] |}.

Definition Q : Plan.IPlan :=
  {| Plan._id := "Q"; Plan.name := "Side project";
     Plan.description := Some "Cy's own"; Plan.owner_id := "cy";
     Plan.members := [] |}.

Definition db : Db :=
  {| Tasks := Tasks Sample.board;
     Users := [user "ann"; user "bob"; user "cy"; user "dan"];
     Plans := [P; Q]; oids := 0 |}.

(** A task of plan P estimated at zero hours. *)
Definition quick : Task.ITask :=
  {| Task._id := "C"; Task.plan_id := "P"; Task.title := "Quick fix";
     Task.description := None; Task.status := todo;
     Task.priority := Some medium; Task.assignee_ids := ["bob"];
     Task.start_date := None; Task.due_date := None;
     Task.progress_pct := 0%Z; Task.parent_id := None;
     Task.dependency_ids := []; Task.tags := [];
     Task.estimate_hours := Some 0%Z; Task.order_index := 3%Z;
     Task.goal := None; Task.notes := None; Task.deliverables := None;
     Task.created_by := "ann"; Task.updated_by := "ann" |}.

(** The same store with that task. *)
Definition estimated : Db :=
  with_Tasks (Tasks db ++ [quick]) db.

(** The store after the user document of Cy has gone. *)
Definition departed : Db :=
  with_Users [user "ann"; user "bob"; user "dan"] db.

(** A rendering of a user document that differs from its id. *)
Definition rendered (u : User.IUser) : string :=
  ("{ _id: " ++ User._id u ++ " }")%string.

(** A clock that always shows the same day. *)
Definition clock (_ : Z) : string := "2024-05-06T07:08:09.000Z".

End Team.

(** ** routes/plans.ts: the plan and member routes *)

(** The body of [POST /]. *)
Module PlanInput.

Record t := {
  name : option string;
  description : option string
}.

End PlanInput.

(** The body of [POST /:plan_id/members], as sent and as parsed. *)
Module MemberInput.

Record t := {
  user_id : option string;
  role : option Role
}.

End MemberInput.

Module MemberBody.

Record t := {
  user_id : string;
  role : Role
}.

End MemberBody.

(** The document [GET /:plan_id/export] sends. *)
Module ExportData.

Record t := {
  data : ImportData.t;
  exported_at : string;
  exported_by : ImportData.Person;
  version : string
}.

End ExportData.

Module PlansRouter.

(** What a plan route sends: one of the bodies of the task routes, a plan
    document, a plan with its task count, the plans of a user, or an export
    under its file name.  References are left unexpanded. *)
Inductive Reply :=
| Sent (r : Response)
| SentPlan (status : nat) (plan : Plan.IPlan)
| SentDetails (plan : Plan.IPlan) (task_count : nat)
| SentPlans (plans : list Plan.IPlan)
| SentExport (filename : string) (exportData : ExportData.t).

(** Modelled from the spec: [validateRequest] in front of a plan route,
    which rejects as [validateRequest] does in front of a task route. *)
Definition validated {A : Type} (parsed : Schema.Parsed A)
    (handler : A -> Db -> Reply * Db) (db : Db) : Reply * Db :=
  match parsed with
  | Schema.Valid body => handler body db
  | Schema.Invalid issues =>
      (Sent
         (res 400
            (JValidation "Validation failed"
               (map (fun i => (String.concat "." ("body" :: fst i), snd i))
                  issues))),
       db)
  end.

(** [requirePlanAccess(requiredRole)] in front of a handler of a
    [/:plan_id] route.  A route parameter is never empty, so that the query
    string and the body are not consulted. *)
Definition guard (requiredRole : Role) (user : ObjectId) (plan_id : string)
    (handler : Plan.IPlan -> User.IUser -> Db -> Reply * Db) (db : Db)
  : Reply * Db :=
  match PlanAccess.requirePlanAccess requiredRole (Some user) (Some plan_id)
          None None db with
  | PlanAccess.Answered r => (Sent r, db)
  | PlanAccess.Next plan owner_doc _ => handler plan owner_doc db
  end.

Definition createPlanSchema (b : PlanInput.t) : Schema.Parsed PlanInput.t :=
  Schema.finish
    (Schema.required "name" (PlanInput.name b)
     ++ Schema.string_min1 "name" "Plan name is required" (PlanInput.name b)
     ++ Schema.string_max "name" 100 "Plan name too long" (PlanInput.name b)
     ++ Schema.string_max "description" 500 "Description too long"
          (PlanInput.description b))
    b.

(** [z.object({ user_id: z.string().min(1, ...),
                role: z.enum(["editor", "viewer"]).default("viewer") })] *)
Definition memberSchema (b : MemberInput.t) : Schema.Parsed MemberBody.t :=
  match MemberInput.user_id b with
  | None => Schema.Invalid (Schema.required "user_id" (MemberInput.user_id b))
  | Some user_id =>
      Schema.finish
        (Schema.string_min1 "user_id" "User ID is required" (Some user_id)
         ++ match MemberInput.role b with
            | Some owner => [(["role"], "Invalid enum value")]
            | _ => []
            end)
        {| MemberBody.user_id := user_id;
           MemberBody.role :=
             match MemberInput.role b with
             | Some r => r
             | None => viewer
             end |}
  end.


(** [plan.save()] of a loaded plan. *)
Definition save (plan : Plan.IPlan) (db : Db) : Db :=
  with_Plans (Collection.replaceOne Plan._id plan (Plans db)) db.


(** [/[^a-zA-Z0-9]/] on one character. *)
Definition alphanumeric (c : ascii) : bool :=
  let n := nat_of_ascii c in
  ((48 <=? n) && (n <=? 57) || (65 <=? n) && (n <=? 90)
   || (97 <=? n) && (n <=? 122))%nat.

(** [name.replace(/[^a-zA-Z0-9]/g, '-')] *)
Fixpoint replace_others (s : string) : string :=
  match s with
  | String c s' =>
      String (if alphanumeric c then c else "-"%char) (replace_others s')
  | EmptyString => EmptyString
  end.

(** [s.split('T')[0]] *)
Fixpoint before_T (s : string) : string :=
  match s with
  | String c s' =>
      if Ascii.eqb c "T"%char then EmptyString else String c (before_T s')
  | EmptyString => EmptyString
  end.

(** The name and email of a populated user reference. *)
Definition name_email (u : User.IUser) : ImportData.Person :=
  {| ImportData.name := User.name u; ImportData.email := User.email u;
     ImportData.role := None |}.

(** Populated references of an array path: the ones that resolve to no
    user are left out. *)
Fixpoint populate (ids : list ObjectId) (users : list User.IUser)
  : list User.IUser :=
  match ids with
  | [] => []
  | id :: ids' =>
      match find (fun u => User._id u =? id) users with
      | Some u => u :: populate ids' users
      | None => populate ids' users
      end
  end.

(** [plan.members.map(member => ({ name: member.user_id.name, ... }))] on
    populated members; reading the name of a reference that resolved to
    [null] throws. *)
Fixpoint members_out (ms : list Plan.IPlanMember) (users : list User.IUser)
  : option (list ImportData.Person) :=
  match ms with
  | [] => Some []
  | m :: ms' =>
      match find (fun u => User._id u =? Plan.user_id m) users,
            members_out ms' users with
      | Some u, Some out =>
          Some ({| ImportData.name := User.name u;
                   ImportData.email := User.email u;
                   ImportData.role := Some (Plan.role m) |} :: out)
      | _, _ => None
      end
  end.

Definition task_out (users : list User.IUser) (task : Task.ITask)
  : ImportData.TaskEntry :=
  {| ImportData.title := Task.title task;
     ImportData.description := Task.description task;
     ImportData.status := Some (Task.status task);
     ImportData.priority := Task.priority task;
     ImportData.assignees :=
       Some (map name_email (populate (Task.assignee_ids task) users));
     ImportData.start_date := Task.start_date task;
     ImportData.due_date := Task.due_date task;
     ImportData.progress_pct := Some (Task.progress_pct task);
     ImportData.parent_id := Task.parent_id task;
     ImportData.dependency_ids := Some (Task.dependency_ids task);
     ImportData.tags := Some (Task.tags task);
     ImportData.estimate_hours := Task.estimate_hours task;
     ImportData.order_index := Some (Task.order_index task);
     ImportData.goal := Task.goal task;
     ImportData.notes := Task.notes task;
     ImportData.deliverables := Task.deliverables task |}.

Section Routes.
Variable newObjectId : nat -> ObjectId.
(** [new Date()] at the time of the request, at a second call within the
    same request, and [toISOString()] of a date. *)
Variable now : Z.
Variable later : Z.
Variable toISOString : Z -> string.
(** [Document.prototype.toString] of a populated user reference. *)
Variable toString : User.IUser -> string.

(** *** GET / : the plans of the user, latest first; [created_at] grows
    with the order of insertion. *)
Definition get_plans (userId : ObjectId) (db : Db) : Reply * Db :=
  (SentPlans
     (rev
        (filter
           (fun p =>
              (Plan.owner_id p =? userId)
              || existsb (fun m => Plan.user_id m =? userId)
                   (Plan.members p))
           (Plans db))),
   db).

(** *** POST / *)
Definition post_plan_handler (userId : ObjectId) (body : PlanInput.t)
    (db : Db) : Reply * Db :=
  let db1 := next_oid db in
  match match PlanInput.name body with
        | Some name =>
            Plan.construct name (PlanInput.description body) userId
              (newObjectId (oids db))
        | None => None
        end with
  | None => (Sent (res 500 (JError "Failed to create plan")), db1)
  | Some plan =>
      match Collection.insertOne Plan._id plan (Plans db1) with
      | None => (Sent (res 500 (JError "Failed to create plan")), db1)
      | Some plans => (SentPlan 201 plan, with_Plans plans db1)
      end
  end.

Definition post_plan (userId : ObjectId) (body : PlanInput.t) (db : Db)
  : Reply * Db :=
  validated (createPlanSchema body) (post_plan_handler userId) db.

(** *** GET /:plan_id *)
Definition get_plan (user : ObjectId) (plan_id : string) (db : Db)
  : Reply * Db :=
  guard viewer user plan_id
    (fun _ _ db =>
       match PlanAccess.findById plan_id db with
       | None => (Sent (res 404 (JError "Plan not found")), db)
       | Some plan =>
           (SentDetails plan
              (List.length
                 (filter (fun d => Task.plan_id d =? Plan._id plan)
                    (Tasks db))),
            db)
       end)
    db.

(** *** DELETE /:plan_id *)
Definition delete_plan (user : ObjectId) (plan_id : string) (db : Db)
  : Reply * Db :=
  guard owner user plan_id
    (fun _ _ db =>
       let db1 :=
         with_Tasks
           (filter (fun d => negb (Task.plan_id d =? plan_id)) (Tasks db))
           db in
       (Sent (res 200 (JMessage "Plan deleted successfully")),
        with_Plans
          (Collection.deleteOne (fun p => Plan._id p =? plan_id) (Plans db1))
          db1))
    db.

(** *** POST /:plan_id/members *)
Definition post_member_handler (body : MemberBody.t) (plan : Plan.IPlan)
    (owner_doc : User.IUser) (db : Db) : Reply * Db :=
  let user_id := MemberBody.user_id body in
  match find (fun u => User._id u =? user_id) (Users db) with
  | None => (Sent (res 404 (JError "User not found")), db)
  | Some user =>
      if toString owner_doc =? user_id
      then (Sent (res 400 (JError "User is already the owner")), db)
      else if is_some (PlanAccess.member user_id plan)
      then (Sent (res 400 (JError "User is already a member")), db)
      else
        let plan' :=
          Plan.set_members
            (Plan.members plan
             ++ [{| Plan.user_id := user_id;
                    Plan.role := MemberBody.role body;
                    Plan.joined_at := now |}])
            plan in
        (SentPlan 200 plan', save plan' db)
  end.

Definition post_member (user : ObjectId) (plan_id : string)
    (body : MemberInput.t) (db : Db) : Reply * Db :=
  validated (memberSchema body)
    (fun parsed => guard owner user plan_id (post_member_handler parsed))
    db.



(** *** GET /:plan_id/export *)
Definition exportData (user : User.IUser) (plan : Plan.IPlan)
    (members : list ImportData.Person) (tasks : list Task.ITask)
    (users : list User.IUser) : ExportData.t :=
  {| ExportData.data :=
       {| ImportData.plan :=
            {| ImportData.plan_name := Plan.name plan;
               ImportData.plan_description := Plan.description plan;
               ImportData.members := Some members |};
          ImportData.tasks := Some (map (task_out users) tasks) |};
     ExportData.exported_at := toISOString now;
     ExportData.exported_by := name_email user;
     ExportData.version := "1.0" |}.

Definition filename (plan : Plan.IPlan) : string :=
  ("plan-" ++ replace_others (Plan.name plan) ++ "-"
   ++ before_T (toISOString later) ++ ".json")%string.

Definition get_export (user : User.IUser) (plan_id : string) (db : Db)
  : Reply * Db :=
  guard viewer (User._id user) plan_id
    (fun _ _ db =>
       match PlanAccess.findById plan_id db with
       | None => (Sent (res 404 (JError "Plan not found")), db)
       | Some plan =>
           let tasks :=
             sort (sort_leb [("order_index", 1%Z)])
               (filter (fun d => Task.plan_id d =? Plan._id plan)
                  (Tasks db)) in
           match members_out (Plan.members plan) (Users db) with
           | None => (Sent (res 500 (JError "Failed to export plan")), db)
           | Some members =>
               (SentExport (filename plan)
                  (exportData user plan members tasks (Users db)),
                db)
           end
       end)
    db.

End Routes.

End PlansRouter.

(** ** routes/auth.ts: GET /me *)

Module AuthRoute.

(** One entry of [plans] in the answer. *)
Record PlanSummary := {
  _id : ObjectId;
  name : string;
  role : Role
}.

(** [plan.owner_id && plan.owner_id._id.toString() === user._id.toString()]
    on the populated owner. *)
Definition isOwner (user : User.IUser) (plan : Plan.IPlan) (db : Db) : bool :=
  match PlanAccess.populate_owner plan db with
  | Some o => User._id o =? User._id user
  | None => false
  end.

(** [plan.members.find(m => m.user_id &&
      m.user_id._id.toString() === user._id.toString())?.role]
    on the populated members. *)
Definition memberRole (user : User.IUser) (plan : Plan.IPlan) (db : Db)
  : option Role :=
  option_map Plan.role
    (find
       (fun m =>
          match find (fun u => User._id u =? Plan.user_id m) (Users db) with
          | Some u => User._id u =? User._id user
          | None => false
          end)
       (Plan.members plan)).

Definition summary (user : User.IUser) (db : Db) (plan : Plan.IPlan)
  : PlanSummary :=
  {| _id := Plan._id plan;
     name := Plan.name plan;
     role :=
       if isOwner user plan db then owner
       else match memberRole user plan db with
            | Some r => r
            | None => viewer
            end |}.

(** The handler behind [authenticateToken]; [user] is [req.user].  The
    answer is the user and the summaries of the user's plans. *)
Definition get_me (user : User.IUser) (db : Db)
  : (User.IUser * list PlanSummary) * Db :=
  let plans :=
    filter
      (fun p =>
         (Plan.owner_id p =? User._id user)
         || existsb (fun m => Plan.user_id m =? User._id user)
              (Plan.members p))
      (Plans db) in
  ((user, map (summary user db) plans), db).

End AuthRoute.

(** ** The import dialog of the client ([ImportPlanModal])

    The dialog reads an exported file, lets the user edit the plan, and
    posts a cleaned copy to [POST /plans/import]. *)

Module ImportPlanModal.

(** The state [editablePlan]. *)
Record EditablePlan := {
  name : string;
  description : string;
  members : list ImportData.Person
}.

(** [parseFile] after [JSON.parse]: the states [planData] and
    [editablePlan]; [None] is the [catch] branch, taken when [tasks] is
    missing, or when mapping over the missing [members] throws. *)
Definition parseFile (data : ExportData.t)
  : option (ImportData.t * EditablePlan) :=
  let d := ExportData.data data in
  match ImportData.tasks d, ImportData.members (ImportData.plan d) with
  | Some _, Some ms =>
      Some (d,
            {| name := ImportData.plan_name (ImportData.plan d);
               description :=
                 match ImportData.plan_description (ImportData.plan d) with
                 | Some s => s
                 | None => ""
                 end;
               members := ms |})
  | _, _ => None
  end.

(** [s || undefined] on a string. *)
Definition or_undefined (o : option string) : option string :=
  match o with
  | Some s => if s =? "" then None else Some s
  | None => None
  end.

(** [n || undefined] on a number. *)
Definition num_or_undefined (o : option Z) : option Z :=
  match o with
  | Some n => if (n =? 0)%Z then None else Some n
  | None => None
  end.

(** [n || 0] on a number. *)
Definition num_or_0 (o : option Z) : option Z :=
  match o with
  | Some n => Some n
  | None => Some 0%Z
  end.

(** [l || []] on an array. *)
Definition list_or_empty {A : Type} (o : option (list A))
  : option (list A) :=
  match o with
  | Some l => Some l
  | None => Some []
  end.

(** One task of [modifiedPlanData]. *)
Definition clean_task (task : ImportData.TaskEntry) : ImportData.TaskEntry :=
  {| ImportData.title := ImportData.title task;
     ImportData.description := or_undefined (ImportData.description task);
     ImportData.status := ImportData.status task;
     ImportData.priority := ImportData.priority task;
     ImportData.assignees := list_or_empty (ImportData.assignees task);
     ImportData.start_date := or_undefined (ImportData.start_date task);
     ImportData.due_date := or_undefined (ImportData.due_date task);
     ImportData.progress_pct := num_or_0 (ImportData.progress_pct task);
     ImportData.parent_id := or_undefined (ImportData.parent_id task);
     ImportData.dependency_ids :=
       list_or_empty (ImportData.dependency_ids task);
     ImportData.tags := list_or_empty (ImportData.tags task);
     ImportData.estimate_hours :=
       num_or_undefined (ImportData.estimate_hours task);
     ImportData.order_index := num_or_0 (ImportData.order_index task);
     ImportData.goal := or_undefined (ImportData.goal task);
     ImportData.notes := or_undefined (ImportData.notes task);
     ImportData.deliverables :=
       or_undefined (ImportData.deliverables task) |}.

(** [modifiedPlanData] of [handleImport], the value posted as
    [plan_data]. *)
Definition modifiedPlanData (planData : ImportData.t)
    (editablePlan : EditablePlan) : ImportData.t :=
  {| ImportData.plan :=
       {| ImportData.plan_name := name editablePlan;
          ImportData.plan_description :=
            or_undefined (Some (description editablePlan));
          ImportData.members := Some (members editablePlan) |};
     ImportData.tasks :=
       Some (map clean_task (ImportData.opt_list (ImportData.tasks planData)))
  |}.

End ImportPlanModal.

(** ** Notions the statements on access and on the routes use *)

(** The reply of a route that did not reach its handler. *)
Definition turned_away (r : Response * Db) (db : Db) : Prop :=
  snd r = db /\ 400 <= status (fst r).

(** The tasks of a plan, in the order of the collection. *)
Definition tasks_of (plan : ObjectId) (db : Db) : list Task.ITask :=
  filter (fun d => Task.plan_id d =? plan) (Tasks db).

(** A non-empty [parent_id] of the payload names a task of [plan]. *)
Definition parent_in_plan (plan : ObjectId) (db : Db) (t : Task.ITask)
  : Prop :=
  forall pid,
    Task.parent_id t = Some pid -> pid <> "" ->
    exists p, In p (Tasks db) /\ Task._id p = pid /\ Task.plan_id p = plan.

(** Every dependency names a task of [plan], and none is listed twice. *)
Definition dependencies_in_plan (plan : ObjectId) (db : Db) (t : Task.ITask)
  : Prop :=
  NoDup (Task.dependency_ids t)
  /\ forall dep,
       In dep (Task.dependency_ids t) ->
       exists p, In p (Tasks db) /\ Task._id p = dep /\ Task.plan_id p = plan.

(** Every non-empty parent reference names a task of the same plan. *)
Definition parents_resolve (db : Db) : Prop :=
  forall t, In t (Tasks db) -> parent_in_plan (Task.plan_id t) db t.

(** A reply in the 4xx range. *)
Definition client_error (r : Response) : Prop :=
  400 <= status r < 500.

(** How many entries of [ids] name a document of [plan] in [c]: the
    [modifiedCount] of a reorder. *)
Definition matched_entries (ids : list string) (plan : option string)
    (c : list Task.ITask) : nat :=
  List.length (filter (fun id => existsb (TasksRoute.in_plan id plan) c) ids).

(** The query the board sends for one column: the tasks of [plan] with
    status [st] in board order, first page. *)
Definition column_query (plan : ObjectId) (st : Status) (limit : Z)
  : ListQuery.t :=
  {| ListQuery.plan_id := Some plan; ListQuery.q := None;
     ListQuery.status := Some (ListQuery.One (Status_str st));
     ListQuery.assignee := None; ListQuery.tag := None;
     ListQuery.priority := None; ListQuery.parent_id := None;
     ListQuery.page := 1%Z; ListQuery.limit := limit;
     ListQuery.sort := "order_index"; ListQuery.order := "asc" |}.

(** [a] comes no later than [b] in [ids]. *)
Definition listed_before (ids : list string) (a b : string) : Prop :=
  exists i j, nth_error ids i = Some a /\ nth_error ids j = Some b /\ i <= j.

(** The role [getUserPlanRole] reads off a plan document. *)
Definition role_in (userId : ObjectId) (plan : Plan.IPlan) : option Role :=
  if Plan.owner_id plan =? userId then Some owner
  else option_map Plan.role (PlanAccess.member userId plan).


(** Every member of the plan is a stored user. *)
Definition members_resolve (plan : Plan.IPlan) (db : Db) : Prop :=
  forall m,
    In m (Plan.members plan) -> In (Plan.user_id m) (map User._id (Users db)).

(** The exported entry of a member, its user being [u]. *)
Definition member_entry (m : Plan.IPlanMember) (u : User.IUser)
  : ImportData.Person :=
  {| ImportData.name := User.name u; ImportData.email := User.email u;
     ImportData.role := Some (Plan.role m) |}.

(** Every stored document passes the validators of its model, no member
    carries the owner role, and the stored emails pass the email test of
    the import schema. *)
Definition models_validated (isEmail : string -> bool) (db : Db) : Prop :=
  (forall p,
      In p (Plans db) ->
      Plan.name p <> "" /\ String.length (Plan.name p) <= 100
      /\ (forall d, Plan.description p = Some d -> String.length d <= 500)
      /\ (forall m, In m (Plan.members p) -> Plan.role m <> owner))
  /\ (forall u, In u (Users db) -> isEmail (User.email u) = true)
  /\ (forall t,
         In t (Tasks db) ->
         Task.title t <> ""
         /\ (0 <= Task.progress_pct t <= 100)%Z
         /\ (forall h, Task.estimate_hours t = Some h -> (0 <= h)%Z)).

(** * Properties *)

(** ** The document store *)
Section CollectionFacts.
Context {D : Type}.
Variable key : D -> ObjectId.

Lemma updateOne_length (f : D -> bool) (u : D -> D) (c : list D) :
  List.length (fst (Collection.updateOne f u c)) = List.length c.
Proof.
  induction c as [|d c IH]; simpl; [reflexivity|].
  destruct (f d); simpl; [reflexivity|].
  destruct (Collection.updateOne f u c) as [c' n]; simpl in *.
  now rewrite IH.
Qed.

Lemma updateOne_count (f : D -> bool) (u : D -> D) (c : list D) :
  snd (Collection.updateOne f u c) = if existsb f c then 1 else 0.
Proof.
  induction c as [|d c IH]; simpl; [reflexivity|].
  destruct (f d); simpl; [reflexivity|].
  destruct (Collection.updateOne f u c) as [c' n]; simpl in *.
  exact IH.
Qed.

Lemma updateOne_frame (f : D -> bool) (u : D -> D) (c : list D) j d :
  nth_error c j = Some d -> f d = false ->
  nth_error (fst (Collection.updateOne f u c)) j = Some d.
Proof.
  revert j; induction c as [|x c IH]; intros j Hj Hf; [destruct j; discriminate|].
  simpl. destruct (f x) eqn:Hx.
  - destruct j; simpl in *; [|assumption].
    injection Hj as ->. congruence.
  - destruct (Collection.updateOne f u c) as [c' n] eqn:E; simpl in *.
    destruct j; simpl in *; [assumption|].
    now apply IH.
Qed.

Lemma updateOne_existsb (f p : D -> bool) (u : D -> D) (c : list D) :
  (forall x, p (u x) = p x) ->
  existsb p (fst (Collection.updateOne f u c)) = existsb p c.
Proof.
  intros Hp. induction c as [|x c IH]; simpl; [reflexivity|].
  destruct (f x); simpl.
  - now rewrite Hp.
  - destruct (Collection.updateOne f u c) as [c' n]; simpl in *.
    now rewrite IH.
Qed.

(** Under the unique index a filter that pins the key rewrites every
    match, of which there is at most one. *)
Lemma updateOne_map (f : D -> bool) (u : D -> D) (k : ObjectId)
    (c : list D) :
  NoDup (map key c) ->
  (forall x, f x = true -> key x = k) ->
  fst (Collection.updateOne f u c) = map (fun d => if f d then u d else d) c.
Proof.
  intros Hnd Hk. induction c as [|x c IH]; simpl; [reflexivity|].
  inversion Hnd as [|? ? Hx Hc]; subst.
  destruct (f x) eqn:Hfx; simpl.
  - f_equal. rewrite <- (map_id c) at 1. apply map_ext_in.
    intros y Hy. destruct (f y) eqn:Hfy; [|reflexivity].
    exfalso. apply Hx. rewrite (Hk _ Hfx), <- (Hk _ Hfy).
    now apply in_map.
  - destruct (Collection.updateOne f u c) as [c' n]; simpl in *.
    now rewrite IH.
Qed.

Lemma bulkWrite_frame (ops : list (Collection.UpdateOne D)) (c : list D)
    j d :
  nth_error c j = Some d ->
  (forall op, In op ops -> Collection.filter op d = false) ->
  nth_error (fst (Collection.bulkWrite ops c)) j = Some d.
Proof.
  revert c; induction ops as [|op ops IH]; intros c Hj Hops; [assumption|].
  simpl.
  destruct (Collection.updateOne (Collection.filter op)
              (Collection.update op) c) as [c1 n1] eqn:E1.
  destruct (Collection.bulkWrite ops c1) as [c2 n2] eqn:E2. simpl.
  change c2 with (fst (c2, n2)). rewrite <- E2. apply IH.
  - change c1 with (fst (c1, n1)). rewrite <- E1.
    apply updateOne_frame; [assumption|]. apply Hops. now left.
  - intros op' Hin. apply Hops. now right.
Qed.

End CollectionFacts.

Lemma mapi_from_In {A B : Type} (f : A -> nat -> B) (l : list A) k b :
  In b (Js.mapi_from k f l) -> exists a i, In a l /\ b = f a i.
Proof.
  revert k; induction l as [|a l IH]; intros k H; [destruct H|].
  destruct H as [<-|H].
  - exists a, k. split; [now left|reflexivity].
  - destruct (IH _ H) as (a' & i & Ha & ->). exists a', i.
    split; [now right|reflexivity].
Qed.

Lemma in_plan_true id plan d :
  TasksRoute.in_plan id plan d = true ->
  Task._id d = id /\ plan = Some (Task.plan_id d).
Proof.
  unfold TasksRoute.in_plan. intros H.
  apply andb_prop in H as [H1 H2]. apply String.eqb_eq in H1.
  destruct plan as [p|]; [|discriminate]. simpl in H2.
  apply String.eqb_eq in H2. subst. auto.
Qed.

Lemma in_plan_self d :
  TasksRoute.in_plan (Task._id d) (Some (Task.plan_id d)) d = true.
Proof.
  unfold TasksRoute.in_plan. simpl. now rewrite !String.eqb_refl.
Qed.

Lemma in_plan_update id plan user k d :
  TasksRoute.in_plan id plan (reorder_update user k d)
  = TasksRoute.in_plan id plan d.
Proof. reflexivity. Qed.

Lemma reorder_update_twice user i k d :
  reorder_update user i (reorder_update user k d) = reorder_update user i d.
Proof. reflexivity. Qed.

Lemma reorder_one_id user plan ids : forall k d,
  Task._id (reorder_one user plan k ids d) = Task._id d.
Proof.
  induction ids as [|id ids IH]; intros k d; simpl; [reflexivity|].
  rewrite IH. now destruct (TasksRoute.in_plan id plan d).
Qed.

Lemma reorder_one_skip user plan ids : forall k d,
  ~ In (Task._id d) ids -> reorder_one user plan k ids d = d.
Proof.
  induction ids as [|id ids IH]; intros k d Hn; simpl; [reflexivity|].
  destruct (TasksRoute.in_plan id plan d) eqn:E.
  - apply in_plan_true in E as [E _]. exfalso. apply Hn. now left.
  - apply IH. intros H. apply Hn. now right.
Qed.

Lemma reorder_one_last user plan ids : forall k i d,
  nth_error ids i = Some (Task._id d) ->
  plan = Some (Task.plan_id d) ->
  ~ In (Task._id d) (skipn (S i) ids) ->
  reorder_one user plan k ids d = reorder_update user (k + i) d.
Proof.
  induction ids as [|id ids IH]; intros k i d Hi Hp Hl;
    [destruct i; discriminate|].
  destruct i as [|i]; simpl in *.
  - injection Hi as ->. rewrite Hp, in_plan_self, Nat.add_0_r.
    apply reorder_one_skip. exact Hl.
  - destruct (TasksRoute.in_plan id plan d).
    + rewrite (IH (S k) i); try assumption.
      * rewrite reorder_update_twice. f_equal. lia.
    + rewrite (IH (S k) i); try assumption. f_equal. lia.
Qed.

Lemma bulkWrite_updates user plan ids : forall k c,
  NoDup (map Task._id c) ->
  fst (Collection.bulkWrite
         (Js.mapi_from k
            (fun taskId index =>
               {| Collection.filter := TasksRoute.in_plan taskId plan;
                  Collection.update := reorder_update user index |}) ids) c)
  = map (reorder_one user plan k ids) c.
Proof.
  induction ids as [|id ids IH]; intros k c Hnd; simpl.
  - now rewrite map_id.
  - pose proof (updateOne_map Task._id (TasksRoute.in_plan id plan)
                  (reorder_update user k) id c Hnd) as Hm.
    destruct (Collection.updateOne (TasksRoute.in_plan id plan)
                (reorder_update user k) c) as [c1 n1].
    simpl in Hm. rewrite Hm by (intros x Hx; now apply in_plan_true in Hx).
    match goal with
    | |- context [Collection.bulkWrite ?ops ?c'] =>
        specialize (IH (S k) c');
        destruct (Collection.bulkWrite ops c') as [c2 n2]
    end.
    simpl in *. rewrite IH.
    + rewrite map_map. reflexivity.
    + rewrite map_map.
      erewrite map_ext; [exact Hnd|].
      intros d. now destruct (TasksRoute.in_plan id plan d).
Qed.

Lemma bulkWrite_count user plan ids : forall k c,
  snd (Collection.bulkWrite
         (Js.mapi_from k
            (fun taskId index =>
               {| Collection.filter := TasksRoute.in_plan taskId plan;
                  Collection.update := reorder_update user index |}) ids) c)
  = List.length
      (filter (fun id => existsb (TasksRoute.in_plan id plan) c) ids).
Proof.
  induction ids as [|id ids IH]; intros k c; simpl; [reflexivity|].
  pose proof (updateOne_count (TasksRoute.in_plan id plan)
                (reorder_update user k) c) as Hn.
  pose proof (fun p Hp => updateOne_existsb (TasksRoute.in_plan id plan) p
                (reorder_update user k) c Hp) as He.
  destruct (Collection.updateOne (TasksRoute.in_plan id plan)
              (reorder_update user k) c) as [c1 n1].
  simpl in Hn, He.
  match goal with
  | |- context [Collection.bulkWrite ?ops ?c'] =>
      specialize (IH (S k) c');
      destruct (Collection.bulkWrite ops c') as [c2 n2]
  end.
  simpl in *. rewrite IH, Hn.
  assert (Hf : filter (fun id0 => existsb (TasksRoute.in_plan id0 plan) c1) ids
               = filter (fun id0 => existsb (TasksRoute.in_plan id0 plan) c) ids).
  { apply filter_ext. intros a. apply He. intros x. apply in_plan_update. }
  rewrite Hf. now destruct (existsb (TasksRoute.in_plan id plan) c).
Qed.


(** Filtering a collection keeps its ids distinct. *)
Lemma filter_ids_NoDup (keep : Task.ITask -> bool) (c : list Task.ITask) :
  NoDup (map Task._id c) -> NoDup (map Task._id (filter keep c)).
Proof.
  intros Hnd. induction c as [|d c IH]; simpl; [constructor|].
  apply NoDup_cons_iff in Hnd as [Hd Hc].
  destruct (keep d); simpl; [|now apply IH].
  apply NoDup_cons; [|now apply IH].
  rewrite in_map_iff. intros (x & Ex & Hx).
  apply filter_In in Hx as [Hx _]. apply Hd. rewrite <- Ex.
  now apply in_map.
Qed.

Lemma includes_In (l : list string) (x : string) :
  Js.includes l x = true <-> In x l.
Proof.
  unfold Js.includes. rewrite existsb_exists. split.
  - intros (y & Hy & E). apply String.eqb_eq in E. now subst.
  - intros H. exists x. split; [assumption|apply String.eqb_refl].
Qed.



(** ** Reorder *)




(** C6.  A reorder leaves every task whose id is not in the list exactly as
    it was, at the same place of the collection; this holds for the tasks of
    the plan and of every other plan. *)
Theorem reorder_frame (user : ObjectId) (body : Schema.ReorderTasksInput)
    (db : Db) (j : nat) (d : Task.ITask) :
  nth_error (Tasks db) j = Some d ->
  ~ In (Task._id d) (Schema.task_ids body) ->
  nth_error (Tasks (snd (TasksRoute.post_reorder user body db))) j = Some d.
Proof.
  intros Hj Hn.
  unfold TasksRoute.post_reorder, validateRequest.
  destruct (Schema.reorderTasksSchema body) as [b|issues] eqn:E;
    [|assumption].
  assert (b = body) as ->.
  { unfold Schema.reorderTasksSchema, Schema.finish in E.
    destruct (_ ++ _) in E; congruence. }
  unfold TasksRoute.post_reorder_handler.
  pose proof (bulkWrite_frame
                (TasksRoute.updates (Schema.task_ids body)
                   (Schema.reorder_plan_id body) user) (Tasks db) j d Hj) as Hf.
  destruct (Collection.bulkWrite _ (Tasks db)) as [c n]. simpl in *.
  apply Hf. intros op Hop.
  apply mapi_from_In in Hop as (id & i & Hid & ->). simpl.
  destruct (TasksRoute.in_plan id (Schema.reorder_plan_id body) d) eqn:Ein;
    [|reflexivity].
  apply in_plan_true in Ein as [<- _]. contradiction.
Qed.

Lemma reorder_frame_witness :
  nth_error
    (Tasks
       (snd
          (TasksRoute.post_reorder "bob"
             {| Schema.task_ids := ["B"; "X"];
                Schema.reorder_plan_id := Some "P" |} Sample.board))) 0
  = Some (Sample.task "A" "P" todo 1 None).
Proof.
  apply (reorder_frame "bob"
           {| Schema.task_ids := ["B"; "X"];
              Schema.reorder_plan_id := Some "P" |} Sample.board 0
           (Sample.task "A" "P" todo 1 None)).
  - reflexivity.
  - simpl. intuition discriminate.
Defined.


(** ** Sorting *)

Section SortFacts.
Context {D : Type}.
Variable leb : D -> D -> bool.
Hypothesis leb_total : forall a b, leb a b = false -> leb b a = true.

Let le (a b : D) : Prop := leb a b = true.

Lemma insert_perm (x : D) (l : list D) : Permutation (insert leb x l) (x :: l).
Proof.
  induction l as [|y l IH]; simpl; [reflexivity|].
  destruct (leb x y); [reflexivity|].
  rewrite IH. apply perm_swap.
Qed.

Lemma sort_perm (l : list D) : Permutation (sort leb l) l.
Proof.
  induction l as [|x l IH]; simpl; [reflexivity|].
  unfold sort in *. simpl. rewrite insert_perm. now constructor.
Qed.

Lemma insert_HdRel (x a : D) (l : list D) :
  le a x -> HdRel le a l -> HdRel le a (insert leb x l).
Proof.
  intros Hax Hl. destruct l as [|y l]; simpl; [now constructor|].
  destruct (leb x y); constructor; [assumption|].
  now inversion Hl.
Qed.

Lemma insert_Sorted (x : D) (l : list D) :
  Sorted le l -> Sorted le (insert leb x l).
Proof.
  induction l as [|y l IH]; simpl; intros Hs.
  - repeat constructor.
  - destruct (leb x y) eqn:E.
    + constructor; [assumption|]. now constructor.
    + inversion Hs as [|? ? Hl Hhd]; subst.
      constructor; [now apply IH|].
      apply insert_HdRel; [|assumption]. now apply leb_total.
Qed.

Lemma sort_Sorted (l : list D) : Sorted le (sort leb l).
Proof.
  induction l as [|x l IH]; [constructor|].
  unfold sort in *. simpl. now apply insert_Sorted.
Qed.

End SortFacts.

Lemma Sorted_impl {D : Type} (R S : D -> D -> Prop) (l : list D) :
  (forall a b, R a b -> S a b) -> Sorted R l -> Sorted S l.
Proof.
  intros HRS. induction 1 as [|a l Hl IH Hhd]; constructor; [assumption|].
  destruct Hhd; constructor. now apply HRS.
Qed.


Lemma firstn_In {D : Type} (n : nat) (l : list D) (x : D) :
  In x (firstn n l) -> In x l.
Proof.
  revert l; induction n as [|n IH]; intros l H; [destruct H|].
  destruct l as [|a l]; [destruct H|].
  destruct H as [H|H]; [now left|right; now apply IH].
Qed.



Lemma Bson_compare_antisym (a b : Bson) :
  Bson_compare a b = CompOpp (Bson_compare b a).
Proof.
  destruct a, b; simpl; try reflexivity.
  - apply Z.compare_antisym.
  - apply String.compare_antisym.
Qed.

Lemma compare_by_antisym (s : SortObj) (a b : Task.ITask) :
  compare_by s a b = CompOpp (compare_by s b a).
Proof.
  induction s as [|[k dir] s IH]; simpl; [reflexivity|].
  rewrite (Bson_compare_antisym (Task_field k a) (Task_field k b)).
  destruct (dir =? -1)%Z, (Bson_compare (Task_field k b) (Task_field k a));
    simpl; auto.
Qed.

Lemma sort_leb_total (s : SortObj) (a b : Task.ITask) :
  sort_leb s a b = false -> sort_leb s b a = true.
Proof.
  unfold sort_leb. rewrite (compare_by_antisym s a b).
  now destruct (compare_by s b a).
Qed.


(** ** Listing *)

Lemma board_le_trans (desc : bool) (a b c : Task.ITask) :
  board_le desc a b -> board_le desc b c -> board_le desc a c.
Proof.
  unfold board_le, Status_lt.
  destruct desc, (Task.status a), (Task.status b), (Task.status c); simpl;
    intuition (try discriminate; try lia).
Qed.

Lemma sort_leb_board (order : string) (a b : Task.ITask) :
  sort_leb (TasksRoute.sortObj "order_index" order) a b = true ->
  board_le (order =? "desc") a b.
Proof.
  unfold TasksRoute.sortObj, sort_leb, board_le, Status_lt.
  change ("order_index" =? "order_index") with true. cbv iota.
  unfold compare_by.
  change (Task_field "status" a) with (BStr (Status_str (Task.status a))).
  change (Task_field "status" b) with (BStr (Status_str (Task.status b))).
  change (Task_field "order_index" a) with (BNum (Task.order_index a)).
  change (Task_field "order_index" b) with (BNum (Task.order_index b)).
  destruct (order =? "desc"); simpl;
    destruct (Task.status a), (Task.status b); simpl;
    try (intros; now left); try discriminate;
    intros H; right; (split; [reflexivity|]);
    destruct (Z.compare_spec (Task.order_index a) (Task.order_index b));
    simpl in H; try discriminate; lia.
Qed.


Lemma board_sorted (order : string) (l : list Task.ITask) :
  StronglySorted (board_le (order =? "desc"))
    (sort (sort_leb (TasksRoute.sortObj "order_index" order)) l).
Proof.
  apply Sorted_StronglySorted.
  - intros a b c. apply board_le_trans.
  - eapply Sorted_impl; [|apply sort_Sorted, sort_leb_total].
    intros a b. apply sort_leb_board.
Qed.





(** ** Create *)






Lemma taskSchema_valid (Date : string -> option Z) (body parsed : TaskData.t) :
  Schema.taskSchema Date body = Schema.Valid parsed ->
  parsed = Schema.strip false true body
  /\ Schema.due_after_start Date body = true
  /\ exists plan ttl st,
       TaskData.plan_id body = Some plan
       /\ TaskData.title body = Some ttl
       /\ TaskData.status body = Some st.
Proof.
  unfold Schema.taskSchema, Schema.aborted, Schema.finish.
  destruct (TaskData.plan_id body) as [plan|]; [|discriminate].
  destruct (TaskData.title body) as [ttl|]; [|discriminate].
  destruct (TaskData.status body) as [st|]; [|discriminate].
  destruct (Schema.due_after_start Date body).
  - destruct (_ ++ _); [|discriminate]. intros H. injection H as <-.
    repeat split. now exists plan, ttl, st.
  - destruct (Schema.taskBaseSchema_issues false body ++ _) eqn:E;
      [|discriminate].
    apply app_eq_nil in E as [_ E]. discriminate.
Qed.




(** ** Delete *)

Lemma find_in_plan (id plan : ObjectId) (c : list Task.ITask) (x : Task.ITask) :
  In x c -> Task._id x = id -> Task.plan_id x = plan ->
  exists y, find (TasksRoute.in_plan id (Some plan)) c = Some y.
Proof.
  intros Hin Hid Hp.
  destruct (find (TasksRoute.in_plan id (Some plan)) c) as [y|] eqn:E;
    [now exists y|].
  exfalso. apply (find_none _ _ E) in Hin.
  subst. now rewrite in_plan_self in Hin.
Qed.

Lemma find_child (id : ObjectId) (c : list Task.ITask) :
  is_some (find (fun d => eq_opt (Task.parent_id d) id) c) = true
  <-> exists k, In k c /\ Task.parent_id k = Some id.
Proof.
  split.
  - destruct (find _ c) as [k|] eqn:E; [|discriminate]. intros _.
    apply find_some in E as [Hin Hk]. exists k. split; [assumption|].
    destruct (Task.parent_id k) as [p|]; [|discriminate]. simpl in Hk.
    apply String.eqb_eq in Hk. now subst.
  - intros (k & Hin & Hk).
    destruct (find _ c) as [y|] eqn:E; [reflexivity|].
    apply (find_none _ _ E) in Hin. rewrite Hk in Hin. simpl in Hin.
    now rewrite String.eqb_refl in Hin.
Qed.

(** Under the unique index, deleting by id removes that document and no
    other. *)
Lemma deleteOne_by_id (id : ObjectId) (c : list Task.ITask) :
  NoDup (map Task._id c) ->
  Collection.deleteOne (fun d => Task._id d =? id) c
  = filter (fun d => negb (Task._id d =? id)) c.
Proof.
  induction c as [|x c IH]; simpl; intros Hnd; [reflexivity|].
  inversion Hnd as [|? ? Hx Hc]; subst.
  destruct (Task._id x =? id) eqn:E; simpl.
  - apply String.eqb_eq in E. subst id.
    symmetry. rewrite <- (filter_ext_in (fun _ => true)).
    + clear. induction c as [|a c IH]; simpl; congruence.
    + intros a Ha. symmetry. apply negb_true_iff, String.eqb_neq.
      intros Heq. apply Hx. rewrite <- Heq. now apply in_map.
  - now rewrite IH.
Qed.

(** C4.  For a task X of the given plan: while some task has
    [parent_id = X] the delete is refused with the conflict response and the
    task collection is left as it was; when no task has [parent_id = X] the
    delete succeeds and removes X and nothing else.  Whatever the plan given,
    a delete of a task that has a child never changes the collection. *)
Theorem delete_guarded_by_children (id plan : ObjectId) (db : Db)
    (x : Task.ITask) :
  In x (Tasks db) -> Task._id x = id -> Task.plan_id x = plan ->
  ((exists k, In k (Tasks db) /\ Task.parent_id k = Some id) ->
   TasksRoute.delete_task id (Some plan) db = (ConflictError, db))
  /\ ((forall k, In k (Tasks db) -> Task.parent_id k <> Some id) ->
      NoDup (map Task._id (Tasks db)) ->
      TasksRoute.delete_task id (Some plan) db
      = (res 200 (JMessage "Task deleted successfully"),
         with_Tasks (filter (fun d => negb (Task._id d =? id)) (Tasks db)) db)
      /\ ~ In x (Tasks (snd (TasksRoute.delete_task id (Some plan) db))))
  /\ ((exists k, In k (Tasks db) /\ Task.parent_id k = Some id) ->
      forall query_plan_id,
        snd (TasksRoute.delete_task id query_plan_id db) = db).
Proof.
  intros Hin Hid Hp.
  destruct (find_in_plan id plan (Tasks db) x Hin Hid Hp) as [y Hy].
  split; [|split].
  - intros Hk. unfold TasksRoute.delete_task. rewrite Hy.
    apply find_child in Hk. rewrite Hk. reflexivity.
  - intros Hk Hnd. unfold TasksRoute.delete_task. rewrite Hy.
    destruct (is_some (find (fun d => eq_opt (Task.parent_id d) id) (Tasks db)))
      eqn:E.
    + apply find_child in E as (k & Hkin & Hkp). now elim (Hk k).
    + rewrite deleteOne_by_id by assumption. split; [reflexivity|].
      simpl. intros Hx. apply filter_In in Hx as [_ Hx].
      now rewrite Hid, String.eqb_refl in Hx.
  - intros Hk qp. unfold TasksRoute.delete_task.
    destruct (find (TasksRoute.in_plan id qp) (Tasks db)); [|reflexivity].
    apply find_child in Hk. now rewrite Hk.
Qed.

Lemma delete_guarded_by_children_witness :
  TasksRoute.delete_task "A" (Some "P") Sample.family
  = (ConflictError, Sample.family)
  /\ ~ In (Sample.task "B" "P" todo 2 (Some "A"))
         (Tasks (snd (TasksRoute.delete_task "B" (Some "P") Sample.family))).
Proof.
  split.
  - apply (delete_guarded_by_children "A" "P" Sample.family
             (Sample.task "A" "P" todo 1 None));
      [simpl; tauto|reflexivity|reflexivity|].
    exists (Sample.task "B" "P" todo 2 (Some "A")). simpl. tauto.
  - apply (delete_guarded_by_children "B" "P" Sample.family
             (Sample.task "B" "P" todo 2 (Some "A")));
      [simpl; tauto|reflexivity|reflexivity| |].
    + simpl. intros k [<-|[<-|[]]]; discriminate.
    + simpl. repeat constructor; simpl; intuition discriminate.
Defined.


(** ** Dates *)

(** Create rejects a payload whose due date does not reach its start date,
    before any write. *)
Lemma create_rejects_due_before_start (Date : string -> option Z)
    (newObjectId : nat -> ObjectId) (user : ObjectId) (body : TaskData.t)
    (db : Db) (s e : string) :
  TaskData.start_date body = Some s -> TaskData.due_date body = Some e ->
  s <> "" -> e <> "" -> Schema.Date_ge Date e s = false ->
  let r := TasksRoute.post_task Date newObjectId user body db in
  ValidationError (fst r) /\ snd r = db
  /\ (Schema.aborted body = false ->
      exists details,
        json (fst r) = JValidation "Validation failed" details
        /\ In ("body.due_date", "Due date must be after start date") details).
Proof.
  intros Hs He Hsn Hen Hge r. subst r.
  unfold TasksRoute.post_task, validateRequest, Schema.taskSchema.
  assert (Hd : Schema.due_after_start Date body = false).
  { unfold Schema.due_after_start. rewrite Hs, He. simpl.
    apply String.eqb_neq in Hsn, Hen. now rewrite Hsn, Hen. }
  rewrite Hd.
  destruct (Schema.aborted body).
  - simpl. split; [eexists; reflexivity|]. split; [reflexivity|discriminate].
  - unfold Schema.finish.
    destruct (Schema.taskBaseSchema_issues false body ++ _) as [|i l] eqn:E.
    + apply app_eq_nil in E as [_ E]. discriminate.
    + simpl. split; [eexists; reflexivity|]. split; [reflexivity|].
      intros _. eexists. split; [reflexivity|].
      change (In ((fun i => (String.concat "." ("body" :: fst i), snd i))
                    (["due_date"], "Due date must be after start date"))
                (map (fun i => (String.concat "." ("body" :: fst i), snd i))
                   (i :: l))).
      apply in_map. rewrite <- E. apply in_or_app. right. now left.
Qed.

Lemma create_rejects_due_before_start_example :
  ValidationError
    (fst (TasksRoute.post_task Sample.isoDate Sample.oid "bob"
            (Sample.backwards (Sample.payload "P" "C" todo)) Sample.board)).
Proof.
  apply (create_rejects_due_before_start Sample.isoDate Sample.oid "bob"
           (Sample.backwards (Sample.payload "P" "C" todo)) Sample.board
           "2024-01-15" "2024-01-01");
    try reflexivity; discriminate.
Qed.

(** C5, at the failing input.  An update of task A that sets
    [start_date = 2024-01-15] and [due_date = 2024-01-01] is accepted and
    written: [taskUpdateSchema] carries no cross-field check. *)
Theorem update_accepts_due_before_start :
  let r :=
    TasksRoute.patch_task "bob" "A" (Some "P")
      (Sample.backwards TaskData.empty) Sample.board in
  status (fst r) = 200
  /\ (exists t,
         nth_error (Tasks (snd r)) 0 = Some t
         /\ Task._id t = "A"
         /\ Task.start_date t = Some "2024-01-15"
         /\ Task.due_date t = Some "2024-01-01")
  /\ Schema.Date_ge Sample.isoDate "2024-01-01" "2024-01-15" = false.
Proof.
  cbv zeta. split; [reflexivity|]. split; [|reflexivity].
  eexists. split; [reflexivity|]. repeat split.
Qed.

(** The bulk route does not run the check either. *)
Lemma bulk_accepts_due_before_start :
  exists msg docs db',
    TasksRoute.post_bulk Sample.oid "bob"
      {| Schema.tasks := [Sample.backwards (Sample.payload "P" "C" todo)];
         Schema.plan_id := Some "P" |} Sample.board
    = (res 201 (JBulk msg docs), db').
Proof. do 3 eexists. reflexivity. Qed.


(** ** Bulk create *)

Lemma client_ids_In (tasks : list TaskData.t) (pid : ObjectId) :
  existsb (fun t => TasksRoute.opt_eqb (TaskData._id t) (Some pid)) tasks = true
  <-> In pid (client_ids tasks).
Proof.
  unfold client_ids. rewrite existsb_exists, in_flat_map. split.
  - intros (t & Ht & E). exists t. split; [assumption|].
    destruct (TaskData._id t) as [i|]; [|discriminate]. simpl in E.
    apply String.eqb_eq in E. subst. now left.
  - intros (t & Ht & E). exists t. split; [assumption|].
    destruct (TaskData._id t) as [i|]; [|destruct E].
    destruct E as [<-|[]]. simpl. apply String.eqb_refl.
Qed.

Lemma plan_ids_In (plan pid : ObjectId) (db : Db) :
  is_some (find (TasksRoute.in_plan pid (Some plan)) (Tasks db)) = true
  <-> In pid (plan_ids plan db).
Proof.
  unfold plan_ids. rewrite in_map_iff. split.
  - destruct (find _ _) as [d|] eqn:E; [|discriminate]. intros _.
    apply find_some in E as [Hin Hd]. apply in_plan_true in Hd as [Hid Hp].
    exists d. split; [assumption|]. apply filter_In. split; [assumption|].
    injection Hp as ->. apply String.eqb_refl.
  - intros (d & Hid & Hd). apply filter_In in Hd as [Hin Hp].
    apply String.eqb_eq in Hp.
    destruct (find _ _) as [y|] eqn:E; [reflexivity|].
    apply (find_none _ _ E) in Hin. subst. now rewrite in_plan_self in Hin.
Qed.

Lemma validDeps_count (deps : list ObjectId) (tasks : list TaskData.t) :
  List.length (filter (fun t => Js.includes_opt deps (TaskData._id t)) tasks)
  = count_listed deps (client_ids tasks).
Proof.
  unfold count_listed, client_ids.
  induction tasks as [|t tasks IH]; simpl; [reflexivity|].
  destruct (TaskData._id t) as [i|]; simpl; [|assumption].
  destruct (Js.includes deps i); simpl; now rewrite IH.
Qed.

Lemma existingDeps_count (deps : list ObjectId) (plan : ObjectId) (db : Db) :
  List.length (filter (TasksRoute.in_plan_among deps (Some plan)) (Tasks db))
  = count_listed deps (plan_ids plan db).
Proof.
  unfold count_listed, plan_ids, TasksRoute.in_plan_among, eq_opt.
  induction (Tasks db) as [|d c IH]; [reflexivity|].
  cbn [filter]. rewrite (String.eqb_sym plan).
  destruct (Task.plan_id d =? plan); cbn [map filter].
  - destruct (Js.includes deps (Task._id d)); cbn [andb List.length];
      now rewrite IH.
  - rewrite andb_false_r. exact IH.
Qed.

Lemma count_listed_nil (ids : list ObjectId) : count_listed [] ids = 0.
Proof.
  unfold count_listed. induction ids as [|i ids IH]; simpl; auto.
Qed.

(** The loop body lets a payload through exactly when both tests hold. *)
Lemma validate_one_None (tasks : list TaskData.t) (plan : ObjectId) (db : Db)
    (p : TaskData.t) :
  TasksRoute.validate_one tasks (Some plan) db p = None
  <-> parent_found tasks plan db p /\ dependencies_counted tasks plan db p.
Proof.
  unfold TasksRoute.validate_one, parent_found, dependencies_counted.
  destruct (TaskData.parent_id p) as [pid|].
  - simpl. destruct (pid =? "") eqn:Ee; simpl.
    + apply String.eqb_eq in Ee. subst pid.
      destruct (TaskData.dependency_ids p) as [deps|].
      * rewrite validDeps_count, existingDeps_count.
        destruct deps as [|dep deps].
        -- simpl. split; [intros _|reflexivity].
           split; [intros ? [= <-] H; now elim H|].
           intros ? [= <-]. now rewrite !count_listed_nil.
        -- cbn [List.length Nat.ltb Nat.leb andb].
           destruct (Nat.eqb_spec
                       (count_listed (dep :: deps) (client_ids tasks)
                        + count_listed (dep :: deps) (plan_ids plan db))
                       (S (List.length deps))) as [E|E]; simpl.
           ++ split; [intros _|reflexivity].
              split; [intros ? [= <-] H; now elim H|].
              now intros ? [= <-].
           ++ split; [discriminate|]. intros [_ H]. elim E. now apply H.
      * split; [intros _|reflexivity]. split; [|discriminate].
        intros ? [= <-] H. now elim H.
    + apply String.eqb_neq in Ee.
      destruct (existsb _ tasks || is_some _) eqn:Ef; simpl.
      * assert (Hpar : In pid (client_ids tasks) \/ In pid (plan_ids plan db)).
        { apply orb_prop in Ef as [Ef|Ef];
            [left; now apply client_ids_In|right; now apply plan_ids_In]. }
        destruct (TaskData.dependency_ids p) as [deps|].
        -- rewrite validDeps_count, existingDeps_count.
           destruct deps as [|dep deps].
           ++ simpl. split; [intros _|reflexivity].
              split; [now intros ? [= <-] _|].
              intros ? [= <-]. now rewrite !count_listed_nil.
           ++ cbn [List.length Nat.ltb Nat.leb andb].
              destruct (Nat.eqb_spec
                          (count_listed (dep :: deps) (client_ids tasks)
                           + count_listed (dep :: deps) (plan_ids plan db))
                          (S (List.length deps))) as [E|E]; simpl.
              ** split; [intros _|reflexivity].
                 split; [now intros ? [= <-] _|]. now intros ? [= <-].
              ** split; [discriminate|]. intros [_ H]. elim E. now apply H.
        -- split; [intros _|reflexivity]. split; [|discriminate].
           now intros ? [= <-] _.
      * split; [discriminate|]. intros [H _].
        apply orb_false_elim in Ef as [Ef1 Ef2].
        destruct (H pid eq_refl Ee) as [Hc|Hc].
        -- apply client_ids_In in Hc. congruence.
        -- apply plan_ids_In in Hc. congruence.
  - destruct (TaskData.dependency_ids p) as [deps|].
    + rewrite validDeps_count, existingDeps_count.
      destruct deps as [|dep deps].
      * simpl. split; [intros _|reflexivity]. split; [discriminate|].
        intros ? [= <-]. now rewrite !count_listed_nil.
      * cbn [List.length Nat.ltb Nat.leb andb].
        destruct (Nat.eqb_spec
                    (count_listed (dep :: deps) (client_ids tasks)
                     + count_listed (dep :: deps) (plan_ids plan db))
                    (S (List.length deps))) as [E|E]; simpl.
        -- split; [intros _|reflexivity]. split; [discriminate|].
           now intros ? [= <-].
        -- split; [discriminate|]. intros [_ H]. elim E. now apply H.
    + split; [intros _|reflexivity]. split; discriminate.
Qed.

Lemma validate_one_status (tasks : list TaskData.t) (plan : option string)
    (db : Db) (p : TaskData.t) (r : Response) :
  TasksRoute.validate_one tasks plan db p = Some r -> status r = 400.
Proof.
  unfold TasksRoute.validate_one.
  repeat match goal with
         | |- (if ?c then _ else _) = _ -> _ => destruct c
         end; intros H; try discriminate; now injection H as <-.
Qed.

(** The loop returns at the first payload that fails, wherever it is. *)
Lemma validate_loop_rejects (tasks : list TaskData.t) (plan : option string)
    (db : Db) (rest : list TaskData.t) (p : TaskData.t) :
  In p rest -> TasksRoute.validate_one tasks plan db p <> None ->
  exists r, TasksRoute.validate_loop tasks plan db rest = Some r
            /\ status r = 400.
Proof.
  induction rest as [|q rest IH]; intros Hin Hp; [destruct Hin|].
  simpl. destruct (TasksRoute.validate_one tasks plan db q) as [r|] eqn:E.
  - exists r. split; [reflexivity|]. eapply validate_one_status; eassumption.
  - destruct Hin as [->|Hin]; [congruence|]. now apply IH.
Qed.

Lemma validate_loop_status (tasks : list TaskData.t) (plan : option string)
    (db : Db) (rest : list TaskData.t) (r : Response) :
  TasksRoute.validate_loop tasks plan db rest = Some r -> status r = 400.
Proof.
  induction rest as [|q rest IH]; simpl; [discriminate|].
  destruct (TasksRoute.validate_one tasks plan db q) as [r'|] eqn:E;
    [|assumption].
  intros [= <-]. eapply validate_one_status; eassumption.
Qed.

Lemma client_ids_strip (tasks : list TaskData.t) :
  client_ids (map (Schema.strip true true) tasks) = client_ids tasks.
Proof.
  unfold client_ids. induction tasks as [|t tasks IH]; simpl; [reflexivity|].
  now rewrite IH.
Qed.

Lemma bulkTaskSchema_valid (body parsed : Schema.BulkTaskInput) :
  Schema.bulkTaskSchema body = Schema.Valid parsed ->
  parsed = {| Schema.tasks := map (Schema.strip true true) (Schema.tasks body);
              Schema.plan_id := Schema.plan_id body |}.
Proof.
  unfold Schema.bulkTaskSchema, Schema.finish.
  destruct (_ ++ _); [|discriminate]. now intros [= <-].
Qed.

(** When the client-supplied ids and the persisted ids of the plan are
    pairwise distinct, a dependency id that names neither makes the count
    fall short. *)
Lemma unresolved_dependency_miscounts (deps ids1 ids2 : list ObjectId)
    (dep : ObjectId) :
  NoDup (ids1 ++ ids2) -> In dep deps -> ~ In dep (ids1 ++ ids2) ->
  (count_listed deps ids1 + count_listed deps ids2)%nat <> List.length deps.
Proof.
  intros Hnd Hdep Hun. unfold count_listed.
  rewrite <- length_app, <- filter_app.
  assert (Hle : List.length (filter (Js.includes deps) (ids1 ++ ids2))
                <= List.length (remove string_dec dep deps)).
  { apply NoDup_incl_length; [now apply NoDup_filter|].
    intros x Hx. apply filter_In in Hx as [Hx Hl]. apply includes_In in Hl.
    apply in_in_remove; [|assumption]. intros ->. contradiction. }
  pose proof (remove_length_lt string_dec deps dep Hdep).
  unfold ObjectId in *. lia.
Qed.

(** C3 (as amended).  The bulk route tests every payload before it writes:
    a non-empty [parent_id] must name a payload of the batch (the payload
    itself included) or a persisted task of the plan, and the payloads of
    the batch and the persisted tasks of the plan whose id is listed in
    [dependency_ids] must be as many as the listed ids.  If any payload of
    the batch fails, the request is answered 400 and the store is unchanged.
    When the client-supplied ids and the persisted ids of the plan are
    pairwise distinct this covers every payload with a reference that names
    neither a payload of the batch nor a persisted task of the plan. *)
Theorem bulk_all_or_nothing (newObjectId : nat -> ObjectId)
    (userId : ObjectId) (tasks : list TaskData.t) (plan : ObjectId) (db : Db) :
  let r :=
    TasksRoute.post_bulk newObjectId userId
      {| Schema.tasks := tasks; Schema.plan_id := Some plan |} db in
  ((exists p,
       In p tasks
       /\ ~ (parent_found tasks plan db p
             /\ dependencies_counted tasks plan db p)) ->
   status (fst r) = 400 /\ snd r = db)
  /\ (NoDup (client_ids tasks ++ plan_ids plan db) ->
      (exists p,
          In p tasks
          /\ ~ resolves (client_ids tasks ++ plan_ids plan db) p) ->
      status (fst r) = 400 /\ snd r = db).
Proof.
  intros r.
  assert (Hmain :
            (exists p,
                In p tasks
                /\ ~ (parent_found tasks plan db p
                      /\ dependencies_counted tasks plan db p)) ->
            status (fst r) = 400 /\ snd r = db).
  { intros (p & Hin & Hbad). subst r.
    unfold TasksRoute.post_bulk, validateRequest.
    destruct (Schema.bulkTaskSchema _) as [parsed|issues] eqn:E;
      [|split; reflexivity].
    apply bulkTaskSchema_valid in E. subst parsed.
    unfold TasksRoute.post_bulk_handler. cbn [Schema.tasks Schema.plan_id].
    destruct (validate_loop_rejects (map (Schema.strip true true) tasks)
                (Some plan) db (map (Schema.strip true true) tasks)
                (Schema.strip true true p)) as (resp & -> & Hst).
    - now apply in_map.
    - intros Hnone. apply Hbad.
      apply validate_one_None in Hnone as [Hp Hd].
      unfold parent_found, dependencies_counted in *.
      rewrite client_ids_strip in Hp, Hd. now split.
    - now split. }
  split; [exact Hmain|].
  intros Hnd (p & Hin & Hbad). apply Hmain. exists p. split; [assumption|].
  intros [Hp Hd]. apply Hbad. split.
  - intros pid Hpid Hne. apply in_or_app. now apply Hp.
  - intros deps dep Hdeps Hdep.
    destruct (in_dec string_dec dep (client_ids tasks ++ plan_ids plan db))
      as [Hi|Hi]; [assumption|].
    elim (unresolved_dependency_miscounts deps _ _ dep Hnd Hdep Hi).
    now apply Hd.
Qed.

Lemma bulk_all_or_nothing_witness :
  let r :=
    TasksRoute.post_bulk Sample.oid "bob"
      {| Schema.tasks :=
           [Sample.payload "P" "T1" todo; Sample.depending "T2" ["A"; "ghost"]];
         Schema.plan_id := Some "P" |} Sample.board in
  status (fst r) = 400 /\ snd r = Sample.board.
Proof.
  apply (proj2 (bulk_all_or_nothing Sample.oid "bob"
                  [Sample.payload "P" "T1" todo;
                   Sample.depending "T2" ["A"; "ghost"]] "P" Sample.board)).
  - simpl. repeat constructor; simpl; intuition discriminate.
  - exists (Sample.depending "T2" ["A"; "ghost"]). split; [simpl; tauto|].
    intros [_ H]. specialize (H ["A"; "ghost"] "ghost" eq_refl).
    simpl in H. intuition discriminate.
Defined.

(** A payload that names itself as parent resolves against no other payload
    and no persisted task, and is written all the same. *)
Lemma bulk_accepts_own_parent :
  ~ bulk_checked_against_others Sample.oid "bob" [Sample.own_parent] "P"
      Sample.board.
Proof.
  intros H.
  assert (Hx : Tasks
                 (snd
                    (TasksRoute.post_bulk Sample.oid "bob"
                       {| Schema.tasks := [Sample.own_parent];
                          Schema.plan_id := Some "P" |} Sample.board))
               = Tasks Sample.board).
  { apply H. exists 0, Sample.own_parent. split; [reflexivity|].
    intros [Hp _]. specialize (Hp "X" eq_refl ltac:(discriminate)).
    simpl in Hp. intuition discriminate. }
  vm_compute in Hx. discriminate Hx.
Qed.

(** With a client-supplied id that repeats a persisted id, the count test
    lets an unknown dependency id through; the first document is written
    before the duplicate key stops the batch. *)
Lemma bulk_count_test_fooled :
  let r :=
    TasksRoute.post_bulk Sample.oid "bob"
      {| Schema.tasks :=
           [Sample.depending "T1" ["A"; "ghost"];
            Sample.identified "A" (Sample.payload "P" "T2" todo)];
         Schema.plan_id := Some "P" |} Sample.board in
  status (fst r) = 500
  /\ exists d,
       nth_error (Tasks (snd r)) 3 = Some d
       /\ Task.dependency_ids d = ["A"; "ghost"].
Proof.
  cbv zeta. split; [reflexivity|]. eexists. split; reflexivity.
Qed.

Lemma insertMany_true {D : Type} (key : D -> ObjectId) (ds c c' : list D) :
  Collection.insertMany key ds c = (true, c') -> c' = c ++ ds.
Proof.
  revert c; induction ds as [|d ds IH]; intros c; simpl.
  - intros [= <-]. now rewrite app_nil_r.
  - unfold Collection.insertOne.
    destruct (existsb _ c); [discriminate|].
    intros H. apply IH in H. now rewrite <- app_assoc in H.
Qed.

Lemma construct_all_nth (newObjectId : nat -> ObjectId)
    (ds : list TaskData.t) : forall n docs i data,
  TasksRoute.construct_all newObjectId ds n = Some docs ->
  nth_error ds i = Some data ->
  exists doc,
    nth_error docs i = Some doc
    /\ Task.construct data (newObjectId (n + i)) = Some doc.
Proof.
  induction ds as [|d ds IH]; intros n docs i data Hc Hi;
    [destruct i; discriminate|].
  simpl in Hc.
  destruct (Task.construct d (newObjectId n)) as [x|] eqn:Ex; [|discriminate].
  destruct (TasksRoute.construct_all newObjectId ds (S n)) as [xs|] eqn:Exs;
    [|discriminate].
  injection Hc as <-. destruct i as [|i]; simpl in *.
  - injection Hi as <-. exists x. now rewrite Nat.add_0_r.
  - destruct (IH (S n) xs i data Exs Hi) as (doc & H1 & H2).
    exists doc. split; [assumption|].
    now replace (n + S i) with (S n + i) by lia.
Qed.

Lemma construct_all_length (newObjectId : nat -> ObjectId)
    (ds : list TaskData.t) : forall n docs,
  TasksRoute.construct_all newObjectId ds n = Some docs ->
  List.length docs = List.length ds.
Proof.
  induction ds as [|d ds IH]; intros n docs; simpl.
  - now intros [= <-].
  - destruct (Task.construct d (newObjectId n)); [|discriminate].
    destruct (TasksRoute.construct_all newObjectId ds (S n)) as [xs|] eqn:E;
      [|discriminate].
    intros [= <-]. simpl. f_equal. now apply (IH (S n)).
Qed.

Lemma construct_order_index (data : TaskData.t) (oid : ObjectId)
    (doc : Task.ITask) :
  Task.construct data oid = Some doc ->
  Task.order_index doc
  = match TaskData.order_index data with
    | Some v => v
    | None => 0%Z
    end.
Proof.
  unfold Task.construct.
  destruct (TaskData.plan_id data), (TaskData.title data),
    (TaskData.created_by data), (TaskData.updated_by data); try discriminate.
  match goal with |- (if ?c then _ else _) = _ -> _ => destruct c end;
    [discriminate|].
  now intros [= <-].
Qed.

(** C9.  Every task the bulk route creates from a payload without
    [order_index] is stored with [order_index = 0], the default of the task
    schema; the value never depends on the tasks already in the store, so no
    maximum-plus-one is assigned. *)
Theorem bulk_order_index_default (newObjectId : nat -> ObjectId)
    (userId : ObjectId) (body : Schema.BulkTaskInput) (db db' : Db)
    (msg : string) (docs : list Task.ITask) :
  TasksRoute.post_bulk newObjectId userId body db
  = (res 201 (JBulk msg docs), db') ->
  Tasks db' = Tasks db ++ docs
  /\ List.length docs = List.length (Schema.tasks body)
  /\ forall i p,
       nth_error (Schema.tasks body) i = Some p ->
       exists d,
         nth_error docs i = Some d
         /\ Task.order_index d
            = match TaskData.order_index p with
              | Some v => v
              | None => 0%Z
              end.
Proof.
  unfold TasksRoute.post_bulk, validateRequest.
  destruct (Schema.bulkTaskSchema body) as [parsed|issues] eqn:E;
    [|discriminate].
  apply bulkTaskSchema_valid in E. subst parsed.
  unfold TasksRoute.post_bulk_handler. cbn [Schema.tasks Schema.plan_id].
  destruct (TasksRoute.validate_loop _ _ _ _) as [r|] eqn:Ev.
  { intros [= -> <-]. apply validate_loop_status in Ev. discriminate Ev. }
  destruct (TasksRoute.construct_all _ _ _) as [ds|] eqn:Ec; [|discriminate].
  destruct (Collection.insertMany _ _ _) as [[|] c] eqn:Ei; [|discriminate].
  intros [= <- <- <-]. apply insertMany_true in Ei. simpl in Ei.
  split; [exact Ei|].
  assert (Hnth : forall i p,
             nth_error (Schema.tasks body) i = Some p ->
             exists d,
               nth_error ds i = Some d
               /\ Task.order_index d
                  = match TaskData.order_index p with
                    | Some v => v
                    | None => 0%Z
                    end).
  { intros i p Hp.
    destruct (construct_all_nth newObjectId _ (oids db) ds i
                (TaskData.with_user userId
                   (TaskData.with_plan_id (Schema.plan_id body)
                      (Schema.strip true true p))) Ec) as (d & Hd & Hc).
    - unfold TasksRoute.tasksToInsert. rewrite !nth_error_map, Hp.
      reflexivity.
    - exists d. split; [assumption|].
      now rewrite (construct_order_index _ _ _ Hc). }
  split; [|exact Hnth].
  apply construct_all_length in Ec. rewrite Ec.
  unfold TasksRoute.tasksToInsert. now rewrite !length_map.
Qed.

Lemma bulk_order_index_default_witness :
  exists d,
    nth_error
      (Tasks
         (snd
            (TasksRoute.post_bulk Sample.oid "bob"
               {| Schema.tasks := [Sample.payload "P" "T1" todo];
                  Schema.plan_id := Some "P" |} Sample.board))) 3
    = Some d
    /\ Task.order_index d = 0%Z.
Proof.
  destruct (bulk_order_index_default Sample.oid "bob"
              {| Schema.tasks := [Sample.payload "P" "T1" todo];
                 Schema.plan_id := Some "P" |} Sample.board _ _ _ eq_refl)
    as (Ht & _ & Hn).
  destruct (Hn 0 (Sample.payload "P" "T1" todo) eq_refl) as (d & Hd & Ho).
  exists d. split; [|exact Ho].
  simpl in Hd. injection Hd as <-. reflexivity.
Defined.


(** ** Import *)

Section AllFacts.
Context {A B : Type}.
Variable f : A -> nat -> Db -> B * Db.


End AllFacts.



Section ImportFacts.
Variable newObjectId : nat -> ObjectId.










End ImportFacts.

Lemma importSchema_valid (isEmail : string -> bool)
    (d parsed : ImportData.t) :
  ImportData.importSchema isEmail d = Schema.Valid parsed ->
  ImportData.plan_name (ImportData.plan parsed)
  = ImportData.plan_name (ImportData.plan d)
  /\ ImportData.plan_description (ImportData.plan parsed)
     = ImportData.plan_description (ImportData.plan d)
  /\ ImportData.opt_list (ImportData.members (ImportData.plan parsed))
     = map ImportData.member_default
         (ImportData.opt_list (ImportData.members (ImportData.plan d)))
  /\ ImportData.opt_list (ImportData.tasks parsed)
     = map ImportData.task_default (ImportData.opt_list (ImportData.tasks d)).
Proof.
  unfold ImportData.importSchema, Schema.finish.
  destruct (map _ _); [|discriminate]. intros [= <-]. repeat split.
Qed.













(** * Access, routes and plans *)

(** ** The plan access check *)

Lemma populate_owner_id (plan : Plan.IPlan) (db : Db) (o : User.IUser) :
  PlanAccess.populate_owner plan db = Some o ->
  User._id o = Plan.owner_id plan.
Proof.
  unfold PlanAccess.populate_owner. intros H.
  apply find_some in H. destruct H as [_ H].
  now apply String.eqb_eq in H.
Qed.

Lemma check_role_next (r : Role) (plan plan' : Plan.IPlan)
    (o o' : User.IUser) (role role' : Role) :
  PlanAccess.check_role r plan o role = PlanAccess.Next plan' o' role' ->
  plan' = plan /\ o' = o /\ role' = role
  /\ PlanAccess.roleHierarchy r <= PlanAccess.roleHierarchy role.
Proof.
  unfold PlanAccess.check_role.
  destruct (PlanAccess.roleHierarchy role <? PlanAccess.roleHierarchy r)%nat
    eqn:E; [discriminate|].
  intros [= <- <- <-]. apply Nat.ltb_ge in E. auto.
Qed.

Lemma check_role_pass (r : Role) (plan : Plan.IPlan) (o : User.IUser)
    (role : Role) :
  PlanAccess.roleHierarchy r <= PlanAccess.roleHierarchy role ->
  PlanAccess.check_role r plan o role = PlanAccess.Next plan o role.
Proof.
  intros H. unfold PlanAccess.check_role.
  apply Nat.ltb_ge in H. now rewrite H.
Qed.

(** The plan a request is checked against, and the role found for the user,
    when the middleware lets the request through. *)
Lemma requirePlanAccess_inv (r : Role) (user : option ObjectId)
    (p q b : option string) (db : Db) (plan : Plan.IPlan) (o : User.IUser)
    (role : Role) :
  PlanAccess.requirePlanAccess r user p q b db = PlanAccess.Next plan o role ->
  exists uid id,
    user = Some uid
    /\ PlanAccess.or_str (PlanAccess.or_str p q) b = Some id
    /\ id <> ""
    /\ PlanAccess.findById id db = Some plan
    /\ PlanAccess.populate_owner plan db = Some o
    /\ PlanAccess.roleHierarchy r <= PlanAccess.roleHierarchy role
    /\ PlanAccess.getUserPlanRole uid id db = Some role.
Proof.
  unfold PlanAccess.requirePlanAccess.
  destruct user as [uid|]; [|discriminate].
  destruct (PlanAccess.or_str (PlanAccess.or_str p q) b) as [id|];
    [|discriminate].
  destruct (id =? "") eqn:Eid; [discriminate|].
  destruct (PlanAccess.findById id db) as [pl|] eqn:Ef; [|discriminate].
  destruct (PlanAccess.populate_owner pl db) as [od|] eqn:Eo; [|discriminate].
  pose proof (populate_owner_id _ _ _ Eo) as Hid.
  apply String.eqb_neq in Eid.
  destruct (User._id od =? uid) eqn:Eu.
  - intros H. apply check_role_next in H. destruct H as (-> & -> & -> & Hle).
    exists uid, id. repeat split; auto.
    unfold PlanAccess.getUserPlanRole. now rewrite Ef, <- Hid, Eu.
  - destruct (PlanAccess.member uid pl) as [m|] eqn:Em; [|discriminate].
    intros H. apply check_role_next in H. destruct H as (-> & -> & -> & Hle).
    exists uid, id. repeat split; auto.
    unfold PlanAccess.getUserPlanRole. now rewrite Ef, <- Hid, Eu, Em.
Qed.

Lemma requirePlanAccess_intro (r : Role) (uid id : ObjectId)
    (p q b : option string) (db : Db) (plan : Plan.IPlan) (o : User.IUser)
    (role : Role) :
  PlanAccess.or_str (PlanAccess.or_str p q) b = Some id ->
  id <> "" ->
  PlanAccess.findById id db = Some plan ->
  PlanAccess.populate_owner plan db = Some o ->
  PlanAccess.getUserPlanRole uid id db = Some role ->
  PlanAccess.roleHierarchy r <= PlanAccess.roleHierarchy role ->
  PlanAccess.requirePlanAccess r (Some uid) p q b db
  = PlanAccess.Next plan o role.
Proof.
  intros Hid Hne Hf Ho Hr Hle.
  unfold PlanAccess.requirePlanAccess, PlanAccess.getUserPlanRole in *.
  rewrite Hid. apply String.eqb_neq in Hne. rewrite Hne, Hf, Ho.
  rewrite Hf in Hr. rewrite (populate_owner_id _ _ _ Ho).
  destruct (Plan.owner_id plan =? uid).
  - injection Hr as <-. now apply check_role_pass.
  - destruct (PlanAccess.member uid plan) as [m|]; [|discriminate].
    injection Hr as <-. now apply check_role_pass.
Qed.

(** X1.  Whenever [requirePlanAccess] calls [next()], the request carries
    an authenticated user and a non-empty plan id (taken from the route
    parameter, else the query, else the body), the plan exists, and the
    user is its owner or one of its members with a role at least as high as
    the required one. *)
Theorem access_granted_sound (requiredRole : Role) (user : option ObjectId)
    (params_plan_id query_plan_id body_plan_id : option string) (db : Db)
    (plan : Plan.IPlan) (owner_doc : User.IUser) (userRole : Role) :
  PlanAccess.requirePlanAccess requiredRole user params_plan_id query_plan_id
    body_plan_id db
  = PlanAccess.Next plan owner_doc userRole ->
  exists user_id,
    user = Some user_id
    /\ In plan (Plans db)
    /\ Plan._id plan <> ""
    /\ PlanAccess.or_str (PlanAccess.or_str params_plan_id query_plan_id)
         body_plan_id
       = Some (Plan._id plan)
    /\ PlanAccess.roleHierarchy requiredRole
       <= PlanAccess.roleHierarchy userRole
    /\ ((Plan.owner_id plan = user_id /\ userRole = owner)
        \/ (Plan.owner_id plan <> user_id
            /\ exists m,
                 In m (Plan.members plan)
                 /\ Plan.user_id m = user_id
                 /\ Plan.role m = userRole)).
Proof.
  intros H. apply requirePlanAccess_inv in H.
  destruct H as (uid & id & -> & Hid & Hne & Hf & _ & Hle & Hr).
  exists uid. unfold PlanAccess.getUserPlanRole in Hr. rewrite Hf in Hr.
  unfold PlanAccess.findById in Hf. apply find_some in Hf.
  destruct Hf as [Hin He]. apply String.eqb_eq in He. subst id.
  repeat split; auto.
  destruct (Plan.owner_id plan =? uid) eqn:Eo.
  - left. apply String.eqb_eq in Eo. injection Hr as <-. auto.
  - right. apply String.eqb_neq in Eo. split; [exact Eo|].
    unfold PlanAccess.member in Hr.
    destruct (find _ (Plan.members plan)) as [m|] eqn:Em; [|discriminate].
    injection Hr as <-. apply find_some in Em. destruct Em as [Hm Hu].
    apply String.eqb_eq in Hu. exists m. auto.
Qed.

Lemma access_granted_sound_witness :
  exists user_id,
    Some "bob" = Some user_id
    /\ In Team.P (Plans Team.db)
    /\ Plan._id Team.P <> ""
    /\ PlanAccess.or_str (PlanAccess.or_str None (Some "P")) None
       = Some (Plan._id Team.P)
    /\ PlanAccess.roleHierarchy editor <= PlanAccess.roleHierarchy editor
    /\ ((Plan.owner_id Team.P = user_id /\ editor = owner)
        \/ (Plan.owner_id Team.P <> user_id
            /\ exists m,
                 In m (Plan.members Team.P)
                 /\ Plan.user_id m = user_id
                 /\ Plan.role m = editor)).
Proof.
  apply (access_granted_sound editor (Some "bob") None (Some "P") None
           Team.db Team.P (Team.user "ann") editor).
  reflexivity.
Defined.

(** X2.  The access check is monotone in the required role: a request let
    through for one role is let through, with the same plan and user role,
    for every role that ranks no higher. *)
Theorem access_monotone (requiredRole lower : Role)
    (user : option ObjectId)
    (params_plan_id query_plan_id body_plan_id : option string) (db : Db)
    (plan : Plan.IPlan) (owner_doc : User.IUser) (userRole : Role) :
  PlanAccess.roleHierarchy lower <= PlanAccess.roleHierarchy requiredRole ->
  PlanAccess.requirePlanAccess requiredRole user params_plan_id query_plan_id
    body_plan_id db
  = PlanAccess.Next plan owner_doc userRole ->
  PlanAccess.requirePlanAccess lower user params_plan_id query_plan_id
    body_plan_id db
  = PlanAccess.Next plan owner_doc userRole.
Proof.
  intros Hlow H. apply requirePlanAccess_inv in H.
  destruct H as (uid & id & -> & Hid & Hne & Hf & Ho & Hle & Hr).
  apply requirePlanAccess_intro with (id := id); auto. lia.
Qed.

Lemma access_monotone_witness :
  PlanAccess.requirePlanAccess viewer (Some "bob") None (Some "P") None
    Team.db
  = PlanAccess.Next Team.P (Team.user "ann") editor.
Proof.
  apply (access_monotone editor viewer); [simpl; lia | reflexivity].
Defined.

(** X3.  The middleware and the helper [hasPlanAccess] decide alike: a
    request of an authenticated user is let through exactly when it names a
    non-empty id of an existing plan for which [hasPlanAccess] holds,
    provided the plan's owner still resolves to a user document (the
    middleware populates the owner and fails on a dangling one, the helper
    does not). *)
Theorem access_agrees_with_hasPlanAccess (requiredRole : Role)
    (user_id : ObjectId)
    (params_plan_id query_plan_id body_plan_id : option string) (db : Db) :
  (exists plan owner_doc userRole,
      PlanAccess.requirePlanAccess requiredRole (Some user_id) params_plan_id
        query_plan_id body_plan_id db
      = PlanAccess.Next plan owner_doc userRole)
  <-> (exists id plan,
          PlanAccess.or_str (PlanAccess.or_str params_plan_id query_plan_id)
            body_plan_id
          = Some id
          /\ id <> ""
          /\ PlanAccess.findById id db = Some plan
          /\ PlanAccess.populate_owner plan db <> None
          /\ PlanAccess.hasPlanAccess user_id id requiredRole db = true).
Proof.
  split.
  - intros (plan & o & role & H). apply requirePlanAccess_inv in H.
    destruct H as (uid & id & [= <-] & Hid & Hne & Hf & Ho & Hle & Hr).
    exists id, plan. repeat split; auto.
    + now rewrite Ho.
    + unfold PlanAccess.hasPlanAccess. rewrite Hr. now apply Nat.leb_le.
  - intros (id & plan & Hid & Hne & Hf & Ho & Hh).
    destruct (PlanAccess.populate_owner plan db) as [o|] eqn:Eo;
      [|congruence].
    unfold PlanAccess.hasPlanAccess in Hh.
    destruct (PlanAccess.getUserPlanRole user_id id db) as [role|] eqn:Er;
      [|discriminate].
    apply Nat.leb_le in Hh. exists plan, o, role.
    now apply requirePlanAccess_intro with (id := id).
Qed.

(** ** The task routes behind the access check *)

Lemma requirePlanAccess_answered (r : Role) (uid : ObjectId)
    (p q b : option string) (db : Db) (resp : Response) :
  PlanAccess.requirePlanAccess r (Some uid) p q b db
  = PlanAccess.Answered resp ->
  400 <= status resp.
Proof.
  unfold PlanAccess.requirePlanAccess, PlanAccess.check_role.
  repeat match goal with
         | |- context [match ?x with _ => _ end] => destruct x
         end;
    intros [= <-]; simpl; lia.
Qed.

(** A request that passes the access check names a plan the user has the
    required access to. *)
Lemma guard_passes (r : Role) (user : ObjectId) (q b : option string)
    (db : Db) (plan : Plan.IPlan) (o : User.IUser) (role : Role) :
  PlanAccess.requirePlanAccess r (Some user) None q b db
  = PlanAccess.Next plan o role ->
  exists id,
    PlanAccess.or_str q b = Some id /\ id <> ""
    /\ PlanAccess.hasPlanAccess user id r db = true.
Proof.
  intros H. apply requirePlanAccess_inv in H.
  destruct H as (uid & id & [= <-] & Hid & Hne & _ & _ & Hle & Hr).
  exists id. repeat split; auto.
  unfold PlanAccess.hasPlanAccess. rewrite Hr. now apply Nat.leb_le.
Qed.

Lemma guard_cases (r : Role) (user : ObjectId) (q b : option string)
    (handler : Db -> Response * Db) (db : Db) :
  (exists resp,
      TasksRouter.guard r user q b handler db = (resp, db)
      /\ 400 <= status resp)
  \/ (TasksRouter.guard r user q b handler db = handler db
      /\ exists id,
           PlanAccess.or_str q b = Some id /\ id <> ""
           /\ PlanAccess.hasPlanAccess user id r db = true).
Proof.
  unfold TasksRouter.guard.
  destruct (PlanAccess.requirePlanAccess r (Some user) None q b db)
    as [resp|plan o role] eqn:E.
  - left. exists resp. split; [reflexivity|].
    now apply requirePlanAccess_answered in E.
  - right. split; [reflexivity|]. now apply guard_passes in E.
Qed.

Lemma validateRequest_cases {A : Type} (parsed : Schema.Parsed A)
    (handler : A -> Db -> Response * Db) (db : Db) :
  (exists body, parsed = Schema.Valid body
                /\ validateRequest parsed handler db = handler body db)
  \/ (exists resp, validateRequest parsed handler db = (resp, db)
                   /\ status resp = 400).
Proof.
  destruct parsed as [body|issues]; simpl.
  - left. now exists body.
  - right. eexists. split; reflexivity.
Qed.

Lemma guard_turned_away (r : Role) (user : ObjectId) (q b : option string)
    (handler : Db -> Response * Db) (db : Db) :
  (forall id, PlanAccess.hasPlanAccess user id r db = false) ->
  turned_away (TasksRouter.guard r user q b handler db) db.
Proof.
  intros Hno.
  destruct (guard_cases r user q b handler db)
    as [(resp & -> & Hs)|(_ & id & _ & _ & Hh)].
  - now split.
  - rewrite Hno in Hh. discriminate.
Qed.

Lemma validated_turned_away {A : Type} (parsed : Schema.Parsed A)
    (handler : A -> Db -> Response * Db) (db : Db) :
  (forall body, turned_away (handler body db) db) ->
  turned_away (validateRequest parsed handler db) db.
Proof.
  intros H.
  destruct (validateRequest_cases parsed handler db)
    as [(body & _ & ->)|(resp & -> & Hs)].
  - apply H.
  - split; simpl; [reflexivity|lia].
Qed.

(** X4.  A user who is neither owner nor editor of any plan cannot change
    the store through the task routes: create, update, delete, bulk create
    and reorder all answer with an error status and leave every collection
    as it was, whatever the request says. *)
Theorem task_writes_need_an_editor (Date : string -> option Z)
    (newObjectId : nat -> ObjectId) (user id : ObjectId)
    (query_plan_id body_plan_id : option string) (body : TaskData.t)
    (bulk : Schema.BulkTaskInput) (reorder : Schema.ReorderTasksInput)
    (db : Db) :
  (forall plan_id, PlanAccess.hasPlanAccess user plan_id editor db = false) ->
  turned_away
    (TasksRouter.post_task Date newObjectId user query_plan_id body db) db
  /\ turned_away (TasksRouter.patch_task user id query_plan_id body db) db
  /\ turned_away
       (TasksRouter.delete_task user id query_plan_id body_plan_id db) db
  /\ turned_away
       (TasksRouter.post_bulk newObjectId user query_plan_id bulk db) db
  /\ turned_away (TasksRouter.post_reorder user query_plan_id reorder db) db.
Proof.
  intros Hno.
  repeat split;
    try (apply validated_turned_away; intros parsed);
    now apply guard_turned_away.
Qed.

Lemma task_writes_need_an_editor_witness :
  turned_away
    (TasksRouter.post_task Sample.isoDate Sample.oid "dan" None
       (Sample.payload "P" "C" todo) Team.db) Team.db
  /\ turned_away
       (TasksRouter.post_reorder "dan" (Some "P")
          {| Schema.task_ids := ["B"; "A"];
             Schema.reorder_plan_id := Some "P" |} Team.db) Team.db.
Proof.
  assert (H : forall plan_id,
             PlanAccess.hasPlanAccess "dan" plan_id editor Team.db = false).
  { intros plan_id. unfold PlanAccess.hasPlanAccess,
      PlanAccess.getUserPlanRole, PlanAccess.findById.
    change (Plans Team.db) with [Team.P; Team.Q].
    cbn [find Plan._id Team.P Team.Q].
    destruct ("P" =? plan_id); [reflexivity|].
    destruct ("Q" =? plan_id); reflexivity. }
  destruct (task_writes_need_an_editor Sample.isoDate Sample.oid "dan" "A"
              (Some "P") None (Sample.payload "P" "C" todo)
              {| Schema.tasks := []; Schema.plan_id := Some "P" |}
              {| Schema.task_ids := ["B"; "A"];
                 Schema.reorder_plan_id := Some "P" |} Team.db H)
    as (_ & _ & _ & _ & H5).
  destruct (task_writes_need_an_editor Sample.isoDate Sample.oid "dan" "A"
              None None (Sample.payload "P" "C" todo)
              {| Schema.tasks := []; Schema.plan_id := Some "P" |}
              {| Schema.task_ids := ["B"; "A"];
                 Schema.reorder_plan_id := Some "P" |} Team.db H)
    as (H1 & _).
  split; assumption.
Defined.

Lemma or_str_truthy (id : string) (b : option string) :
  id <> "" -> PlanAccess.or_str (Some id) b = Some id.
Proof.
  intros H. unfold PlanAccess.or_str, Js.truthy.
  apply String.eqb_neq in H. now rewrite H.
Qed.

Lemma guard_query_first (r : Role) (user : ObjectId) (id : string)
    (b : option string) (handler : Db -> Response * Db) (db : Db)
    (plan : Plan.IPlan) (o : User.IUser) (role : Role) :
  PlanAccess.requirePlanAccess r (Some user) None (Some id) None db
  = PlanAccess.Next plan o role ->
  TasksRouter.guard r user (Some id) b handler db = handler db.
Proof.
  intros H. unfold TasksRouter.guard.
  pose proof H as H'. apply requirePlanAccess_inv in H'.
  destruct H' as (uid & id' & _ & Hid & Hne & _).
  assert (Hq : id <> "").
  { intros ->. simpl in Hid. discriminate. }
  assert (E : PlanAccess.requirePlanAccess r (Some user) None (Some id) b db
              = PlanAccess.requirePlanAccess r (Some user) None (Some id) None
                  db).
  { unfold PlanAccess.requirePlanAccess.
    change (PlanAccess.or_str None (Some id)) with (Some id).
    now rewrite !or_str_truthy. }
  now rewrite E, H.
Qed.

(** X5.  The access check reads the plan from the query string before the
    body, the create, bulk and reorder handlers read it from the body only.
    So for a user the access check lets through as editor of the plan named
    in the query string, these three routes serve the request exactly as
    the unguarded handlers do, whatever plan the body names: editor access to
    one plan is enough to write into any other. *)
Theorem query_plan_read_before_body (Date : string -> option Z)
    (newObjectId : nat -> ObjectId) (user : ObjectId) (plan_id : string)
    (db : Db) (plan : Plan.IPlan) (owner_doc : User.IUser) (userRole : Role)
    (body : TaskData.t) (bulk : Schema.BulkTaskInput)
    (reorder : Schema.ReorderTasksInput) :
  PlanAccess.requirePlanAccess editor (Some user) None (Some plan_id) None db
  = PlanAccess.Next plan owner_doc userRole ->
  TasksRouter.post_task Date newObjectId user (Some plan_id) body db
  = TasksRoute.post_task Date newObjectId user body db
  /\ TasksRouter.post_bulk newObjectId user (Some plan_id) bulk db
     = TasksRoute.post_bulk newObjectId user bulk db
  /\ TasksRouter.post_reorder user (Some plan_id) reorder db
     = TasksRoute.post_reorder user reorder db.
Proof.
  intros H.
  unfold TasksRouter.post_task, TasksRouter.post_bulk,
    TasksRouter.post_reorder, TasksRoute.post_task, TasksRoute.post_bulk,
    TasksRoute.post_reorder.
  repeat split.
  - destruct (Schema.taskSchema Date body); simpl; [|reflexivity].
    now apply guard_query_first with (1 := H).
  - destruct (Schema.bulkTaskSchema bulk); simpl; [|reflexivity].
    now apply guard_query_first with (1 := H).
  - destruct (Schema.reorderTasksSchema reorder); simpl; [|reflexivity].
    now apply guard_query_first with (1 := H).
Qed.

Lemma query_plan_read_before_body_witness :
  PlanAccess.hasPlanAccess "bob" "Q" viewer Team.db = false
  /\ Tasks
       (snd
          (TasksRouter.post_reorder "bob" (Some "P")
             {| Schema.task_ids := ["Z"];
                Schema.reorder_plan_id := Some "Q" |} Team.db))
     = [Sample.task "A" "P" todo 1 None; Sample.task "B" "P" todo 2 None;
        Task.set_updated_by "bob" (Sample.task "Z" "Q" todo 1 None)].
Proof.
  split; [reflexivity|].
  destruct (query_plan_read_before_body Sample.isoDate Sample.oid "bob" "P"
              Team.db Team.P (Team.user "ann") editor
              (Sample.payload "Q" "C" todo)
              {| Schema.tasks := []; Schema.plan_id := Some "Q" |}
              {| Schema.task_ids := ["Z"];
                 Schema.reorder_plan_id := Some "Q" |} eq_refl)
    as (_ & _ & H).
  rewrite H. reflexivity.
Defined.

(** ** What the task handlers write *)

(** The document that [new Task(data)] builds, field by field. *)
Lemma construct_fields (data : TaskData.t) (oid : ObjectId) (t : Task.ITask) :
  Task.construct data oid = Some t ->
  TaskData.plan_id data = Some (Task.plan_id t)
  /\ TaskData.created_by data = Some (Task.created_by t)
  /\ TaskData.updated_by data = Some (Task.updated_by t)
  /\ option_map Js.trim (TaskData.title data) = Some (Task.title t)
  /\ Task._id t = Task.opt_or (TaskData._id data) oid
  /\ Task.status t = Task.opt_or (TaskData.status data) todo
  /\ Task.parent_id t = TaskData.parent_id data
  /\ Task.dependency_ids t = Task.opt_or (TaskData.dependency_ids data) []
  /\ Task.order_index t = Task.opt_or (TaskData.order_index data) 0%Z
  /\ Task.title t <> ""
  /\ (0 <= Task.progress_pct t <= 100)%Z.
Proof.
  unfold Task.construct.
  destruct (TaskData.plan_id data), (TaskData.title data),
    (TaskData.created_by data), (TaskData.updated_by data); try discriminate.
  match goal with |- (if ?c then _ else _) = _ -> _ => destruct c eqn:E end;
    [discriminate|].
  intros [= <-]. simpl.
  apply orb_false_iff in E as [E _]. apply orb_false_iff in E as [E1 E2].
  apply String.eqb_neq in E1. apply negb_false_iff in E2.
  apply andb_true_iff in E2 as [E2 E3].
  apply Z.leb_le in E2. apply Z.leb_le in E3.
  repeat split; auto.
Qed.

Lemma in_plan_among_true (ids : list ObjectId) (plan : option ObjectId)
    (d : Task.ITask) :
  TasksRoute.in_plan_among ids plan d = true
  <-> In (Task._id d) ids /\ plan = Some (Task.plan_id d).
Proof.
  unfold TasksRoute.in_plan_among, eq_opt.
  rewrite andb_true_iff, includes_In.
  destruct plan as [p|].
  - rewrite String.eqb_eq. split; intros [H1 H2]; split; auto.
    + now rewrite H2.
    + now injection H2.
  - split; intros [H1 H2]; discriminate.
Qed.

(** The count test on dependencies, read as a statement about the ids: when
    the ids of the collection are unique, as many matching documents as
    listed ids means that every listed id matches and none is repeated. *)
Lemma dependencies_counted_all (deps : list ObjectId) (plan : ObjectId)
    (c : list Task.ITask) :
  NoDup (map Task._id c) ->
  List.length (filter (TasksRoute.in_plan_among deps (Some plan)) c)
  = List.length deps ->
  NoDup deps
  /\ forall dep,
       In dep deps ->
       exists p, In p c /\ Task._id p = dep /\ Task.plan_id p = plan.
Proof.
  intros Hnd Hlen.
  set (m := filter (TasksRoute.in_plan_among deps (Some plan)) c) in *.
  assert (Hm : NoDup (map Task._id m)) by now apply filter_ids_NoDup.
  assert (Hincl : incl (map Task._id m) deps).
  { intros x Hx. apply in_map_iff in Hx as (d & <- & Hd).
    apply filter_In in Hd as [_ Hd].
    now apply in_plan_among_true in Hd as [Hd _]. }
  assert (Hle : List.length deps <= List.length (map Task._id m)).
  { unfold ObjectId in *. rewrite length_map. lia. }
  split.
  - exact (NoDup_incl_NoDup Hm Hle Hincl).
  - intros dep Hdep.
    apply (NoDup_length_incl Hm Hle Hincl) in Hdep.
    apply in_map_iff in Hdep as (p & Hp & Hin).
    apply filter_In in Hin as [Hin Hq].
    apply in_plan_among_true in Hq as [_ [= Hq]].
    exists p. auto.
Qed.

Lemma find_in_plan_some (id : ObjectId) (plan : option ObjectId)
    (c : list Task.ITask) (p : Task.ITask) :
  find (TasksRoute.in_plan id plan) c = Some p ->
  In p c /\ Task._id p = id /\ plan = Some (Task.plan_id p).
Proof.
  intros H. apply find_some in H as [Hin H].
  apply in_plan_true in H. tauto.
Qed.

Section HandlerFacts.
Variable newObjectId : nat -> ObjectId.

(** The three ways the create handler ends. *)
Lemma post_task_handler_inv (user : ObjectId) (body : TaskData.t)
    (db db' : Db) (r : Response) :
  TasksRoute.post_task_handler newObjectId user body db = (r, db') ->
  (status r = 400 /\ db' = db)
  \/ (status r = 500 /\ Tasks db' = Tasks db /\ Users db' = Users db
      /\ Plans db' = Plans db)
  \/ (exists task,
         r = res 201 (JTask task)
         /\ Tasks db' = Tasks db ++ [task]
         /\ Users db' = Users db /\ Plans db' = Plans db
         /\ oids db' = S (oids db)
         /\ TaskData.plan_id body = Some (Task.plan_id task)
         /\ Task.created_by task = user /\ Task.updated_by task = user
         /\ option_map Js.trim (TaskData.title body) = Some (Task.title task)
         /\ Task._id task
            = Task.opt_or (TaskData._id body) (newObjectId (oids db))
         /\ Task.parent_id task = TaskData.parent_id body
         /\ Task.dependency_ids task
            = Task.opt_or (TaskData.dependency_ids body) []
         /\ (forall v, TaskData.order_index body = Some v ->
                       Task.order_index task = v)
         /\ parent_in_plan (Task.plan_id task) db task
         /\ (Task.dependency_ids task <> [] ->
             List.length
               (filter
                  (TasksRoute.in_plan_among (Task.dependency_ids task)
                     (Some (Task.plan_id task)))
                  (Tasks db))
             = List.length (Task.dependency_ids task))).
Proof.
  unfold TasksRoute.post_task_handler.
  match goal with |- (if ?c then _ else _) = _ -> _ => destruct c eqn:Ep end;
    [intros [= <- <-]; left; now split|].
  match goal with |- (if ?c then _ else _) = _ -> _ => destruct c eqn:Ed end;
    [intros [= <- <-]; left; now split|].
  match goal with
  | |- (match TasksRoute.save_new _ ?d _ with _ => _ end) = _ -> _ =>
      set (data := d)
  end.
  unfold TasksRoute.save_new.
  destruct (Task.construct data (newObjectId (oids db))) as [task|] eqn:Ec;
    [|intros [= <- <-]; right; left; now repeat split].
  destruct (Collection.insertOne Task._id task (Tasks (next_oid db)))
    as [c|] eqn:Ei;
    [|intros [= <- <-]; right; left; now repeat split].
  intros [= <- <-]. right. right. exists task.
  unfold Collection.insertOne in Ei.
  destruct (existsb _ _); [discriminate|]. injection Ei as <-.
  apply construct_fields in Ec
    as (Hplan & Hcb & Hub & Httl & Hid & _ & Hpar & Hdeps & Hord & _).
  assert (Hsame : forall A (f : TaskData.t -> A),
             (forall v d, f (TaskData.with_order_index v d) = f d) ->
             f data = f (TaskData.with_user user body)).
  { intros A f Hf. unfold data.
    destruct (TaskData.order_index (TaskData.with_user user body));
      [reflexivity|apply Hf]. }
  rewrite (Hsame _ TaskData.plan_id) in Hplan by reflexivity.
  rewrite (Hsame _ TaskData.created_by) in Hcb by reflexivity.
  rewrite (Hsame _ TaskData.updated_by) in Hub by reflexivity.
  rewrite (Hsame _ TaskData.title) in Httl by reflexivity.
  rewrite (Hsame _ TaskData._id) in Hid by reflexivity.
  rewrite (Hsame _ TaskData.parent_id) in Hpar by reflexivity.
  rewrite (Hsame _ TaskData.dependency_ids) in Hdeps by reflexivity.
  simpl in Hplan, Hcb, Hub, Httl, Hid, Hpar, Hdeps.
  injection Hcb as Hcb. injection Hub as Hub.
  repeat split; auto.
  - intros v Hv. rewrite Hord. unfold data. simpl. rewrite Hv. simpl.
    now rewrite Hv.
  - intros pid Hpid Hne. rewrite Hpar in Hpid.
    simpl in Ep. rewrite Hpid in Ep. simpl in Ep.
    apply String.eqb_neq in Hne. rewrite Hne in Ep. simpl in Ep.
    apply negb_false_iff in Ep.
    destruct (find _ (Tasks db)) as [p|] eqn:Ef; [|discriminate].
    apply find_in_plan_some in Ef as (Hin & Hp & Hq).
    exists p. rewrite Hplan in Hq. injection Hq as Hq. auto.
  - intros Hne. simpl in Ed. rewrite Hdeps in *.
    destruct (TaskData.dependency_ids body) as [deps|]; simpl in *;
      [|congruence].
    destruct deps as [|dep deps]; [congruence|].
    simpl in Ed. apply negb_false_iff in Ed. apply Nat.eqb_eq in Ed.
    rewrite Hplan in Ed. exact Ed.
Qed.

End HandlerFacts.

Lemma taskUpdateSchema_valid (body parsed : TaskData.t) :
  Schema.taskUpdateSchema body = Schema.Valid parsed ->
  parsed = Schema.strip false false body.
Proof.
  unfold Schema.taskUpdateSchema, Schema.finish.
  destruct (Schema.taskBaseSchema_issues _ _); [|discriminate].
  now intros [= <-].
Qed.

(** The ways an update ends: with the store as it was, or with the found
    document rewritten in place. *)
Lemma patch_task_inv (user id : ObjectId) (query_plan_id : option string)
    (body : TaskData.t) (db db' : Db) (r : Response) :
  TasksRoute.patch_task user id query_plan_id body db = (r, db') ->
  (db' = db /\ 400 <= status r)
  \/ (exists task task',
         find (TasksRoute.in_plan id query_plan_id) (Tasks db) = Some task
         /\ r = res 200 (JTask task')
         /\ db'
            = with_Tasks (Collection.replaceOne Task._id task' (Tasks db)) db
         /\ Task._id task' = Task._id task
         /\ Task.plan_id task' = Task.plan_id task
         /\ Task.created_by task' = Task.created_by task
         /\ Task.updated_by task' = user
         /\ Task.title task'
            = Js.trim (Task.opt_or (TaskData.title body) (Task.title task))
         /\ Task.status task'
            = Task.opt_or (TaskData.status body) (Task.status task)
         /\ Task.order_index task'
            = Task.opt_or (TaskData.order_index body) (Task.order_index task)
         /\ Task.parent_id task'
            = Task.or_else (TaskData.parent_id body) (Task.parent_id task)
         /\ (forall pid,
                TaskData.parent_id body = Some pid -> pid <> "" ->
                Task.parent_id task = Some pid
                \/ exists p,
                     In p (Tasks db) /\ Task._id p = pid
                     /\ Task.plan_id p = Task.plan_id task)).
Proof.
  unfold TasksRoute.patch_task, validateRequest.
  destruct (Schema.taskUpdateSchema body) as [parsed|issues] eqn:Es;
    [|intros [= <- <-]; left; split; [reflexivity|simpl; lia]].
  apply taskUpdateSchema_valid in Es. subst parsed.
  unfold TasksRoute.patch_task_handler.
  destruct (find (TasksRoute.in_plan id query_plan_id) (Tasks db))
    as [task|] eqn:Ef;
    [|intros [= <- <-]; left; split; [reflexivity|simpl; lia]].
  match goal with |- (if ?c then _ else _) = _ -> _ => destruct c eqn:Ep end;
    [intros [= <- <-]; left; split; [reflexivity|simpl; lia]|].
  match goal with |- (if ?c then _ else _) = _ -> _ => destruct c eqn:Ed end;
    [intros [= <- <-]; left; split; [reflexivity|simpl; lia]|].
  destruct (Task.construct _ _) as [task'|] eqn:Ec;
    [|intros [= <- <-]; left; split; [reflexivity|simpl; lia]].
  intros [= <- <-]. right. exists task, task'.
  apply construct_fields in Ec
    as (Hplan & Hcb & Hub & Httl & Hid & Hst & Hpar & _ & Hord & _).
  simpl in *.
  injection Hplan as Hplan. injection Hcb as Hcb. injection Hub as Hub.
  repeat split; auto.
  - destruct (TaskData.title body); simpl in Httl; now injection Httl.
  - rewrite Hst. now destruct (TaskData.status body).
  - rewrite Hord. now destruct (TaskData.order_index body).
  - intros pid Hpid Hne. rewrite Hpid in Ep.
    apply String.eqb_neq in Hne. simpl in Ep. rewrite Hne in Ep. simpl in Ep.
    destruct (Task.parent_id task) as [old|] eqn:Eold; simpl in Ep.
    + destruct (pid =? old) eqn:Eq; simpl in Ep.
      * apply String.eqb_eq in Eq. left. now subst.
      * apply negb_false_iff in Ep.
        destruct (find (TasksRoute.in_plan pid _) (Tasks db)) as [p|] eqn:Efp;
          [|discriminate].
        apply find_in_plan_some in Efp as (Hin & Hp & [= Hq]).
        right. exists p. auto.
    + apply negb_false_iff in Ep.
      destruct (find (TasksRoute.in_plan pid _) (Tasks db)) as [p|] eqn:Efp;
        [|discriminate].
      apply find_in_plan_some in Efp as (Hin & Hp & [= Hq]).
      right. exists p. auto.
Qed.

(** The ways a delete ends. *)
Lemma delete_task_inv (id : ObjectId) (query_plan_id : option string)
    (db db' : Db) (r : Response) :
  TasksRoute.delete_task id query_plan_id db = (r, db') ->
  (db' = db /\ 400 <= status r)
  \/ (exists task,
         find (TasksRoute.in_plan id query_plan_id) (Tasks db) = Some task
         /\ r = res 200 (JMessage "Task deleted successfully")
         /\ (forall k, In k (Tasks db) -> Task.parent_id k <> Some id)
         /\ db'
            = with_Tasks
                (Collection.deleteOne (fun d => Task._id d =? id) (Tasks db))
                db).
Proof.
  unfold TasksRoute.delete_task.
  destruct (find (TasksRoute.in_plan id query_plan_id) (Tasks db))
    as [task|] eqn:Ef;
    [|intros [= <- <-]; left; split; [reflexivity|simpl; lia]].
  destruct (is_some (find _ (Tasks db))) eqn:Ec;
    [intros [= <- <-]; left; split; [reflexivity|simpl; lia]|].
  intros [= <- <-]. right. exists task. repeat split; auto.
  intros k Hk Hp.
  assert (H : is_some
                (find (fun d => eq_opt (Task.parent_id d) id) (Tasks db))
              = true) by (apply find_child; now exists k).
  congruence.
Qed.

Lemma insertMany_false {D : Type} (key : D -> ObjectId) (ds : list D) :
  forall c c',
    Collection.insertMany key ds c = (false, c') ->
    exists k, k < List.length ds /\ c' = c ++ firstn k ds.
Proof.
  induction ds as [|d ds IH]; simpl; intros c c'; [discriminate|].
  unfold Collection.insertOne.
  destruct (existsb _ c).
  - intros [= <-]. exists 0. rewrite app_nil_r. split; [lia|reflexivity].
  - intros H. apply IH in H as (k & Hk & ->). exists (S k).
    rewrite <- app_assoc. split; [lia|reflexivity].
Qed.

Lemma construct_all_each (newObjectId : nat -> ObjectId)
    (ds : list TaskData.t) : forall n docs,
  TasksRoute.construct_all newObjectId ds n = Some docs ->
  Forall2 (fun data doc => exists oid, Task.construct data oid = Some doc)
    ds docs.
Proof.
  induction ds as [|d ds IH]; simpl; intros n docs.
  - intros [= <-]. constructor.
  - destruct (Task.construct d (newObjectId n)) as [x|] eqn:Ex;
      [|discriminate].
    destruct (TasksRoute.construct_all newObjectId ds (S n)) as [xs|] eqn:Exs;
      [|discriminate].
    intros [= <-]. constructor; [|now apply IH with (n := S n)].
    now exists (newObjectId n).
Qed.

(** What a bulk create writes: documents of the batch's plan, stamped with
    the acting user, appended to the collection. *)
Lemma post_bulk_inv (newObjectId : nat -> ObjectId) (user : ObjectId)
    (body : Schema.BulkTaskInput) (db db' : Db) (r : Response) :
  TasksRoute.post_bulk newObjectId user body db = (r, db') ->
  (db' = db /\ status r = 400)
  \/ (exists docs k,
         Forall2
           (fun t doc =>
              exists oid,
                Task.construct
                  (TaskData.with_user user
                     (TaskData.with_plan_id (Schema.plan_id body)
                        (Schema.strip true true t))) oid
                = Some doc)
           (Schema.tasks body) docs
         /\ Tasks db' = Tasks db ++ firstn k docs
         /\ Users db' = Users db /\ Plans db' = Plans db
         /\ ((status r = 500 /\ k < List.length docs)
             \/ (exists msg, r = res 201 (JBulk msg docs))
                /\ k = List.length docs
                /\ TasksRoute.validate_loop
                     (map (Schema.strip true true) (Schema.tasks body))
                     (Schema.plan_id body) db
                     (map (Schema.strip true true) (Schema.tasks body))
                   = None))
  \/ (status r = 500 /\ Tasks db' = Tasks db /\ Users db' = Users db
      /\ Plans db' = Plans db).
Proof.
  unfold TasksRoute.post_bulk, validateRequest.
  destruct (Schema.bulkTaskSchema body) as [parsed|issues] eqn:Es;
    [|intros [= <- <-]; left; now split].
  apply bulkTaskSchema_valid in Es. subst parsed.
  unfold TasksRoute.post_bulk_handler. simpl.
  destruct (TasksRoute.validate_loop _ _ db _) as [resp|] eqn:Ev.
  - intros [= <- <-]. left. split; [reflexivity|].
    now apply validate_loop_status in Ev.
  - destruct (TasksRoute.construct_all _ _ _) as [docs|] eqn:Ec;
      [|intros [= <- <-]; right; right; now repeat split].
    destruct (Collection.insertMany _ _ _) as [[|] c] eqn:Ei.
    + intros [= <- <-]. right. left.
      apply insertMany_true in Ei. subst c.
      exists docs, (List.length docs). rewrite firstn_all. simpl.
      repeat split; auto.
      * apply construct_all_each in Ec. unfold TasksRoute.tasksToInsert in Ec.
        clear -Ec. revert docs Ec.
        induction (Schema.tasks body) as [|t ts IH]; intros docs H;
          inversion H; subst; constructor.
        -- assumption.
        -- now apply IH.
      * right. repeat split; auto. eexists. reflexivity.
    + intros [= <- <-]. right. left.
      apply insertMany_false in Ei as (k & Hk & ->).
      exists docs, k. simpl.
      repeat split; auto.
      apply construct_all_each in Ec. unfold TasksRoute.tasksToInsert in Ec.
      clear -Ec. revert docs Ec.
      induction (Schema.tasks body) as [|t ts IH]; intros docs H;
        inversion H; subst; constructor.
      * assumption.
      * now apply IH.
Qed.

(** A validated, guarded route either turns the request away or serves it
    as the handler alone would, for a user with the required access to the
    plan the access check has read from the query string or, failing that,
    the body. *)
Lemma guarded_cases {A : Type} (parsed : Schema.Parsed A) (r : Role)
    (user : ObjectId) (q : option string) (bp : A -> option string)
    (h : A -> Db -> Response * Db) (db : Db) :
  turned_away
    (validateRequest parsed (fun b => TasksRouter.guard r user q (bp b) (h b))
       db) db
  \/ (exists b id,
         parsed = Schema.Valid b
         /\ validateRequest parsed
              (fun b => TasksRouter.guard r user q (bp b) (h b)) db
            = validateRequest parsed h db
         /\ PlanAccess.or_str q (bp b) = Some id /\ id <> ""
         /\ PlanAccess.hasPlanAccess user id r db = true).
Proof.
  destruct parsed as [b|issues]; simpl.
  - destruct (guard_cases r user q (bp b) (h b) db)
      as [(resp & E & Hs)|(E & id & Hid & Hne & Hh)]; rewrite E.
    + left. now split.
    + right. now exists b, id.
  - left. split; simpl; [reflexivity|lia].
Qed.

Section RouteFacts.
Variable Date : string -> option Z.
Variable newObjectId : nat -> ObjectId.

(** The ways a create ends, in terms of the request body. *)
Lemma post_task_inv (user : ObjectId) (body : TaskData.t) (db db' : Db)
    (r : Response) :
  TasksRoute.post_task Date newObjectId user body db = (r, db') ->
  (status r = 400 /\ db' = db)
  \/ (status r = 500 /\ Tasks db' = Tasks db /\ Users db' = Users db
      /\ Plans db' = Plans db)
  \/ (exists task,
         r = res 201 (JTask task)
         /\ Tasks db' = Tasks db ++ [task]
         /\ Users db' = Users db /\ Plans db' = Plans db
         /\ oids db' = S (oids db)
         /\ TaskData.plan_id body = Some (Task.plan_id task)
         /\ Task.created_by task = user /\ Task.updated_by task = user
         /\ option_map Js.trim (TaskData.title body) = Some (Task.title task)
         /\ Task._id task = newObjectId (oids db)
         /\ Task.parent_id task = TaskData.parent_id body
         /\ Task.dependency_ids task
            = Task.opt_or (TaskData.dependency_ids body) []
         /\ (forall v, TaskData.order_index body = Some v ->
                       Task.order_index task = v)
         /\ parent_in_plan (Task.plan_id task) db task
         /\ (Task.dependency_ids task <> [] ->
             List.length
               (filter
                  (TasksRoute.in_plan_among (Task.dependency_ids task)
                     (Some (Task.plan_id task)))
                  (Tasks db))
             = List.length (Task.dependency_ids task))).
Proof.
  unfold TasksRoute.post_task, validateRequest.
  destruct (Schema.taskSchema Date body) as [parsed|issues] eqn:Es;
    [|intros [= <- <-]; left; now split].
  apply taskSchema_valid in Es as (-> & _).
  intros H. apply post_task_handler_inv in H.
  destruct H as [H|[H|(task & H)]]; [now left|now right; left|].
  right. right. exists task. exact H.
Qed.

End RouteFacts.

(** ** Create *)

Lemma post_task_guarded (Date : string -> option Z)
    (newObjectId : nat -> ObjectId) (user : ObjectId) (q : option string)
    (body : TaskData.t) (db : Db) :
  turned_away (TasksRouter.post_task Date newObjectId user q body db) db
  \/ (TasksRouter.post_task Date newObjectId user q body db
      = TasksRoute.post_task Date newObjectId user body db
      /\ exists id,
           PlanAccess.or_str q (TaskData.plan_id body) = Some id /\ id <> ""
           /\ PlanAccess.hasPlanAccess user id editor db = true).
Proof.
  unfold TasksRouter.post_task, TasksRoute.post_task.
  destruct (guarded_cases (Schema.taskSchema Date body) editor user q
              TaskData.plan_id
              (TasksRoute.post_task_handler newObjectId user) db)
    as [H|(b & id & Hb & E & Hid & Hne & Hh)]; [now left|].
  right. split; [exact E|]. exists id.
  apply taskSchema_valid in Hb as (-> & _). auto.
Qed.

(** X6.  A create answered with 201 appends exactly the returned task to
    the collection and touches nothing else.  The task gets a generated id
    and the acting user as creator and updater, whatever the body says; its
    plan is the body's; a non-empty parent names a task of that plan; and,
    ids being unique in the collection, its dependencies are distinct tasks
    of that plan. *)
Theorem create_writes_one_task (Date : string -> option Z)
    (newObjectId : nat -> ObjectId) (user : ObjectId)
    (query_plan_id : option string) (body : TaskData.t) (db db' : Db)
    (task : Task.ITask) :
  TasksRouter.post_task Date newObjectId user query_plan_id body db
  = (res 201 (JTask task), db') ->
  Tasks db' = Tasks db ++ [task]
  /\ Users db' = Users db /\ Plans db' = Plans db
  /\ Task._id task = newObjectId (oids db)
  /\ TaskData.plan_id body = Some (Task.plan_id task)
  /\ option_map Js.trim (TaskData.title body) = Some (Task.title task)
  /\ Task.created_by task = user /\ Task.updated_by task = user
  /\ parent_in_plan (Task.plan_id task) db task
  /\ (NoDup (map Task._id (Tasks db)) ->
      dependencies_in_plan (Task.plan_id task) db task).
Proof.
  intros H.
  destruct (post_task_guarded Date newObjectId user query_plan_id body db)
    as [[_ Hs]|[E _]].
  - rewrite H in Hs. simpl in Hs. lia.
  - rewrite E in H. apply post_task_inv in H.
    destruct H as [[Hs _]|[[Hs _]|(t & [= <-] & H)]]; try discriminate.
    destruct H as (Ht & Hu & Hp & _ & Hplan & Hcb & Hub & Httl & Hid & _ & _
                   & _ & Hpar & Hdeps).
    repeat split; auto.
    + destruct (Task.dependency_ids task) as [|d ds] eqn:Ed; [constructor|].
      rewrite <- Ed in *.
      apply (dependencies_counted_all _ (Task.plan_id task) (Tasks db));
        [assumption|].
      apply Hdeps. rewrite Ed. discriminate.
    + destruct (Task.dependency_ids task) as [|d ds] eqn:Ed;
        [intros dep []|].
      rewrite <- Ed in *.
      apply (dependencies_counted_all _ (Task.plan_id task) (Tasks db));
        [assumption|].
      apply Hdeps. rewrite Ed. discriminate.
Qed.

Lemma create_writes_one_task_witness :
  exists task db',
    TasksRouter.post_task Sample.isoDate Sample.oid "bob" None
      (Sample.identified "A" (Sample.depending "C" ["A"; "B"])) Team.db
    = (res 201 (JTask task), db')
    /\ Tasks db' = Tasks Team.db ++ [task]
    /\ Task._id task = "oid0"
    /\ Task.created_by task = "bob"
    /\ dependencies_in_plan "P" Team.db task.
Proof.
  eexists. eexists. split; [reflexivity|].
  destruct (create_writes_one_task Sample.isoDate Sample.oid "bob" None
              (Sample.identified "A" (Sample.depending "C" ["A"; "B"]))
              Team.db _ _ eq_refl)
    as (H1 & _ & _ & H2 & _ & _ & H3 & _ & _ & H4).
  repeat split; try assumption; apply H4;
    repeat constructor; simpl; intuition discriminate.
Defined.

(** ** Update *)

Lemma patch_task_guarded (user id : ObjectId) (q : option string)
    (body : TaskData.t) (db : Db) :
  turned_away (TasksRouter.patch_task user id q body db) db
  \/ (TasksRouter.patch_task user id q body db
      = TasksRoute.patch_task user id q body db
      /\ exists plan,
           q = Some plan /\ plan <> ""
           /\ PlanAccess.hasPlanAccess user plan editor db = true).
Proof.
  unfold TasksRouter.patch_task, TasksRoute.patch_task.
  destruct (guarded_cases (Schema.taskUpdateSchema body) editor user q
              TaskData.plan_id
              (TasksRoute.patch_task_handler user id q) db)
    as [H|(b & plan & Hb & E & Hid & Hne & Hh)]; [now left|].
  right. split; [exact E|]. exists plan.
  apply taskUpdateSchema_valid in Hb. subst b. simpl in Hid.
  unfold PlanAccess.or_str in Hid.
  destruct (Js.truthy q); [|discriminate]. auto.
Qed.

Lemma replaceOne_map (d : Task.ITask) (c : list Task.ITask) :
  NoDup (map Task._id c) ->
  Collection.replaceOne Task._id d c
  = map (fun x => if Task._id x =? Task._id d then d else x) c.
Proof.
  intros Hnd. unfold Collection.replaceOne.
  apply (updateOne_map Task._id _ _ (Task._id d)); [assumption|].
  intros x Hx. now apply String.eqb_eq in Hx.
Qed.



(** ** Errors *)

Lemma delete_task_guarded (user id : ObjectId) (q b : option string)
    (db : Db) :
  turned_away (TasksRouter.delete_task user id q b db) db
  \/ (TasksRouter.delete_task user id q b db = TasksRoute.delete_task id q db
      /\ exists plan,
           PlanAccess.or_str q b = Some plan /\ plan <> ""
           /\ PlanAccess.hasPlanAccess user plan editor db = true).
Proof.
  unfold TasksRouter.delete_task.
  destruct (guard_cases editor user q b (TasksRoute.delete_task id q) db)
    as [(resp & E & Hs)|(E & H)]; rewrite E.
  - left. now split.
  - now right.
Qed.

Lemma post_bulk_guarded (newObjectId : nat -> ObjectId) (user : ObjectId)
    (q : option string) (body : Schema.BulkTaskInput) (db : Db) :
  turned_away (TasksRouter.post_bulk newObjectId user q body db) db
  \/ (TasksRouter.post_bulk newObjectId user q body db
      = TasksRoute.post_bulk newObjectId user body db
      /\ exists id,
           PlanAccess.or_str q (Schema.plan_id body) = Some id /\ id <> ""
           /\ PlanAccess.hasPlanAccess user id editor db = true).
Proof.
  unfold TasksRouter.post_bulk, TasksRoute.post_bulk.
  destruct (guarded_cases (Schema.bulkTaskSchema body) editor user q
              Schema.plan_id
              (TasksRoute.post_bulk_handler newObjectId user) db)
    as [H|(b & id & Hb & E & Hid & Hne & Hh)]; [now left|].
  right. split; [exact E|]. exists id.
  apply bulkTaskSchema_valid in Hb. subst b. auto.
Qed.

Lemma reorderTasksSchema_valid (body parsed : Schema.ReorderTasksInput) :
  Schema.reorderTasksSchema body = Schema.Valid parsed -> parsed = body.
Proof.
  unfold Schema.reorderTasksSchema, Schema.finish.
  destruct (_ ++ _); congruence.
Qed.

Lemma post_reorder_guarded (user : ObjectId) (q : option string)
    (body : Schema.ReorderTasksInput) (db : Db) :
  turned_away (TasksRouter.post_reorder user q body db) db
  \/ (TasksRouter.post_reorder user q body db
      = TasksRoute.post_reorder user body db
      /\ Schema.reorderTasksSchema body = Schema.Valid body
      /\ exists id,
           PlanAccess.or_str q (Schema.reorder_plan_id body) = Some id
           /\ id <> ""
           /\ PlanAccess.hasPlanAccess user id editor db = true).
Proof.
  unfold TasksRouter.post_reorder, TasksRoute.post_reorder.
  destruct (guarded_cases (Schema.reorderTasksSchema body) editor user q
              Schema.reorder_plan_id
              (TasksRoute.post_reorder_handler user) db)
    as [H|(b & id & Hb & E & Hid & Hne & Hh)]; [now left|].
  right. split; [exact E|].
  pose proof (reorderTasksSchema_valid _ _ Hb) as ->.
  split; [exact Hb|]. now exists id.
Qed.

(** X8.  A task request answered in the 4xx range, by the validation, by
    the access check or by the handler, leaves the whole store as it was;
    this holds for all six task routes. *)
Theorem client_errors_change_nothing (Date : string -> option Z)
    (newObjectId : nat -> ObjectId)
    (textSearch : string -> Task.ITask -> bool) (user id : ObjectId)
    (rq : ListQuery.t) (query_plan_id body_plan_id : option string)
    (body : TaskData.t) (bulk : Schema.BulkTaskInput)
    (reorder : Schema.ReorderTasksInput) (db : Db) :
  (client_error
     (fst (TasksRouter.post_task Date newObjectId user query_plan_id body db))
   -> snd (TasksRouter.post_task Date newObjectId user query_plan_id body db)
      = db)
  /\ (client_error
        (fst (TasksRouter.patch_task user id query_plan_id body db)) ->
      snd (TasksRouter.patch_task user id query_plan_id body db) = db)
  /\ (client_error
        (fst (TasksRouter.delete_task user id query_plan_id body_plan_id db))
      -> snd (TasksRouter.delete_task user id query_plan_id body_plan_id db)
         = db)
  /\ (client_error
        (fst (TasksRouter.post_bulk newObjectId user query_plan_id bulk db))
      -> snd (TasksRouter.post_bulk newObjectId user query_plan_id bulk db)
         = db)
  /\ (client_error
        (fst (TasksRouter.post_reorder user query_plan_id reorder db)) ->
      snd (TasksRouter.post_reorder user query_plan_id reorder db) = db)
  /\ snd (TasksRouter.get_tasks textSearch user rq body_plan_id db) = db.
Proof.
  unfold client_error. repeat split.
  - destruct (post_task_guarded Date newObjectId user query_plan_id body db)
      as [[H _]|[-> _]]; [auto|].
    destruct (TasksRoute.post_task Date newObjectId user body db)
      as [r db'] eqn:E.
    apply post_task_inv in E.
    destruct E as [[_ ->]|[[Hs _]|(t & -> & _)]]; simpl; auto; lia.
  - destruct (patch_task_guarded user id query_plan_id body db)
      as [[H _]|[-> _]]; [auto|].
    destruct (TasksRoute.patch_task user id query_plan_id body db)
      as [r db'] eqn:E.
    apply patch_task_inv in E.
    destruct E as [[-> _]|(t & t' & _ & -> & _)]; simpl; auto; lia.
  - destruct (delete_task_guarded user id query_plan_id body_plan_id db)
      as [[H _]|[-> _]]; [auto|].
    destruct (TasksRoute.delete_task id query_plan_id db) as [r db'] eqn:E.
    apply delete_task_inv in E.
    destruct E as [[-> _]|(t & _ & -> & _)]; simpl; auto; lia.
  - destruct (post_bulk_guarded newObjectId user query_plan_id bulk db)
      as [[H _]|[-> _]]; [auto|].
    destruct (TasksRoute.post_bulk newObjectId user bulk db)
      as [r db'] eqn:E.
    apply post_bulk_inv in E.
    destruct E as [[-> _]|[(docs & k & _ & _ & _ & _ & H)|[Hs _]]];
      simpl; auto; [|lia].
    destruct H as [[Hs _]|((msg & ->) & _)]; simpl; lia.
  - destruct (post_reorder_guarded user query_plan_id reorder db)
      as [[H _]|[-> [Hv _]]]; [auto|].
    unfold TasksRoute.post_reorder, validateRequest. rewrite Hv.
    unfold TasksRoute.post_reorder_handler.
    destruct (Collection.bulkWrite _ _). simpl. lia.
  - unfold TasksRouter.get_tasks.
    destruct (guard_cases viewer user (ListQuery.plan_id rq) body_plan_id
                (TasksRoute.get_tasks textSearch rq) db)
      as [(resp & -> & _)|[-> _]]; [reflexivity|].
    unfold TasksRoute.get_tasks.
    destruct (negb _); [reflexivity|].
    destruct (_ <? _)%Z; reflexivity.
Qed.

(** ** Writes stay in the plan of the request *)

Lemma reorder_one_fields (user : ObjectId) (plan : option string)
    (ids : list string) : forall k d,
  Task.plan_id (reorder_one user plan k ids d) = Task.plan_id d
  /\ Task.parent_id (reorder_one user plan k ids d) = Task.parent_id d
  /\ Task.status (reorder_one user plan k ids d) = Task.status d.
Proof.
  induction ids as [|id ids IH]; simpl; intros k d; [auto|].
  destruct (IH (S k)
              (if TasksRoute.in_plan id plan d then reorder_update user k d
               else d)) as (H1 & H2 & H3).
  rewrite H1, H2, H3.
  now destruct (TasksRoute.in_plan id plan d).
Qed.


Lemma post_reorder_map (user : ObjectId) (body : Schema.ReorderTasksInput)
    (db : Db) :
  Schema.reorderTasksSchema body = Schema.Valid body ->
  NoDup (map Task._id (Tasks db)) ->
  snd (TasksRoute.post_reorder user body db)
  = with_Tasks
      (map
         (reorder_one user (Schema.reorder_plan_id body) 0
            (Schema.task_ids body)) (Tasks db)) db.
Proof.
  intros Hv Hnd. unfold TasksRoute.post_reorder, validateRequest.
  rewrite Hv.
  unfold TasksRoute.post_reorder_handler, TasksRoute.updates, Js.mapi.
  pose proof (bulkWrite_updates user (Schema.reorder_plan_id body)
                (Schema.task_ids body) 0 (Tasks db) Hnd) as Hm.
  unfold reorder_update in Hm.
  destruct (Collection.bulkWrite _ (Tasks db)) as [c n]. simpl in *.
  now subst c.
Qed.







(** ** The parent references of a collection *)

Lemma same_id_same_task (c : list Task.ITask) (a b : Task.ITask) :
  NoDup (map Task._id c) -> In a c -> In b c -> Task._id a = Task._id b ->
  a = b.
Proof.
  induction c as [|x c IH]; intros Hnd Ha Hb E; [contradiction|].
  inversion Hnd as [|? ? Hx Hc]; subst.
  destruct Ha as [->|Ha], Hb as [->|Hb]; auto.
  - elim Hx. rewrite E. now apply in_map.
  - elim Hx. rewrite <- E. now apply in_map.
Qed.

Lemma parents_resolve_map (g : Task.ITask -> Task.ITask) (db db' : Db) :
  Tasks db' = map g (Tasks db) ->
  (forall d, In d (Tasks db) ->
             Task._id (g d) = Task._id d
             /\ Task.plan_id (g d) = Task.plan_id d
             /\ parent_in_plan (Task.plan_id d) db (g d)) ->
  parents_resolve db'.
Proof.
  intros Ht Hg t Hin pid Hpid Hne. rewrite Ht in Hin.
  apply in_map_iff in Hin as (d & <- & Hd).
  destruct (Hg d Hd) as (_ & Hplan & Hpar).
  destruct (Hpar pid Hpid Hne) as (p & Hp & Hi & Hq).
  exists (g p). destruct (Hg p Hp) as (Hi' & Hq' & _).
  rewrite Ht. split; [now apply in_map|]. split; congruence.
Qed.

Lemma parents_resolve_app (db db' : Db) (l : list Task.ITask) :
  Tasks db' = Tasks db ++ l ->
  parents_resolve db ->
  (forall t, In t l -> parent_in_plan (Task.plan_id t) db' t) ->
  parents_resolve db'.
Proof.
  intros Ht Hinv Hl t Hin. rewrite Ht in Hin.
  apply in_app_or in Hin as [Hin|Hin]; [|now apply Hl].
  intros pid Hpid Hne.
  destruct (Hinv t Hin pid Hpid Hne) as (p & Hp & H).
  exists p. rewrite Ht. split; [apply in_or_app; now left|exact H].
Qed.

Lemma client_id_payload (tasks : list TaskData.t) (pid : ObjectId) :
  In pid (client_ids tasks) ->
  exists t, In t tasks /\ TaskData._id t = Some pid.
Proof.
  unfold client_ids. intros H. apply in_flat_map in H as (t & Ht & H).
  exists t. split; [assumption|].
  destruct (TaskData._id t) as [i|]; [|contradiction].
  destruct H as [->|[]]. reflexivity.
Qed.

Lemma Forall2_In_l {A B : Type} (R : A -> B -> Prop) (l : list A)
    (l' : list B) (a : A) :
  Forall2 R l l' -> In a l -> exists b, In b l' /\ R a b.
Proof.
  induction 1 as [|x y l l' Hxy _ IH]; [contradiction|].
  intros [->|Ha].
  - exists y. split; [now left|assumption].
  - destruct (IH Ha) as (b & Hb & Hr). exists b. split; [now right|assumption].
Qed.

Lemma Forall2_In_r {A B : Type} (R : A -> B -> Prop) (l : list A)
    (l' : list B) (b : B) :
  Forall2 R l l' -> In b l' -> exists a, In a l /\ R a b.
Proof.
  induction 1 as [|x y l l' Hxy _ IH]; [contradiction|].
  intros [->|Hb].
  - exists x. split; [now left|assumption].
  - destruct (IH Hb) as (a & Ha & Hr). exists a. split; [now right|assumption].
Qed.

Lemma validate_loop_None (tasks : list TaskData.t) (plan : option string)
    (db : Db) (rest : list TaskData.t) (p : TaskData.t) :
  TasksRoute.validate_loop tasks plan db rest = None -> In p rest ->
  TasksRoute.validate_one tasks plan db p = None.
Proof.
  intros Hl Hin.
  destruct (TasksRoute.validate_one tasks plan db p) as [r|] eqn:E;
    [|reflexivity].
  destruct (validate_loop_rejects tasks plan db rest p Hin) as (r' & Hr & _);
    congruence.
Qed.

(** X10.  "Every non-empty parent reference names a task of the same plan"
    is an invariant of the task routes: when ids are unique in the
    collection, create, update, delete and reorder preserve it whatever
    they answer, and so does a bulk create that is answered with 201. *)
Theorem parent_references_invariant (Date : string -> option Z)
    (newObjectId : nat -> ObjectId) (user id : ObjectId)
    (query_plan_id body_plan_id : option string) (body : TaskData.t)
    (bulk : Schema.BulkTaskInput) (reorder : Schema.ReorderTasksInput)
    (db : Db) :
  NoDup (map Task._id (Tasks db)) ->
  parents_resolve db ->
  parents_resolve
    (snd (TasksRouter.post_task Date newObjectId user query_plan_id body db))
  /\ parents_resolve
       (snd (TasksRouter.patch_task user id query_plan_id body db))
  /\ parents_resolve
       (snd (TasksRouter.delete_task user id query_plan_id body_plan_id db))
  /\ parents_resolve
       (snd (TasksRouter.post_reorder user query_plan_id reorder db))
  /\ (status
        (fst (TasksRouter.post_bulk newObjectId user query_plan_id bulk db))
      = 201 ->
      parents_resolve
        (snd (TasksRouter.post_bulk newObjectId user query_plan_id bulk db))).
Proof.
  intros Hnd Hinv. repeat split.
  - destruct (post_task_guarded Date newObjectId user query_plan_id body db)
      as [[-> _]|[-> _]]; [assumption|].
    destruct (TasksRoute.post_task Date newObjectId user body db)
      as [r db'] eqn:E.
    apply post_task_inv in E. simpl.
    destruct E as [[_ ->]|[(_ & Ht & _)|(t & _ & Ht & H)]].
    + assumption.
    + intros x Hx. rewrite Ht in Hx. intros pid Hpid Hn.
      destruct (Hinv x Hx pid Hpid Hn) as (p & Hp & H).
      exists p. now rewrite Ht.
    + apply (parents_resolve_app db db' [t] Ht Hinv).
      intros x [<-|[]] pid Hpid Hn.
      destruct H as (_ & _ & _ & _ & _ & _ & _ & _ & _ & _ & _ & Hpar & _).
      destruct (Hpar pid Hpid Hn) as (p & Hp & H).
      exists p. rewrite Ht. split; [apply in_or_app; now left|exact H].
  - destruct (patch_task_guarded user id query_plan_id body db)
      as [[-> _]|[-> _]]; [assumption|].
    destruct (TasksRoute.patch_task user id query_plan_id body db)
      as [r db'] eqn:E.
    apply patch_task_inv in E. simpl.
    destruct E as [[-> _]|(t & t' & Hf & _ & -> & Hid & Hplan & _ & _ & _ & _
                           & _ & Hpar & Hchk)]; [assumption|].
    apply find_in_plan_some in Hf as (Hin & Hi & _).
    apply (parents_resolve_map
             (fun x => if Task._id x =? Task._id t' then t' else x) db).
    { simpl. now apply replaceOne_map. }
    intros d Hd. destruct (Task._id d =? Task._id t') eqn:Ei.
    + apply String.eqb_eq in Ei.
      assert (d = t) as -> by (apply (same_id_same_task (Tasks db)); congruence).
      repeat split; auto.
      intros pid Hpid Hn. rewrite Hpar in Hpid.
      destruct (TaskData.parent_id body) as [bp|] eqn:Eb; simpl in Hpid.
      * injection Hpid as ->.
        destruct (Hchk pid eq_refl Hn) as [Hold|H]; [|exact H].
        exact (Hinv t Hin pid Hold Hn).
      * exact (Hinv t Hin pid Hpid Hn).
    + repeat split; auto.
  - destruct (delete_task_guarded user id query_plan_id body_plan_id db)
      as [[-> _]|[-> _]]; [assumption|].
    destruct (TasksRoute.delete_task id query_plan_id db) as [r db'] eqn:E.
    apply delete_task_inv in E. simpl.
    destruct E as [[-> _]|(t & _ & _ & Hch & ->)]; [assumption|].
    intros x Hx pid Hpid Hn. simpl in *.
    rewrite deleteOne_by_id in * by assumption.
    apply filter_In in Hx as [Hx _].
    destruct (Hinv x Hx pid Hpid Hn) as (p & Hp & Hi & Hq).
    exists p. repeat split; auto.
    apply filter_In. split; [assumption|].
    apply negb_true_iff, String.eqb_neq. intros Heq.
    apply (Hch x Hx). congruence.
  - destruct (post_reorder_guarded user query_plan_id reorder db)
      as [[-> _]|[-> (Hv & _)]]; [assumption|].
    rewrite post_reorder_map by assumption.
    apply (parents_resolve_map
             (reorder_one user (Schema.reorder_plan_id reorder) 0
                (Schema.task_ids reorder)) db); [reflexivity|].
    intros d Hd.
    destruct (reorder_one_fields user (Schema.reorder_plan_id reorder)
                (Schema.task_ids reorder) 0 d) as (Hp & Hpar & _).
    rewrite reorder_one_id. repeat split; auto.
    intros pid Hpid Hn. rewrite Hpar in Hpid.
    exact (Hinv d Hd pid Hpid Hn).
  - destruct (post_bulk_guarded newObjectId user query_plan_id bulk db)
      as [[_ Hs]|[-> _]]; [intros E; rewrite E in Hs; lia|].
    destruct (TasksRoute.post_bulk newObjectId user bulk db)
      as [r db'] eqn:E.
    apply post_bulk_inv in E. simpl.
    destruct E as [[_ ->]|[(docs & k & Hall & Ht & _ & _ & H)|(-> & _)]];
      try discriminate.
    destruct H as [[-> _]|((msg & ->) & -> & Hloop)]; [discriminate|].
    intros _. rewrite firstn_all in Ht.
    apply (parents_resolve_app db db' docs Ht Hinv).
    intros doc Hdoc pid Hpid Hn.
    destruct (Forall2_In_r _ _ _ doc Hall Hdoc) as (t & Hin & oid & Hc).
    apply construct_fields in Hc
      as (Hplan & _ & _ & _ & _ & _ & Hpar & _).
    simpl in Hplan, Hpar. rewrite Hpar in Hpid.
    pose proof (validate_loop_None _ _ _ _ (Schema.strip true true t) Hloop
                  (in_map _ _ _ Hin)) as Hone.
    rewrite Hplan in Hone. apply validate_one_None in Hone as [Hfound _].
    destruct (Hfound pid Hpid Hn) as [Hc|Hp].
    + rewrite client_ids_strip in Hc.
      apply client_id_payload in Hc as (t2 & Hin2 & Hid2).
      destruct (Forall2_In_l _ _ _ t2 Hall Hin2) as (doc2 & Hdoc2 & oid2 & Hc2).
      apply construct_fields in Hc2 as (Hplan2 & _ & _ & _ & Hi2 & _).
      simpl in Hplan2, Hi2. rewrite Hid2 in Hi2. simpl in Hi2.
      exists doc2. rewrite Ht. split; [apply in_or_app; now right|].
      split; [assumption|]. congruence.
    + unfold plan_ids in Hp. apply in_map_iff in Hp as (p & Hi & Hp).
      apply filter_In in Hp as [Hp Hq]. apply String.eqb_eq in Hq.
      exists p. rewrite Ht. split; [apply in_or_app; now left|]. auto.
Qed.

Lemma parent_references_invariant_witness :
  parents_resolve
    (snd
       (TasksRouter.post_task Sample.isoDate Sample.oid "bob" None
          (Sample.body None (Some "P") (Some "Sub") (Some todo) None None
             (Some "A") None)
          Team.db)).
Proof.
  assert (Hnd : NoDup (map Task._id (Tasks Team.db))).
  { repeat constructor; simpl; intuition discriminate. }
  assert (Hinv : parents_resolve Team.db).
  { intros t Ht pid Hp. simpl in Ht.
    destruct Ht as [<-|[<-|[<-|[]]]]; discriminate. }
  exact (proj1
           (parent_references_invariant Sample.isoDate Sample.oid "bob" "A"
              None None
              (Sample.body None (Some "P") (Some "Sub") (Some todo) None None
                 (Some "A") None)
              {| Schema.tasks := []; Schema.plan_id := Some "P" |}
              {| Schema.task_ids := []; Schema.reorder_plan_id := Some "P" |}
              Team.db Hnd Hinv)).
Defined.

(** ** Bulk create *)

(** X11.  Whatever a bulk create answers, the documents it has written are
    appended to the collection, belong to the plan named by the batch, not
    by the payloads, and carry the acting user as creator and updater; the
    users and the plans are not touched. *)
Theorem bulk_writes_into_batch_plan (newObjectId : nat -> ObjectId)
    (user : ObjectId) (query_plan_id : option string)
    (bulk : Schema.BulkTaskInput) (db : Db) :
  exists written,
    Tasks (snd (TasksRouter.post_bulk newObjectId user query_plan_id bulk db))
    = Tasks db ++ written
    /\ Users
         (snd (TasksRouter.post_bulk newObjectId user query_plan_id bulk db))
       = Users db
    /\ Plans
         (snd (TasksRouter.post_bulk newObjectId user query_plan_id bulk db))
       = Plans db
    /\ (forall d,
           In d written ->
           Schema.plan_id bulk = Some (Task.plan_id d)
           /\ Task.created_by d = user /\ Task.updated_by d = user)
    /\ (forall msg docs,
           fst (TasksRouter.post_bulk newObjectId user query_plan_id bulk db)
           = res 201 (JBulk msg docs) ->
           written = docs
           /\ List.length docs = List.length (Schema.tasks bulk)).
Proof.
  destruct (post_bulk_guarded newObjectId user query_plan_id bulk db)
    as [[E Hs]|[-> _]].
  - exists []. rewrite E, app_nil_r. repeat split; try contradiction.
    + rewrite H in Hs. simpl in Hs. lia.
    + rewrite H in Hs. simpl in Hs. lia.
  - destruct (TasksRoute.post_bulk newObjectId user bulk db)
      as [r db'] eqn:E.
    apply post_bulk_inv in E. simpl.
    destruct E as [[-> Hs]|[(docs & k & Hall & Ht & Hu & Hp & H)|
                            (Hs & Ht & Hu & Hp)]].
    + exists []. rewrite app_nil_r. repeat split; try contradiction.
      * rewrite H in Hs. discriminate.
      * rewrite H in Hs. discriminate.
    + exists (firstn k docs). repeat split; auto.
      * apply firstn_In in H0.
        destruct (Forall2_In_r _ _ _ d Hall H0) as (t & _ & oid & Hc).
        now apply construct_fields in Hc as (Hc & _).
      * apply firstn_In in H0.
        destruct (Forall2_In_r _ _ _ d Hall H0) as (t & _ & oid & Hc).
        apply construct_fields in Hc as (_ & Hc & _). now injection Hc.
      * apply firstn_In in H0.
        destruct (Forall2_In_r _ _ _ d Hall H0) as (t & _ & oid & Hc).
        apply construct_fields in Hc as (_ & _ & Hc & _). now injection Hc.
      * destruct H as [[Hs _]|((m & ->) & -> & _)].
        -- rewrite H0 in Hs. discriminate.
        -- injection H0 as _ <-. apply firstn_all.
      * destruct H as [[Hs _]|((m & ->) & -> & _)].
        -- rewrite H0 in Hs. discriminate.
        -- injection H0 as _ <-. symmetry.
           now apply Forall2_length in Hall.
    + exists []. rewrite app_nil_r. repeat split; auto; try contradiction.
      * rewrite H in Hs. discriminate.
      * rewrite H in Hs. discriminate.
Qed.

(** ** Listing *)






(** The reply of the listing handler, when it is a page. *)
Lemma get_tasks_inv (textSearch : string -> Task.ITask -> bool)
    (rq : ListQuery.t) (db : Db) (tasks : list Task.ITask) (page limit : Z)
    (total : nat) (pages : option Z) :
  fst (TasksRoute.get_tasks textSearch rq db)
  = res 200 (JTasks tasks page limit total pages) ->
  page = ListQuery.page rq /\ limit = ListQuery.limit rq
  /\ (0 <= (page - 1) * limit)%Z
  /\ total = List.length (filter (TasksRoute.query textSearch rq) (Tasks db))
  /\ pages = TasksRoute.pages total limit
  /\ tasks
     = paginate ((page - 1) * limit) limit
         (sort
            (sort_leb
               (TasksRoute.sortObj (ListQuery.sort rq) (ListQuery.order rq)))
            (filter (TasksRoute.query textSearch rq) (Tasks db))).
Proof.
  unfold TasksRoute.get_tasks.
  destruct (negb _); [discriminate|].
  destruct (_ <? 0)%Z eqn:E; [discriminate|].
  intros [= <- <- <- <- <-]. apply Z.ltb_ge in E. repeat split; auto.
Qed.



Lemma pages_ceil (total : nat) (limit : Z) :
  (0 < limit)%Z ->
  exists n,
    TasksRoute.pages total limit = Some n
    /\ (Z.of_nat total <= n * limit < Z.of_nat total + limit)%Z.
Proof.
  intros Hl. unfold TasksRoute.pages.
  replace (limit =? 0)%Z with false by (symmetry; apply Z.eqb_neq; lia).
  eexists. split; [reflexivity|].
  pose proof (Z.div_mod (- Z.of_nat total) limit ltac:(lia)) as Hd.
  pose proof (Z.mod_pos_bound (- Z.of_nat total) limit Hl) as Hm.
  nia.
Qed.

Lemma paginate_length {A : Type} (page limit : Z) (l : list A) :
  (0 < limit)%Z -> (1 <= page)%Z ->
  Z.of_nat (List.length (paginate ((page - 1) * limit) limit l))
  = Z.max 0
      (Z.min limit (Z.of_nat (List.length l) - (page - 1) * limit)).
Proof.
  intros Hl Hp. unfold paginate.
  replace (limit =? 0)%Z with false by (symmetry; apply Z.eqb_neq; lia).
  rewrite length_firstn, length_skipn. nia.
Qed.

(** X13.  With a positive limit and a page number from 1 on, [pages] is the
    number of pages that hold a task: it is the least [n] with
    [total <= n * limit]; a page up to [pages] is not empty, a page before
    the last is full, and a page after the last is empty. *)
Theorem listing_pages (textSearch : string -> Task.ITask -> bool)
    (user : ObjectId) (rq : ListQuery.t) (body_plan_id : option string)
    (db : Db) (tasks : list Task.ITask) (page limit : Z) (total : nat)
    (pages : option Z) :
  (0 < limit)%Z -> (1 <= page)%Z ->
  fst (TasksRouter.get_tasks textSearch user rq body_plan_id db)
  = res 200 (JTasks tasks page limit total pages) ->
  exists n,
    pages = Some n
    /\ (Z.of_nat total <= n * limit < Z.of_nat total + limit)%Z
    /\ (tasks <> [] <-> (page <= n)%Z)
    /\ ((page < n)%Z -> Z.of_nat (List.length tasks) = limit)
    /\ (page = n ->
        Z.of_nat (List.length tasks)
        = (Z.of_nat total - (n - 1) * limit)%Z).
Proof.
  intros Hl Hp H. unfold TasksRouter.get_tasks in H.
  destruct (guard_cases viewer user (ListQuery.plan_id rq) body_plan_id
              (TasksRoute.get_tasks textSearch rq) db)
    as [(resp & E & Hs)|(E & _)]; rewrite E in H.
  - simpl in H. subst resp. simpl in Hs. lia.
  - apply get_tasks_inv in H as (_ & _ & _ & Ht & Hpg & Htasks).
    destruct (pages_ceil total limit Hl) as (n & Hn & Hb).
    exists n. split; [congruence|]. split; [exact Hb|].
    pose proof (paginate_length page limit
                  (sort
                     (sort_leb
                        (TasksRoute.sortObj (ListQuery.sort rq)
                           (ListQuery.order rq)))
                     (filter (TasksRoute.query textSearch rq) (Tasks db)))
                  Hl Hp) as Hlen.
    rewrite <- Htasks in Hlen.
    rewrite (Permutation_length (sort_perm _ _)), <- Ht in Hlen.
    repeat split.
    + intros Hne. destruct tasks as [|t ts]; [congruence|].
      simpl in Hlen. nia.
    + intros Hle ->. simpl in Hlen. nia.
    + intros Hlt. nia.
    + intros ->. nia.
Qed.

Lemma listing_pages_witness :
  exists tasks,
    fst (TasksRouter.get_tasks Sample.noSearch "cy"
           {| ListQuery.plan_id := Some "P"; ListQuery.q := None;
              ListQuery.status := None; ListQuery.assignee := None;
              ListQuery.tag := None; ListQuery.priority := None;
              ListQuery.parent_id := None; ListQuery.page := 2%Z;
              ListQuery.limit := 1%Z; ListQuery.sort := "order_index";
              ListQuery.order := "asc" |} None Team.db)
    = res 200 (JTasks tasks 2 1 2 (Some 2%Z))
    /\ (tasks <> [] <-> (2 <= 2)%Z).
Proof.
  eexists. split; [reflexivity|].
  destruct (listing_pages Sample.noSearch "cy"
              {| ListQuery.plan_id := Some "P"; ListQuery.q := None;
                 ListQuery.status := None; ListQuery.assignee := None;
                 ListQuery.tag := None; ListQuery.priority := None;
                 ListQuery.parent_id := None; ListQuery.page := 2%Z;
                 ListQuery.limit := 1%Z; ListQuery.sort := "order_index";
                 ListQuery.order := "asc" |} None Team.db _ 2%Z 1%Z 2
              (Some 2%Z) ltac:(lia) ltac:(lia) eq_refl)
    as (n & [= <-] & _ & H & _).
  exact H.
Defined.

(** ** Reorder, replayed *)








(** The reply and the store after a reorder, on a collection with unique
    ids. *)
Lemma post_reorder_eq (user : ObjectId) (body : Schema.ReorderTasksInput)
    (db : Db) :
  Schema.reorderTasksSchema body = Schema.Valid body ->
  NoDup (map Task._id (Tasks db)) ->
  TasksRoute.post_reorder user body db
  = (res 200
       (JReorder "Tasks reordered successfully"
          (matched_entries (Schema.task_ids body)
             (Schema.reorder_plan_id body) (Tasks db))),
     with_Tasks
       (map
          (reorder_one user (Schema.reorder_plan_id body) 0
             (Schema.task_ids body)) (Tasks db)) db).
Proof.
  intros Hv Hnd. unfold TasksRoute.post_reorder, validateRequest.
  rewrite Hv.
  unfold TasksRoute.post_reorder_handler, TasksRoute.updates, Js.mapi.
  pose proof (bulkWrite_updates user (Schema.reorder_plan_id body)
                (Schema.task_ids body) 0 (Tasks db) Hnd) as Hm.
  pose proof (bulkWrite_count user (Schema.reorder_plan_id body)
                (Schema.task_ids body) 0 (Tasks db)) as Hn.
  unfold reorder_update in Hm, Hn.
  destruct (Collection.bulkWrite _ (Tasks db)) as [c n]. simpl in *.
  now subst c n.
Qed.




(** ** Reorder, then list *)

Lemma StronglySorted_by_index {A : Type} (R : A -> A -> Prop) (l : list A) :
  (forall i j a b,
      i < j -> nth_error l i = Some a -> nth_error l j = Some b -> R a b) ->
  StronglySorted R l.
Proof.
  induction l as [|x l IH]; intros H; constructor.
  - apply IH. intros i j a b Hij Ha Hb. now apply (H (S i) (S j)); [lia| |].
  - apply Forall_forall. intros b Hb.
    apply In_nth_error in Hb as [j Hj].
    now apply (H 0 (S j)); [lia| |].
Qed.

Lemma sorted_permutation_unique {A : Type} (R : A -> A -> Prop)
    (l1 : list A) : forall l2,
  StronglySorted R l1 -> StronglySorted R l2 -> Permutation l1 l2 ->
  (forall a b, In a l1 -> In b l1 -> R a b -> R b a -> a = b) ->
  l1 = l2.
Proof.
  induction l1 as [|a l1 IH]; intros l2 H1 H2 Hp Hanti.
  - apply Permutation_nil in Hp. now subst.
  - destruct l2 as [|b l2].
    { apply Permutation_sym, Permutation_nil in Hp. discriminate. }
    inversion H1 as [|? ? H1' Ha]; subst.
    inversion H2 as [|? ? H2' Hb]; subst.
    rewrite Forall_forall in Ha, Hb.
    assert (a = b) as <-.
    { assert (Hain : In a (b :: l2))
        by (apply (Permutation_in _ Hp); now left).
      assert (Hbin : In b (a :: l1))
        by (apply (Permutation_in _ (Permutation_sym Hp)); now left).
      destruct Hain as [->|Hain]; [reflexivity|].
      destruct Hbin as [<-|Hbin]; [reflexivity|].
      apply Hanti; [now left|now right|now apply Ha|now apply Hb]. }
    f_equal. apply IH; auto.
    + now apply Permutation_cons_inv in Hp.
    + intros x y Hx Hy. apply Hanti; now right.
Qed.

Lemma NoDup_nth_unique {A : Type} (l : list A) (i j : nat) (a : A) :
  NoDup l -> nth_error l i = Some a -> nth_error l j = Some a -> i = j.
Proof.
  intros Hnd Hi Hj. apply (proj1 (NoDup_nth_error l) Hnd).
  - apply nth_error_Some. congruence.
  - congruence.
Qed.

Lemma filter_map_commute {A : Type} (p : A -> bool) (g : A -> A)
    (l : list A) :
  (forall x, p (g x) = p x) -> filter p (map g l) = map g (filter p l).
Proof.
  intros H. induction l as [|x l IH]; simpl; [reflexivity|].
  rewrite H. destruct (p x); simpl; now rewrite IH.
Qed.

Lemma query_column (textSearch : string -> Task.ITask -> bool)
    (plan : ObjectId) (st : Status) (limit : Z) (d : Task.ITask) :
  TasksRoute.query textSearch (column_query plan st limit) d
  = (Task.plan_id d =? plan) && Status_eqb (Task.status d) st.
Proof.
  unfold TasksRoute.query, column_query, eq_opt, ListQuery.truthy,
    ListQuery.values, Js.includes, Js.truthy.
  cbn [ListQuery.plan_id ListQuery.status ListQuery.assignee ListQuery.tag
       ListQuery.priority ListQuery.parent_id ListQuery.q existsb].
  rewrite (String.eqb_sym plan).
  destruct (Task.plan_id d =? plan); [|reflexivity].
  now destruct st, (Task.status d).
Qed.

Lemma board_le_same_status (a b : Task.ITask) :
  Task.status a = Task.status b -> board_le false a b ->
  (Task.order_index a <= Task.order_index b)%Z.
Proof.
  intros Hs [H|[_ H]]; [|exact H].
  unfold Status_lt in H. rewrite Hs in H.
  destruct (Task.status b); vm_compute in H; discriminate.
Qed.

(** The sorted column after a reorder lists the tasks as the request
    did. *)
Lemma sorted_as_listed (ids : list string) (l : list Task.ITask) :
  NoDup ids ->
  Permutation (map Task._id l) ids ->
  StronglySorted (board_le false) l ->
  (forall x y, In x l -> In y l -> Task.status x = Task.status y) ->
  (forall x, In x l ->
             exists i, nth_error ids i = Some (Task._id x)
                       /\ Task.order_index x = (Z.of_nat i + 1)%Z) ->
  map Task._id l = ids.
Proof.
  intros Hnd Hperm Hsorted Hst Hkey.
  apply (sorted_permutation_unique (listed_before ids)); auto.
  - clear Hperm. induction Hsorted as [|x l Hl IH Hx]; simpl; constructor.
    + apply IH.
      * intros a b Ha Hb. apply Hst; now right.
      * intros a Ha. apply Hkey. now right.
    + rewrite Forall_forall in Hx. apply Forall_forall.
      intros b Hb. apply in_map_iff in Hb as (y & <- & Hy).
      destruct (Hkey x (or_introl eq_refl)) as (i & Hi & Hoi).
      destruct (Hkey y (or_intror Hy)) as (j & Hj & Hoj).
      exists i, j. repeat split; auto.
      pose proof (board_le_same_status x y
                    (Hst x y (or_introl eq_refl) (or_intror Hy))
                    (Hx y Hy)).
      lia.
  - apply StronglySorted_by_index. intros i j a b Hij Ha Hb.
    exists i, j. repeat split; auto. lia.
  - intros a b _ _ (i & j & Hi & Hj & Hij) (j' & i' & Hj' & Hi' & Hji).
    pose proof (NoDup_nth_unique ids i i' a Hnd Hi Hi').
    pose proof (NoDup_nth_unique ids j j' b Hnd Hj Hj').
    assert (i = j) by lia. congruence.
Qed.

(** X15.  Reorder, then list: after a reorder that lists the ids of one
    column of a plan, each once and in any order, the listing of that
    column in board order returns the tasks in the order of the request,
    the task at position [i] with [order_index = i + 1]. *)
Theorem reorder_then_list (textSearch : string -> Task.ITask -> bool)
    (user reader : ObjectId) (query_plan_id body_plan_id : option string)
    (ids : list string) (plan : ObjectId) (st : Status) (limit : Z) (db : Db)
    (tasks : list Task.ITask) (page lim : Z) (total : nat)
    (pages : option Z) :
  NoDup (map Task._id (Tasks db)) ->
  Permutation ids (map Task._id (partition_of plan st db)) ->
  (0 < limit)%Z ->
  status
    (fst
       (TasksRouter.post_reorder user query_plan_id
          {| Schema.task_ids := ids; Schema.reorder_plan_id := Some plan |}
          db))
  = 200 ->
  fst
    (TasksRouter.get_tasks textSearch reader (column_query plan st limit)
       body_plan_id
       (snd
          (TasksRouter.post_reorder user query_plan_id
             {| Schema.task_ids := ids; Schema.reorder_plan_id := Some plan |}
             db)))
  = res 200 (JTasks tasks page lim total pages) ->
  map Task._id tasks = firstn (Z.to_nat limit) ids
  /\ total = List.length ids
  /\ forall i t,
       nth_error tasks i = Some t ->
       Task.order_index t = (Z.of_nat i + 1)%Z.
Proof.
  intros Hnd Hperm Hl Hr Hg.
  set (body := {| Schema.task_ids := ids;
                  Schema.reorder_plan_id := Some plan |}) in *.
  destruct (post_reorder_guarded user query_plan_id body db)
    as [[_ Hs]|[E (Hv & _)]]; [lia|].
  rewrite E, (post_reorder_eq user body db Hv Hnd) in Hg. cbn [snd] in Hg.
  subst body. cbn [Schema.task_ids Schema.reorder_plan_id] in Hg.
  set (f := reorder_one user (Some plan) 0 ids) in *.
  unfold TasksRouter.get_tasks in Hg.
  match type of Hg with
  | fst (TasksRouter.guard ?r ?u ?q ?b ?h ?d) = _ =>
      destruct (guard_cases r u q b h d) as [(resp & Eg & Hs)|(Eg & _)];
        rewrite Eg in Hg
  end.
  { simpl in Hg. subst resp. simpl in Hs. lia. }
  apply get_tasks_inv in Hg as (Hpg & Hlim & _ & Ht & _ & Htasks).
  cbn [ListQuery.sort ListQuery.order column_query] in Htasks.
  cbn [Tasks with_Tasks] in Ht, Htasks.
  assert (Hfound : filter (TasksRoute.query textSearch
                             (column_query plan st limit))
                     (map f (Tasks db))
                   = map f (partition_of plan st db)).
  { rewrite filter_map_commute.
    - f_equal. apply filter_ext. intros d. apply query_column.
    - intros d. rewrite !query_column. unfold f.
      destruct (reorder_one_fields user (Some plan) ids 0 d)
        as (-> & _ & ->).
      reflexivity. }
  rewrite Hfound in Ht, Htasks.
  assert (Hids : NoDup ids).
  { apply (Permutation_NoDup (Permutation_sym Hperm)).
    now apply filter_ids_NoDup. }
  set (sorted := sort (sort_leb (TasksRoute.sortObj "order_index" "asc"))
                   (map f (partition_of plan st db))) in *.
  assert (Hsp : Permutation sorted (map f (partition_of plan st db)))
    by apply sort_perm.
  assert (Hin : forall x, In x sorted ->
                  exists d, In d (partition_of plan st db) /\ x = f d).
  { intros x Hx. apply (Permutation_in _ Hsp) in Hx.
    apply in_map_iff in Hx as (d & <- & Hd). now exists d. }
  assert (Hcol : forall d, In d (partition_of plan st db) ->
                   Task.plan_id d = plan /\ Task.status d = st).
  { intros d Hd. apply filter_In in Hd as [_ Hd].
    apply andb_true_iff in Hd as [H1 H2]. apply String.eqb_eq in H1.
    split; [assumption|]. now destruct (Task.status d), st. }
  assert (Hkey : forall x, In x sorted ->
                   exists i, nth_error ids i = Some (Task._id x)
                             /\ Task.order_index x = (Z.of_nat i + 1)%Z).
  { intros x Hx. destruct (Hin x Hx) as (d & Hd & ->).
    assert (Hd' : In (Task._id d) ids).
    { apply (Permutation_in _ (Permutation_sym Hperm)). now apply in_map. }
    apply In_nth_error in Hd' as [i Hi]. exists i.
    unfold f. rewrite reorder_one_id. split; [assumption|].
    rewrite (reorder_one_last user (Some plan) ids 0 i d Hi).
    - reflexivity.
    - now rewrite (proj1 (Hcol d Hd)).
    - intros Hs. apply In_nth_error in Hs as [j Hj].
      rewrite nth_error_skipn in Hj.
      pose proof (NoDup_nth_unique ids i (S i + j) _ Hids Hi Hj). lia. }
  assert (Hmap : map Task._id sorted = ids).
  { apply sorted_as_listed; auto.
    - apply (Permutation_trans (Permutation_map Task._id Hsp)).
      rewrite map_map. apply Permutation_sym.
      erewrite map_ext; [exact Hperm|].
      intros d. unfold f. apply reorder_one_id.
    - apply (board_sorted "asc").
    - intros x y Hx Hy.
      destruct (Hin x Hx) as (d & Hd & ->), (Hin y Hy) as (e & He & ->).
      unfold f.
      rewrite (proj2 (proj2 (reorder_one_fields user (Some plan) ids 0 d))).
      rewrite (proj2 (proj2 (reorder_one_fields user (Some plan) ids 0 e))).
      rewrite (proj2 (Hcol d Hd)), (proj2 (Hcol e He)). reflexivity. }
  assert (Hpage : tasks = firstn (Z.to_nat limit) sorted).
  { rewrite Htasks. unfold paginate.
    replace (lim =? 0)%Z with false
      by (symmetry; apply Z.eqb_neq; cbn in Hlim; lia).
    cbn in Hlim, Hpg. subst lim page. simpl.
    now rewrite Zabs2Nat.abs_nat_nonneg by lia. }
  split; [|split].
  - now rewrite Hpage, <- firstn_map, Hmap.
  - rewrite Ht, length_map, <- (length_map Task._id).
    unfold ObjectId in *. now rewrite <- (Permutation_length Hperm).
  - intros i t Hi. rewrite Hpage in Hi.
    assert (Hi' : nth_error sorted i = Some t).
    { rewrite <- (firstn_skipn (Z.to_nat limit) sorted).
      rewrite nth_error_app1; [assumption|].
      apply nth_error_Some. congruence. }
    destruct (Hkey t (nth_error_In _ _ Hi')) as (j & Hj & ->).
    assert (Hi2 : nth_error ids i = Some (Task._id t)).
    { rewrite <- Hmap. now rewrite nth_error_map, Hi'. }
    now rewrite (NoDup_nth_unique ids i j _ Hids Hi2 Hj).
Qed.

Lemma reorder_then_list_witness :
  exists tasks,
    fst
      (TasksRouter.get_tasks Sample.noSearch "cy"
         (column_query "P" todo 50) None
         (snd
            (TasksRouter.post_reorder "bob" None
               {| Schema.task_ids := ["B"; "A"];
                  Schema.reorder_plan_id := Some "P" |}
               Team.db)))
    = res 200 (JTasks tasks 1 50 2 (Some 1%Z))
    /\ map Task._id tasks = ["B"; "A"].
Proof.
  eexists. split; [reflexivity|].
  assert (Hnd : NoDup (map Task._id (Tasks Team.db))).
  { repeat constructor; simpl; intuition discriminate. }
  assert (Hp : Permutation ["B"; "A"]
                 (map Task._id (partition_of "P" todo Team.db))).
  { change (map Task._id (partition_of "P" todo Team.db)) with ["A"; "B"].
    apply perm_swap. }
  exact (proj1
           (reorder_then_list Sample.noSearch "bob" "cy" None None
              ["B"; "A"] "P" todo 50%Z Team.db _ 1%Z 50%Z 2 (Some 1%Z)
              Hnd Hp eq_refl eq_refl eq_refl)).
Defined.

(** ** The plan routes *)

Lemma findById_some (id : ObjectId) (db : Db) (plan : Plan.IPlan) :
  PlanAccess.findById id db = Some plan ->
  In plan (Plans db) /\ Plan._id plan = id.
Proof.
  unfold PlanAccess.findById. intros H. apply find_some in H as [Hin H].
  now apply String.eqb_eq in H.
Qed.

Lemma getUserPlanRole_role_in (userId id : ObjectId) (db : Db) :
  PlanAccess.getUserPlanRole userId id db
  = match PlanAccess.findById id db with
    | Some plan => role_in userId plan
    | None => None
    end.
Proof.
  unfold PlanAccess.getUserPlanRole, role_in.
  destruct (PlanAccess.findById id db) as [plan|]; [|reflexivity].
  destruct (Plan.owner_id plan =? userId); [reflexivity|].
  now destruct (PlanAccess.member userId plan).
Qed.

(** A plan route behind the access check either answers with the error of
    the access check, or hands the plan named in the path, found in the
    store, to its handler. *)
Lemma plan_guard_cases (r : Role) (user : ObjectId) (plan_id : string)
    (h : Plan.IPlan -> User.IUser -> Db -> PlansRouter.Reply * Db) (db : Db) :
  (exists resp,
      PlansRouter.guard r user plan_id h db = (PlansRouter.Sent resp, db)
      /\ 400 <= status resp)
  \/ (exists plan o role,
         PlansRouter.guard r user plan_id h db = h plan o db
         /\ plan_id <> ""
         /\ PlanAccess.findById plan_id db = Some plan
         /\ PlanAccess.populate_owner plan db = Some o
         /\ role_in user plan = Some role
         /\ PlanAccess.roleHierarchy r <= PlanAccess.roleHierarchy role).
Proof.
  unfold PlansRouter.guard.
  destruct (PlanAccess.requirePlanAccess r (Some user) (Some plan_id) None
              None db) as [resp|plan o role] eqn:E.
  - left. exists resp. split; [reflexivity|].
    now apply requirePlanAccess_answered in E.
  - right. exists plan, o, role. split; [reflexivity|].
    apply requirePlanAccess_inv in E
      as (uid & id & [= <-] & Hid & Hne & Hf & Ho & Hle & Hr).
    assert (id = plan_id) as ->.
    { destruct (String.eqb_spec plan_id "") as [->|Hp];
        [discriminate Hid|].
      rewrite !or_str_truthy in Hid by assumption. now injection Hid. }
    rewrite getUserPlanRole_role_in, Hf in Hr. auto.
Qed.








(** ** Members *)

Lemma member_none (uid : ObjectId) (plan : Plan.IPlan) :
  PlanAccess.member uid plan = None
  <-> ~ In uid (map Plan.user_id (Plan.members plan)).
Proof.
  unfold PlanAccess.member. split.
  - intros H Hin. apply in_map_iff in Hin as (m & Hm & Hin).
    apply (find_none _ _ H) in Hin. rewrite Hm, String.eqb_refl in Hin.
    discriminate.
  - intros H. destruct (find _ (Plan.members plan)) as [m|] eqn:E;
      [|reflexivity].
    apply find_some in E as [Hin E]. apply String.eqb_eq in E.
    elim H. rewrite <- E. now apply in_map.
Qed.













(** X19.  The owner test of the add-member route compares the rendering
    of the populated owner document with the id of the request.  Whenever
    that rendering is not the owner's id, the test lets the owner's own id
    through: the owner is appended to the members of the plan, with the
    role of the body. *)
Theorem owner_added_as_member (now : Z) (toString : User.IUser -> string)
    (plan_id : string) (plan : Plan.IPlan) (owner_doc : User.IUser)
    (role : option Role) (db : Db) :
  plan_id <> "" ->
  Plan.owner_id plan <> "" ->
  role <> Some owner ->
  PlanAccess.findById plan_id db = Some plan ->
  PlanAccess.populate_owner plan db = Some owner_doc ->
  toString owner_doc <> Plan.owner_id plan ->
  ~ In (Plan.owner_id plan) (map Plan.user_id (Plan.members plan)) ->
  exists plan',
    PlansRouter.post_member now toString (Plan.owner_id plan) plan_id
      {| MemberInput.user_id := Some (Plan.owner_id plan);
         MemberInput.role := role |} db
    = (PlansRouter.SentPlan 200 plan', PlansRouter.save plan' db)
    /\ Plan.owner_id plan' = Plan.owner_id plan
    /\ In (Plan.owner_id plan') (map Plan.user_id (Plan.members plan')).
Proof.
  intros Hne Hown Hrole Hf Ho Hts Hnm.
  assert (Hpass : PlanAccess.requirePlanAccess owner
                    (Some (Plan.owner_id plan)) (Some plan_id) None None db
                  = PlanAccess.Next plan owner_doc owner).
  { apply requirePlanAccess_intro with (id := plan_id); auto.
    - now rewrite !or_str_truthy.
    - unfold PlanAccess.getUserPlanRole.
      now rewrite Hf, String.eqb_refl. }
  set (r := match role with Some r => r | None => viewer end).
  exists (Plan.set_members
            (Plan.members plan
             ++ [{| Plan.user_id := Plan.owner_id plan; Plan.role := r;
                    Plan.joined_at := now |}]) plan).
  split; [|split].
  - apply String.eqb_neq in Hts. apply member_none in Hnm.
    unfold PlanAccess.populate_owner in Ho.
    unfold PlansRouter.post_member, PlansRouter.validated,
      PlansRouter.memberSchema, Schema.finish, Schema.string_min1.
    cbn [MemberInput.user_id MemberInput.role].
    replace (String.length (Plan.owner_id plan) <? 1)%nat with false
      by (destruct (Plan.owner_id plan); [congruence|reflexivity]).
    subst r.
    destruct role as [[| |]|]; [now elim Hrole| | |]; cbn [app];
      unfold PlansRouter.guard; rewrite Hpass;
      unfold PlansRouter.post_member_handler;
      cbn [MemberBody.user_id MemberBody.role];
      now rewrite Ho, Hts, Hnm.
  - reflexivity.
  - simpl. rewrite map_app. apply in_or_app. right. now left.
Qed.

Lemma owner_added_as_member_witness :
  exists plan',
    PlansRouter.post_member 7%Z Team.rendered "ann" "P"
      {| MemberInput.user_id := Some "ann";
         MemberInput.role := Some editor |} Team.db
    = (PlansRouter.SentPlan 200 plan', PlansRouter.save plan' Team.db)
    /\ Plan.owner_id plan' = "ann"
    /\ In "ann" (map Plan.user_id (Plan.members plan')).
Proof.
  destruct (owner_added_as_member 7%Z Team.rendered "P" Team.P
              (Team.user "ann") (Some editor) Team.db)
    as (plan' & H1 & H2 & H3);
    [discriminate|discriminate|discriminate|reflexivity|reflexivity
    |discriminate|simpl; intuition discriminate|].
  exists plan'. split; [exact H1|]. split; [exact H2|].
  rewrite H2 in H3. exact H3.
Defined.

(** ** Plans *)

Lemma createPlanSchema_valid (body parsed : PlanInput.t) :
  PlansRouter.createPlanSchema body = Schema.Valid parsed ->
  parsed = body
  /\ exists name, PlanInput.name body = Some name /\ name <> ""
                  /\ String.length name <= 100.
Proof.
  unfold PlansRouter.createPlanSchema, Schema.finish.
  destruct (PlanInput.name body) as [name|] eqn:En; [|discriminate].
  unfold Schema.required, Schema.string_min1, Schema.string_max.
  destruct (String.length name <? 1)%nat eqn:E1; [discriminate|].
  destruct (100 <? String.length name)%nat eqn:E2; [discriminate|].
  destruct (_ ++ _); [|discriminate]. intros [= <-].
  split; [reflexivity|]. exists name.
  apply Nat.ltb_ge in E1, E2. repeat split; auto.
  intros ->. simpl in E1. lia.
Qed.

Lemma plan_construct_fields (name : string) (description : option string)
    (owner' oid : ObjectId) (plan : Plan.IPlan) :
  Plan.construct name description owner' oid = Some plan ->
  Plan._id plan = oid /\ Plan.owner_id plan = owner'
  /\ Plan.members plan = [] /\ Plan.name plan = Js.trim name
  /\ Plan.name plan <> ""
  /\ Plan.description plan = option_map Js.trim description.
Proof.
  unfold Plan.construct.
  match goal with |- (if ?c then _ else _) = _ -> _ => destruct c eqn:E end;
    [discriminate|].
  intros [= <-]. apply orb_false_iff in E as [E _].
  apply orb_false_iff in E as [E _]. apply String.eqb_neq in E.
  simpl. repeat split; auto.
Qed.

Lemma find_app_fresh {A : Type} (p : A -> bool) (l : list A) (x : A) :
  (forall y, In y l -> p y = false) -> p x = true ->
  find p (l ++ [x]) = Some x.
Proof.
  intros Hl Hx. induction l as [|y l IH]; simpl.
  - now rewrite Hx.
  - rewrite (Hl y) by now left. apply IH. intros z Hz. apply Hl. now right.
Qed.

(** X20.  A plan created through [POST /] is appended to the plans with a
    generated id, the caller as owner, no member and the trimmed name;
    nothing else changes.  When the generated id is new to the store, the
    access check then lets the creator through as owner of the plan, and
    finds no role on it for anybody else. *)
Theorem creator_owns_new_plan (newObjectId : nat -> ObjectId)
    (user : ObjectId) (body : PlanInput.t) (db db' : Db) (st : nat)
    (plan : Plan.IPlan) :
  PlansRouter.post_plan newObjectId user body db
  = (PlansRouter.SentPlan st plan, db') ->
  st = 201
  /\ Plans db' = Plans db ++ [plan]
  /\ Tasks db' = Tasks db /\ Users db' = Users db
  /\ Plan._id plan = newObjectId (oids db)
  /\ Plan.owner_id plan = user /\ Plan.members plan = []
  /\ option_map Js.trim (PlanInput.name body) = Some (Plan.name plan)
  /\ (fresh_from newObjectId db ->
      (forall other,
          PlanAccess.getUserPlanRole other (Plan._id plan) db'
          = if user =? other then Some owner else None)
      /\ (Plan._id plan <> "" ->
          forall owner_doc,
            find (fun u => User._id u =? user) (Users db) = Some owner_doc ->
            PlanAccess.requirePlanAccess owner (Some user)
              (Some (Plan._id plan)) None None db'
            = PlanAccess.Next plan owner_doc owner)).
Proof.
  unfold PlansRouter.post_plan, PlansRouter.validated.
  destruct (PlansRouter.createPlanSchema body) as [parsed|issues] eqn:Es;
    [|discriminate].
  apply createPlanSchema_valid in Es as (-> & name & Hn & _).
  unfold PlansRouter.post_plan_handler. rewrite Hn.
  destruct (Plan.construct name _ user _) as [p|] eqn:Ec; [|discriminate].
  unfold Collection.insertOne.
  destruct (existsb _ _) eqn:Ex; [discriminate|].
  intros [= <- <- <-].
  apply plan_construct_fields in Ec as (Hid & Ho & Hm & Hname & _).
  simpl. repeat split; auto; try (now rewrite Hname).
  - intros other.
    assert (Hf : PlanAccess.findById (Plan._id p)
                   (with_Plans (Plans db ++ [p]) (next_oid db)) = Some p).
    { unfold PlanAccess.findById. simpl. apply find_app_fresh.
      - intros y Hy. apply String.eqb_neq. intros He.
        destruct (H (oids db) (le_n _)) as (_ & _ & Hp). apply Hp.
        rewrite <- Hid, <- He. now apply in_map.
      - apply String.eqb_refl. }
    rewrite getUserPlanRole_role_in, Hf. unfold role_in, PlanAccess.member.
    rewrite Ho, Hm. simpl. now destruct (user =? other).
  - intros Hne o Hfo.
    assert (Hf : PlanAccess.findById (Plan._id p)
                   (with_Plans (Plans db ++ [p]) (next_oid db)) = Some p).
    { unfold PlanAccess.findById. simpl. apply find_app_fresh.
      - intros y Hy. apply String.eqb_neq. intros He.
        destruct (H (oids db) (le_n _)) as (_ & _ & Hp). apply Hp.
        rewrite <- Hid, <- He. now apply in_map.
      - apply String.eqb_refl. }
    apply requirePlanAccess_intro with (id := Plan._id p); auto.
    + now rewrite !or_str_truthy.
    + unfold PlanAccess.populate_owner. simpl. now rewrite Ho.
    + rewrite getUserPlanRole_role_in, Hf. unfold role_in.
      now rewrite Ho, String.eqb_refl.
Qed.

Lemma creator_owns_new_plan_witness :
  exists plan db',
    PlansRouter.post_plan Sample.oid "dan"
      {| PlanInput.name := Some " Roadmap ";
         PlanInput.description := None |} Team.db
    = (PlansRouter.SentPlan 201 plan, db')
    /\ Plans db' = Plans Team.db ++ [plan]
    /\ Plan.owner_id plan = "dan"
    /\ Plan.name plan = "Roadmap".
Proof.
  eexists _, _. split; [reflexivity|].
  destruct (creator_owns_new_plan Sample.oid "dan"
              {| PlanInput.name := Some " Roadmap ";
                 PlanInput.description := None |} Team.db _ _ _ eq_refl)
    as (_ & H1 & _ & _ & _ & H2 & _).
  split; [exact H1|]. split; [exact H2|reflexivity].
Defined.

(** X21.  A name that is not empty but consists of white space passes the
    request validation of [POST /] and is refused by the model, after
    trimming: the route answers 500, not 400, and stores no plan.  The same
    holds for the title of a task sent to [POST /tasks] without
    references. *)
Theorem blank_names_are_server_errors (Date : string -> option Z)
    (newObjectId : nat -> ObjectId) (user : ObjectId) (name : string)
    (body : TaskData.t) (db : Db) :
  name <> "" -> String.length name <= 100 -> Js.trim name = "" ->
  PlansRouter.post_plan newObjectId user
    {| PlanInput.name := Some name; PlanInput.description := None |} db
  = (PlansRouter.Sent (res 500 (JError "Failed to create plan")),
     next_oid db)
  /\ (forall parsed,
         Schema.taskSchema Date body = Schema.Valid parsed ->
         TaskData.title body = Some name ->
         TaskData.parent_id body = None ->
         TaskData.dependency_ids body = None ->
         TasksRoute.post_task Date newObjectId user body db
         = (res 500 (JError "Failed to create task"), next_oid db)).
Proof.
  intros Hne Hlen Hblank. split.
  - unfold PlansRouter.post_plan, PlansRouter.validated,
      PlansRouter.createPlanSchema, Schema.finish, Schema.required,
      Schema.string_min1, Schema.string_max. simpl.
    replace (String.length name <? 1)%nat with false
      by (destruct name; [congruence|reflexivity]).
    replace (100 <? String.length name)%nat with false
      by (symmetry; apply Nat.ltb_ge; lia).
    simpl. unfold PlansRouter.post_plan_handler, Plan.construct. simpl.
    now rewrite Hblank.
  - intros parsed Es Ht Hp Hd.
    unfold TasksRoute.post_task, validateRequest. rewrite Es.
    apply taskSchema_valid in Es as (-> & _ & plan & ttl & st & Hpl & Htt & _).
    unfold TasksRoute.post_task_handler. simpl. rewrite Hp, Hd.
    unfold TasksRoute.save_new, Task.construct.
    destruct (TaskData.order_index body); simpl; rewrite Hpl, Ht; simpl;
      now rewrite Hblank.
Qed.

Lemma blank_names_are_server_errors_witness :
  PlansRouter.post_plan Sample.oid "dan"
    {| PlanInput.name := Some " "; PlanInput.description := None |} Team.db
  = (PlansRouter.Sent (res 500 (JError "Failed to create plan")),
     next_oid Team.db).
Proof.
  apply (blank_names_are_server_errors Sample.isoDate Sample.oid "dan" " "
           (Sample.payload "P" " " todo) Team.db).
  - discriminate.
  - simpl. lia.
  - reflexivity.
Defined.

Lemma findById_in (plan : Plan.IPlan) (db : Db) :
  NoDup (map Plan._id (Plans db)) -> In plan (Plans db) ->
  PlanAccess.findById (Plan._id plan) db = Some plan.
Proof.
  unfold PlanAccess.findById.
  induction (Plans db) as [|p c IH]; simpl; intros Hnd Hin; [easy|].
  destruct Hin as [Hp|Hp].
  - subst p. now rewrite String.eqb_refl.
  - inversion Hnd as [|? ? Hx Hc]; subst.
    destruct (Plan._id p =? Plan._id plan) eqn:E; [|now apply IH].
    apply String.eqb_eq in E. elim Hx. rewrite E. now apply in_map.
Qed.

Lemma plan_filter_absent (id : ObjectId) (c : list Plan.IPlan) :
  ~ In id (map Plan._id c) ->
  filter (fun p => negb (Plan._id p =? id)) c = c.
Proof.
  induction c as [|a c IH]; simpl; intros Hx; [reflexivity|].
  destruct (Plan._id a =? id) eqn:Ea.
  - apply String.eqb_eq in Ea. elim Hx. now left.
  - simpl. f_equal. apply IH. intros Hin. apply Hx. now right.
Qed.

Lemma plan_deleteOne_by_id (id : ObjectId) (c : list Plan.IPlan) :
  NoDup (map Plan._id c) ->
  Collection.deleteOne (fun p => Plan._id p =? id) c
  = filter (fun p => negb (Plan._id p =? id)) c.
Proof.
  induction c as [|x c IH]; simpl; intros Hnd; [reflexivity|].
  inversion Hnd as [|? ? Hx Hc]; subst.
  destruct (Plan._id x =? id) eqn:E; simpl; [|now rewrite IH].
  apply String.eqb_eq in E. subst id. now rewrite plan_filter_absent.
Qed.

Lemma role_in_isSome (userId : ObjectId) (plan : Plan.IPlan) :
  is_some (role_in userId plan)
  = (Plan.owner_id plan =? userId)
    || existsb (fun m => Plan.user_id m =? userId) (Plan.members plan).
Proof.
  unfold role_in, PlanAccess.member.
  destruct (Plan.owner_id plan =? userId); [reflexivity|]. simpl.
  induction (Plan.members plan) as [|m ms IH]; simpl; [reflexivity|].
  now destruct (Plan.user_id m =? userId).
Qed.

(** X22.  Deleting a plan succeeds only for its owner.  It removes the
    plan and every task of it, leaves the tasks of the other plans, the
    other plans and the users as they were, and leaves nobody with a role
    on the deleted plan; parent references that resolved within their plan
    before still do. *)
Theorem delete_plan_cascade (user : ObjectId) (plan_id : string)
    (db db' : Db) (resp : Response) :
  NoDup (map Plan._id (Plans db)) ->
  PlansRouter.delete_plan user plan_id db = (PlansRouter.Sent resp, db') ->
  status resp < 400 ->
  PlanAccess.getUserPlanRole user plan_id db = Some owner
  /\ tasks_of plan_id db' = []
  /\ (forall other, other <> plan_id ->
        tasks_of other db' = tasks_of other db
        /\ PlanAccess.findById other db' = PlanAccess.findById other db)
  /\ (forall u, PlanAccess.getUserPlanRole u plan_id db' = None)
  /\ Users db' = Users db
  /\ (parents_resolve db -> parents_resolve db').
Proof.
  intros Hnd H Hst. unfold PlansRouter.delete_plan in H.
  match type of H with
  | PlansRouter.guard ?r ?u ?p ?h ?d = _ =>
      destruct (plan_guard_cases r u p h d)
        as [(resp' & E & Hs)|(plan & o & role & E & Hne & Hf & Ho & Hr & Hle)];
      rewrite E in H
  end.
  { injection H as <- <-. lia. }
  injection H as <- <-. clear E Hst. cbn [Tasks Plans Users with_Tasks with_Plans].
  rewrite plan_deleteOne_by_id by assumption.
  split; [|split; [|split; [|split; [|split]]]].
  - rewrite getUserPlanRole_role_in, Hf, Hr.
    destruct role; simpl in Hle; try lia. reflexivity.
  - unfold tasks_of. simpl.
    induction (Tasks db) as [|t c IH]; simpl; [reflexivity|].
    destruct (Task.plan_id t =? plan_id) eqn:E; simpl; [assumption|].
    now rewrite E.
  - intros other Hother. split.
    + unfold tasks_of. simpl.
      induction (Tasks db) as [|t c IH]; simpl; [reflexivity|].
      destruct (Task.plan_id t =? plan_id) eqn:E; simpl.
      * apply String.eqb_eq in E. rewrite E.
        apply String.eqb_neq in Hother. rewrite String.eqb_sym in Hother.
        now rewrite Hother.
      * destruct (Task.plan_id t =? other); [now f_equal|assumption].
    + unfold PlanAccess.findById. simpl.
      induction (Plans db) as [|p c IH]; simpl; [reflexivity|].
      inversion Hnd as [|? ? Hx Hc]; subst.
      destruct (Plan._id p =? plan_id) eqn:E; simpl.
      * apply String.eqb_eq in E. rewrite E.
        apply String.eqb_neq in Hother. rewrite String.eqb_sym in Hother.
        rewrite Hother. rewrite <- (plan_deleteOne_by_id plan_id c Hc).
        apply IH in Hc. rewrite plan_deleteOne_by_id; [exact Hc|].
        now inversion Hnd.
      * destruct (Plan._id p =? other); [reflexivity|]. now apply IH.
  - intros u. unfold PlanAccess.getUserPlanRole, PlanAccess.findById. simpl.
    replace (find _ _) with (@None Plan.IPlan); [reflexivity|].
    symmetry. clear. induction (Plans db) as [|p c IH]; simpl; [reflexivity|].
    destruct (Plan._id p =? plan_id) eqn:E; simpl; [assumption|].
    now rewrite E.
  - reflexivity.
  - intros Hinv t Ht pid Hpid Hpne. simpl in Ht.
    apply filter_In in Ht as [Ht Hk].
    destruct (Hinv t Ht pid Hpid Hpne) as (p & Hp & Hi & Hpl).
    exists p. repeat split; auto. simpl. apply filter_In. split; [assumption|].
    now rewrite Hpl.
Qed.

Lemma delete_plan_cascade_witness :
  tasks_of "Q"
    (snd (PlansRouter.delete_plan "cy" "Q" Team.db)) = []
  /\ PlanAccess.getUserPlanRole "cy" "Q"
       (snd (PlansRouter.delete_plan "cy" "Q" Team.db)) = None.
Proof.
  assert (Hnd : NoDup (map Plan._id (Plans Team.db))).
  { repeat constructor; simpl; intuition discriminate. }
  assert (Hs : status (res 200 (JMessage "Plan deleted successfully")) < 400).
  { simpl. lia. }
  destruct (delete_plan_cascade "cy" "Q" Team.db _ _ Hnd eq_refl Hs)
    as (_ & H1 & _ & H2 & _).
  split; [exact H1|exact (H2 "cy")].
Defined.

(** X23.  [GET /] lists exactly the stored plans on which the caller
    passes for [viewer] by [hasPlanAccess], each of them once, and changes
    nothing. *)
Theorem plans_listed_with_access (userId : ObjectId) (db : Db) :
  NoDup (map Plan._id (Plans db)) ->
  exists plans,
    PlansRouter.get_plans userId db = (PlansRouter.SentPlans plans, db)
    /\ NoDup (map Plan._id plans)
    /\ forall plan,
         In plan plans
         <-> In plan (Plans db)
             /\ PlanAccess.hasPlanAccess userId (Plan._id plan) viewer db
                = true.
Proof.
  intros Hnd. eexists. split; [reflexivity|]. split.
  - rewrite map_rev. apply NoDup_rev.
    induction (Plans db) as [|p c IH]; simpl; [constructor|].
    inversion Hnd as [|? ? Hx Hc]; subst.
    destruct (_ || _); simpl; [|now apply IH].
    constructor; [|now apply IH].
    intros Hin. apply Hx. apply in_map_iff in Hin as (y & Hy & Hin).
    apply filter_In in Hin as [Hin _]. rewrite <- Hy. now apply in_map.
  - intros plan. rewrite <- in_rev, filter_In.
    split; intros [Hin H]; (split; [assumption|]).
    + unfold PlanAccess.hasPlanAccess.
      rewrite getUserPlanRole_role_in, findById_in by assumption.
      rewrite <- role_in_isSome in H.
      destruct (role_in userId plan) as [[| |]|]; [reflexivity..|discriminate].
    + unfold PlanAccess.hasPlanAccess in H.
      rewrite getUserPlanRole_role_in, findById_in in H by assumption.
      rewrite <- role_in_isSome.
      now destruct (role_in userId plan).
Qed.

Lemma plans_listed_with_access_witness :
  exists plans,
    PlansRouter.get_plans "cy" Team.db = (PlansRouter.SentPlans plans, Team.db)
    /\ NoDup (map Plan._id plans)
    /\ forall plan,
         In plan plans
         <-> In plan (Plans Team.db)
             /\ PlanAccess.hasPlanAccess "cy" (Plan._id plan) viewer Team.db
                = true.
Proof.
  apply plans_listed_with_access.
  repeat constructor; simpl; intuition discriminate.
Defined.

(** ** Export *)

Lemma sort_leb_order_asc (a b : Task.ITask) :
  sort_leb [("order_index", 1%Z)] a b = true
  <-> (Task.order_index a <= Task.order_index b)%Z.
Proof.
  unfold sort_leb, compare_by.
  change (Task_field "order_index" a) with (BNum (Task.order_index a)).
  change (Task_field "order_index" b) with (BNum (Task.order_index b)).
  simpl.
  destruct (Z.compare_spec (Task.order_index a) (Task.order_index b)); simpl;
    split; intros; try discriminate; try reflexivity; lia.
Qed.

Lemma user_found (id : ObjectId) (users : list User.IUser) :
  In id (map User._id users) ->
  exists u, find (fun u => User._id u =? id) users = Some u.
Proof.
  intros H. apply in_map_iff in H as (u & Hu & Hin).
  destruct (find (fun u => User._id u =? id) users) as [v|] eqn:E;
    [now exists v|].
  apply (find_none _ _ E) in Hin. apply String.eqb_neq in Hin. contradiction.
Qed.

Lemma user_find_some (id : ObjectId) (users : list User.IUser)
    (u : User.IUser) :
  find (fun u => User._id u =? id) users = Some u ->
  In u users /\ User._id u = id.
Proof.
  intros H. apply find_some in H as [Hin H]. now apply String.eqb_eq in H.
Qed.

Lemma members_out_some (ms : list Plan.IPlanMember) (users : list User.IUser) :
  forall out,
    PlansRouter.members_out ms users = Some out ->
    Forall2
      (fun m p =>
         exists u,
           In u users /\ User._id u = Plan.user_id m /\ p = member_entry m u)
      ms out.
Proof.
  induction ms as [|m ms IH]; simpl; intros out H.
  - injection H as <-. constructor.
  - destruct (find _ users) as [u|] eqn:Eu; [|discriminate].
    destruct (PlansRouter.members_out ms users) as [o|]; [|discriminate].
    injection H as <-. apply user_find_some in Eu as [Hin Hid].
    constructor; [now exists u|now apply IH].
Qed.

Lemma members_out_resolved (ms : list Plan.IPlanMember)
    (users : list User.IUser) :
  (forall m, In m ms -> In (Plan.user_id m) (map User._id users)) ->
  exists out, PlansRouter.members_out ms users = Some out.
Proof.
  induction ms as [|m ms IH]; simpl; intros H; [now eexists|].
  destruct (user_found (Plan.user_id m) users) as [u ->]; [now apply H; left|].
  destruct IH as [out ->]; [intros x Hx; apply H; now right|]. now eexists.
Qed.

Lemma members_out_unresolved (ms : list Plan.IPlanMember)
    (users : list User.IUser) (out : list ImportData.Person) :
  PlansRouter.members_out ms users = Some out ->
  forall m, In m ms -> In (Plan.user_id m) (map User._id users).
Proof.
  intros H m Hm. apply members_out_some in H.
  revert out H. induction ms as [|x ms IH]; intros out H; [easy|].
  inversion H as [|? p ? o (u & Hu & Hid & _) Hrest]; subst.
  destruct Hm as [->|Hm]; [|now apply (IH Hm o)].
  rewrite <- Hid. now apply in_map.
Qed.

(** What the export handler does once the access check has let the request
    through. *)
Lemma get_export_cases (now later : Z) (toISOString : Z -> string)
    (user : User.IUser) (plan_id : string) (db : Db) :
  (exists resp,
      PlansRouter.get_export now later toISOString user plan_id db
      = (PlansRouter.Sent resp, db)
      /\ 400 <= status resp)
  \/ (exists plan role,
         plan_id <> ""
         /\ PlanAccess.findById plan_id db = Some plan
         /\ role_in (User._id user) plan = Some role
         /\ PlansRouter.get_export now later toISOString user plan_id db
            = match PlansRouter.members_out (Plan.members plan) (Users db)
              with
              | None =>
                  (PlansRouter.Sent (res 500 (JError "Failed to export plan")),
                   db)
              | Some members =>
                  (PlansRouter.SentExport
                     (PlansRouter.filename later toISOString plan)
                     (PlansRouter.exportData now toISOString user plan members
                        (sort (sort_leb [("order_index", 1%Z)])
                           (tasks_of plan_id db))
                        (Users db)),
                   db)
              end).
Proof.
  unfold PlansRouter.get_export.
  match goal with
  | |- context [PlansRouter.guard ?r ?u ?p ?h ?d] =>
      destruct (plan_guard_cases r u p h d)
        as [(resp & -> & Hs)|(plan & o & role & -> & Hne & Hf & Ho & Hr & Hle)]
  end; [left; now exists resp|].
  right. exists plan, role. rewrite Hf.
  apply findById_some in Hf as Hp. destruct Hp as [_ Hid].
  unfold tasks_of. rewrite Hid. repeat split; auto.
Qed.

(** X24.  A successful export changes nothing and is sent to a user who
    holds a role on the plan of the path.  It holds one entry for each task
    of that plan, in the order of ascending [order_index], one entry for
    each member, with the name and the email of the member's user and the
    member's role, and the name and the email of the caller. *)
Theorem export_contents (now later : Z) (toISOString : Z -> string)
    (user : User.IUser) (plan_id : string) (db db' : Db) (file : string)
    (e : ExportData.t) :
  PlansRouter.get_export now later toISOString user plan_id db
  = (PlansRouter.SentExport file e, db') ->
  db' = db
  /\ exists plan role tasks members,
       PlanAccess.findById plan_id db = Some plan
       /\ PlanAccess.getUserPlanRole (User._id user) plan_id db = Some role
       /\ Permutation tasks (tasks_of plan_id db)
       /\ StronglySorted
            (fun a b => (Task.order_index a <= Task.order_index b)%Z) tasks
       /\ ImportData.tasks (ExportData.data e)
          = Some (map (PlansRouter.task_out (Users db)) tasks)
       /\ ImportData.plan_name (ImportData.plan (ExportData.data e))
          = Plan.name plan
       /\ ImportData.members (ImportData.plan (ExportData.data e))
          = Some members
       /\ Forall2
            (fun m p =>
               exists u,
                 In u (Users db) /\ User._id u = Plan.user_id m
                 /\ p = member_entry m u)
            (Plan.members plan) members
       /\ ExportData.exported_by e = PlansRouter.name_email user.
Proof.
  intros H.
  destruct (get_export_cases now later toISOString user plan_id db)
    as [(resp & E & _)|(plan & role & Hne & Hf & Hr & E)]; rewrite E in H;
    [discriminate|].
  destruct (PlansRouter.members_out _ _) as [members|] eqn:Em; [|discriminate].
  injection H as <- <- <-. split; [reflexivity|].
  exists plan, role, (sort (sort_leb [("order_index", 1%Z)])
                        (tasks_of plan_id db)), members.
  repeat split; auto.
  - now rewrite getUserPlanRole_role_in, Hf.
  - apply sort_perm.
  - apply Sorted_StronglySorted; [intros a b c; lia|].
    eapply Sorted_impl; [|apply sort_Sorted, sort_leb_total].
    intros a b. apply sort_leb_order_asc.
  - now apply members_out_some.
Qed.

Lemma export_contents_witness :
  exists file e plan tasks,
    PlansRouter.get_export 7%Z 8%Z Team.clock (Team.user "cy") "P" Team.db
    = (PlansRouter.SentExport file e, Team.db)
    /\ PlanAccess.findById "P" Team.db = Some plan
    /\ Permutation tasks (tasks_of "P" Team.db)
    /\ ImportData.tasks (ExportData.data e)
       = Some (map (PlansRouter.task_out (Users Team.db)) tasks).
Proof.
  destruct (export_contents 7%Z 8%Z Team.clock (Team.user "cy") "P" Team.db
              _ _ _ eq_refl)
    as (_ & plan & role & tasks & members & H1 & _ & H3 & _ & H5 & _).
  eexists _, _, plan, tasks. split; [reflexivity|]. now repeat split.
Defined.

(** X25.  For a request the access check lets through, the export is sent
    exactly when every member of the plan is a stored user.  Otherwise the
    answer is 500, while the details of the same plan can still be read. *)
Theorem export_needs_resolvable_members (now later : Z)
    (toISOString : Z -> string) (user : User.IUser) (plan_id : string)
    (plan : Plan.IPlan) (owner_doc : User.IUser) (role : Role) (db : Db) :
  PlanAccess.requirePlanAccess viewer (Some (User._id user)) (Some plan_id)
    None None db
  = PlanAccess.Next plan owner_doc role ->
  (members_resolve plan db ->
   exists file e,
     PlansRouter.get_export now later toISOString user plan_id db
     = (PlansRouter.SentExport file e, db))
  /\ (~ members_resolve plan db ->
      PlansRouter.get_export now later toISOString user plan_id db
      = (PlansRouter.Sent (res 500 (JError "Failed to export plan")), db)
      /\ PlansRouter.get_plan (User._id user) plan_id db
         = (PlansRouter.SentDetails plan
              (List.length (tasks_of plan_id db)), db)).
Proof.
  intros Hg.
  assert (Hf : PlanAccess.findById plan_id db = Some plan).
  { apply requirePlanAccess_inv in Hg
      as (uid & id & _ & Hid & Hne & Hf & _).
    destruct (String.eqb_spec plan_id "") as [->|Hp]; [discriminate Hid|].
    rewrite !or_str_truthy in Hid by assumption. now injection Hid as <-. }
  apply findById_some in Hf as Hp. destruct Hp as [_ Hpid].
  unfold PlansRouter.get_export, PlansRouter.get_plan, PlansRouter.guard.
  rewrite Hg, Hf. split.
  - intros Hm. destruct (members_out_resolved _ _ Hm) as [out ->].
    now eexists _, _.
  - intros Hm.
    destruct (PlansRouter.members_out _ _) as [out|] eqn:Em.
    + elim Hm. exact (members_out_unresolved _ _ _ Em).
    + split; [reflexivity|]. unfold tasks_of. now rewrite Hpid.
Qed.

Lemma export_needs_resolvable_members_witness :
  (exists file e,
      PlansRouter.get_export 7%Z 8%Z Team.clock (Team.user "ann") "P" Team.db
      = (PlansRouter.SentExport file e, Team.db))
  /\ PlansRouter.get_export 7%Z 8%Z Team.clock (Team.user "ann") "P"
       Team.departed
     = (PlansRouter.Sent (res 500 (JError "Failed to export plan")),
        Team.departed).
Proof.
  split.
  - apply (proj1
             (export_needs_resolvable_members 7%Z 8%Z Team.clock
                (Team.user "ann") "P" Team.P (Team.user "ann") owner Team.db
                eq_refl)).
    intros m Hm. simpl in Hm. destruct Hm as [<-|[<-|[]]]; simpl; auto.
  - apply (proj2
             (export_needs_resolvable_members 7%Z 8%Z Team.clock
                (Team.user "ann") "P" Team.P (Team.user "ann") owner
                Team.departed eq_refl)).
    intros H. specialize (H (Team.joined "cy" viewer)). simpl in H.
    intuition discriminate.
Defined.




(** ** Export, then import *)

Lemma indexed_none {A : Type} (k : string) (f : A -> list Schema.Issue)
    (l : list A) :
  (forall a, In a l -> f a = []) -> ImportData.indexed k f l = [].
Proof.
  unfold ImportData.indexed, Js.mapi. generalize 0.
  induction l as [|a l IH]; intros n H; simpl; [reflexivity|].
  rewrite (H a) by now left. simpl. apply IH. intros x Hx. apply H. now right.
Qed.

Lemma indexed_some {A : Type} (k : string) (f : A -> list Schema.Issue)
    (l : list A) (a : A) :
  In a l -> f a <> [] -> ImportData.indexed k f l <> [].
Proof.
  unfold ImportData.indexed, Js.mapi. generalize 0.
  induction l as [|x l IH]; intros n Hin Hf; simpl; [easy|].
  destruct Hin as [->|Hin].
  - destruct (f a); [congruence|discriminate].
  - intros E. apply app_eq_nil in E as [_ E]. now apply (IH (S n)).
Qed.

Lemma populate_In (ids : list ObjectId) (users : list User.IUser)
    (u : User.IUser) :
  In u (PlansRouter.populate ids users) -> In u users.
Proof.
  induction ids as [|id ids IH]; simpl; [easy|].
  destruct (find _ users) as [v|] eqn:E; [|assumption].
  intros [<-|H]; [|now apply IH]. now apply find_some in E.
Qed.

(** X27.  An export that holds a task with an estimate of zero hours,
    which the task routes and the task model accept, is refused as it
    stands by the validation of [POST /import], for any importer and any
    store, which is left as it was. *)
Theorem raw_export_refused_on_zero_estimate (newObjectId : nat -> ObjectId)
    (isEmail : string -> bool) (now later imported_at : Z)
    (toISOString : Z -> string) (user : User.IUser) (plan_id : string)
    (db db' : Db) (file : string) (e : ExportData.t) (task : Task.ITask)
    (importer : ObjectId) (store : Db) :
  PlansRouter.get_export now later toISOString user plan_id db
  = (PlansRouter.SentExport file e, db') ->
  In task (tasks_of plan_id db) ->
  Task.estimate_hours task = Some 0%Z ->
  status
    (fst
       (PlansRoute.post_import newObjectId isEmail imported_at importer
          (ExportData.data e) store))
  = 400
  /\ snd
       (PlansRoute.post_import newObjectId isEmail imported_at importer
          (ExportData.data e) store)
     = store.
Proof.
  intros H Hin Hz.
  destruct (get_export_cases now later toISOString user plan_id db)
    as [(resp & E & _)|(plan & role & Hne & Hf & Hr & E)]; rewrite E in H;
    [discriminate|].
  destruct (PlansRouter.members_out _ _) as [members|] eqn:Em; [|discriminate].
  injection H as <- <- <-.
  unfold PlansRoute.post_import, PlansRouter.exportData.
  cbn [ExportData.data].
  destruct (ImportData.importSchema isEmail _) as [parsed|issues] eqn:Es;
    [|now split].
  exfalso. revert Es. unfold ImportData.importSchema, Schema.finish.
  cbn [ImportData.tasks ImportData.plan ImportData.opt_list].
  match goal with
  | |- match ?l with _ => _ end = _ -> _ =>
      destruct l eqn:El; [|discriminate]
  end.
  intros _. apply map_eq_nil, app_eq_nil in El as [_ El].
  revert El.
  apply (indexed_some "tasks" _ _ (PlansRouter.task_out (Users db) task)).
  - apply in_map. apply (Permutation_in _ (Permutation_sym (sort_perm _ _))).
    assumption.
  - unfold ImportData.task_issues. cbn [ImportData.estimate_hours
      PlansRouter.task_out]. rewrite Hz. simpl.
    intros E0. apply app_eq_nil in E0 as [_ E0].
    apply app_eq_nil in E0 as [_ E0]. apply app_eq_nil in E0 as [_ E0].
    apply app_eq_nil in E0 as [_ E0]. discriminate.
Qed.

Lemma raw_export_refused_on_zero_estimate_witness :
  exists file e,
    PlansRouter.get_export 7%Z 8%Z Team.clock (Team.user "ann") "P"
      Team.estimated
    = (PlansRouter.SentExport file e, Team.estimated)
    /\ status
         (fst
            (PlansRoute.post_import Sample.oid Sample.isEmail 9%Z "dan"
               (ExportData.data e) Team.estimated))
       = 400.
Proof.
  eexists _, _. split; [reflexivity|].
  apply (raw_export_refused_on_zero_estimate Sample.oid Sample.isEmail 7%Z
           8%Z 9%Z Team.clock (Team.user "ann") "P" Team.estimated _ _ _
           Team.quick "dan" Team.estimated eq_refl).
  - simpl. auto.
  - reflexivity.
Defined.

Lemma clean_task_issues (isEmail : string -> bool) (users : list User.IUser)
    (t : Task.ITask) :
  (forall u, In u users -> isEmail (User.email u) = true) ->
  Task.title t <> "" ->
  (0 <= Task.progress_pct t <= 100)%Z ->
  (forall h, Task.estimate_hours t = Some h -> (0 <= h)%Z) ->
  ImportData.task_issues isEmail
    (ImportPlanModal.clean_task (PlansRouter.task_out users t))
  = [].
Proof.
  intros Hu Ht Hp He. unfold ImportData.task_issues.
  cbn [ImportPlanModal.clean_task PlansRouter.task_out ImportData.title
       ImportData.assignees ImportData.progress_pct ImportData.estimate_hours
       ImportPlanModal.list_or_empty ImportPlanModal.num_or_0
       ImportData.opt_list].
  unfold Schema.string_min1, Schema.number_min0, Schema.number_max100.
  replace (String.length (Task.title t) <? 1)%nat with false
    by (destruct (Task.title t); [congruence|reflexivity]).
  replace (Task.progress_pct t <? 0)%Z with false
    by (symmetry; apply Z.ltb_ge; lia).
  replace (100 <? Task.progress_pct t)%Z with false
    by (symmetry; apply Z.ltb_ge; lia).
  rewrite indexed_none.
  - simpl. unfold ImportPlanModal.num_or_undefined.
    destruct (Task.estimate_hours t) as [h|] eqn:Eh; [|reflexivity].
    specialize (He h eq_refl).
    destruct (h =? 0)%Z eqn:E0; [reflexivity|].
    apply Z.eqb_neq in E0.
    replace (h <=? 0)%Z with false by (symmetry; apply Z.leb_gt; lia).
    reflexivity.
  - intros p Hp'. apply in_map_iff in Hp' as (u & <- & Hin).
    apply populate_In in Hin. unfold ImportData.person_issues. simpl.
    now rewrite (Hu u Hin).
Qed.

(** X28.  Export, then import through the dialog of the client.  On a
    store whose documents pass the validators of their models, the dialog
    accepts every export, and the copy it posts, cleaned of its falsy
    values, passes the validation of [POST /import]; the parsed payload
    carries the name of the plan and one task for each task of the plan. *)
Theorem cleaned_export_passes_validation (isEmail : string -> bool)
    (now later : Z) (toISOString : Z -> string) (user : User.IUser)
    (plan_id : string) (db db' : Db) (file : string) (e : ExportData.t) :
  models_validated isEmail db ->
  PlansRouter.get_export now later toISOString user plan_id db
  = (PlansRouter.SentExport file e, db') ->
  exists planData editablePlan parsed plan,
    ImportPlanModal.parseFile e = Some (planData, editablePlan)
    /\ ImportData.importSchema isEmail
         (ImportPlanModal.modifiedPlanData planData editablePlan)
       = Schema.Valid parsed
    /\ PlanAccess.findById plan_id db = Some plan
    /\ ImportData.plan_name (ImportData.plan parsed) = Plan.name plan
    /\ List.length (ImportData.opt_list (ImportData.tasks parsed))
       = List.length (tasks_of plan_id db).
Proof.
  intros (Hplans & Husers & Htasks) H.
  destruct (get_export_cases now later toISOString user plan_id db)
    as [(resp & E & _)|(plan & role & Hne & Hf & Hr & E)]; rewrite E in H;
    [discriminate|].
  destruct (PlansRouter.members_out _ _) as [members|] eqn:Em; [|discriminate].
  injection H as <- <- <-.
  apply findById_some in Hf as Hp. destruct Hp as [Hin _].
  destruct (Hplans plan Hin) as (Hn & Hlen & Hd & Hm).
  apply members_out_some in Em.
  assert (Hv : exists parsed,
             ImportData.importSchema isEmail
               (ImportPlanModal.modifiedPlanData
                  (ExportData.data
                     (PlansRouter.exportData now toISOString user plan members
                        (sort (sort_leb [("order_index", 1%Z)])
                           (tasks_of plan_id db)) (Users db)))
                  {| ImportPlanModal.name := Plan.name plan;
                     ImportPlanModal.description :=
                       match Plan.description plan with
                       | Some s => s
                       | None => ""
                       end;
                     ImportPlanModal.members := members |})
             = Schema.Valid parsed).
  { unfold ImportData.importSchema, ImportPlanModal.modifiedPlanData,
      PlansRouter.exportData.
    cbn [ExportData.data ImportData.plan ImportData.tasks
         ImportData.plan_name ImportData.plan_description ImportData.members
         ImportPlanModal.name ImportPlanModal.description
         ImportPlanModal.members ImportData.opt_list].
    unfold Schema.string_min1, Schema.string_max.
    replace (String.length (Plan.name plan) <? 1)%nat with false
      by (destruct (Plan.name plan); [congruence|reflexivity]).
    replace (100 <? String.length (Plan.name plan))%nat with false
      by (symmetry; apply Nat.ltb_ge; lia).
    rewrite (indexed_none "members"), (indexed_none "tasks").
    - unfold ImportPlanModal.or_undefined.
      destruct (Plan.description plan) as [d|] eqn:Ed;
        [|eexists; reflexivity].
      destruct (d =? ""); [eexists; reflexivity|].
      replace (500 <? String.length d)%nat with false;
        [eexists; reflexivity|].
      symmetry. apply Nat.ltb_ge. now apply Hd.
    - intros t Ht. apply in_map_iff in Ht as (t0 & <- & Ht).
      apply in_map_iff in Ht as (t1 & <- & Ht).
      apply (Permutation_in _ (sort_perm _ _)) in Ht.
      apply filter_In in Ht as [Ht _].
      destruct (Htasks t1 Ht) as (H1 & H2 & H3).
      now apply clean_task_issues.
    - intros p Hp. unfold ImportData.person_issues.
      clear -Em Hp Husers Hm.
      induction Em as [|m q ms qs (u & Hu & _ & ->) _ IH]; [easy|].
      destruct Hp as [<-|Hp].
      + simpl. rewrite (Husers u Hu). simpl.
        specialize (Hm m (or_introl eq_refl)). now destruct (Plan.role m).
      + apply IH; [|assumption]. intros x Hx. apply Hm. now right. }
  destruct Hv as [parsed Hv].
  eexists _, _, parsed, plan. split; [reflexivity|].
  split; [exact Hv|]. split; [assumption|].
  apply importSchema_valid in Hv as (Hname & _ & _ & Htl).
  split; [exact Hname|]. rewrite Htl.
  cbn [ImportData.tasks ImportData.opt_list ImportPlanModal.modifiedPlanData
       PlansRouter.exportData ExportData.data].
  rewrite !length_map. apply Permutation_length, sort_perm.
Qed.

Lemma cleaned_export_passes_validation_witness :
  exists file e planData editablePlan parsed,
    PlansRouter.get_export 7%Z 8%Z Team.clock (Team.user "ann") "P"
      Team.estimated
    = (PlansRouter.SentExport file e, Team.estimated)
    /\ ImportPlanModal.parseFile e = Some (planData, editablePlan)
    /\ ImportData.importSchema Sample.isEmail
         (ImportPlanModal.modifiedPlanData planData editablePlan)
       = Schema.Valid parsed
    /\ List.length (ImportData.opt_list (ImportData.tasks parsed)) = 3.
Proof.
  assert (Hv : models_validated Sample.isEmail Team.estimated).
  { split; [|split].
    - intros p Hp. simpl in Hp.
      destruct Hp as [<-|[<-|[]]]; simpl;
        (split; [discriminate|]); (split; [lia|]);
        (split; [intros d [= <-]; simpl; lia|]); intros m Hm; simpl in Hm;
        intuition (subst; discriminate).
    - intros u Hu. simpl in Hu.
      destruct Hu as [<-|[<-|[<-|[<-|[]]]]]; reflexivity.
    - intros t Ht. simpl in Ht.
      destruct Ht as [<-|[<-|[<-|[<-|[]]]]]; simpl;
        (split; [discriminate|]); (split; [lia|]); intros h [= <-]; lia. }
  destruct (cleaned_export_passes_validation Sample.isEmail 7%Z 8%Z
              Team.clock (Team.user "ann") "P" Team.estimated _ _ _ Hv
              eq_refl)
    as (planData & editablePlan & parsed & plan & H1 & H2 & _ & _ & H5).
  eexists _, _, planData, editablePlan, parsed.
  split; [reflexivity|]. split; [exact H1|]. split; [exact H2|exact H5].
Defined.

(** ** The roles reported by [GET /me] *)

Lemma populated_member_test (user : User.IUser) (db : Db)
    (m : Plan.IPlanMember) :
  In (User._id user) (map User._id (Users db)) ->
  match find (fun u => User._id u =? Plan.user_id m) (Users db) with
  | Some u => User._id u =? User._id user
  | None => false
  end
  = (Plan.user_id m =? User._id user).
Proof.
  intros Hu. destruct (find _ (Users db)) as [u|] eqn:E.
  - apply user_find_some in E as [_ ->]. reflexivity.
  - destruct (String.eqb_spec (Plan.user_id m) (User._id user)) as [Heq|];
      [|reflexivity].
    rewrite <- Heq in Hu. apply user_found in Hu as [u Hu]. congruence.
Qed.

Lemma summary_role (user : User.IUser) (db : Db) (plan : Plan.IPlan)
    (r : Role) :
  In (User._id user) (map User._id (Users db)) ->
  role_in (User._id user) plan = Some r ->
  AuthRoute.summary user db plan
  = {| AuthRoute._id := Plan._id plan; AuthRoute.name := Plan.name plan;
       AuthRoute.role := r |}.
Proof.
  intros Hu Hr. unfold AuthRoute.summary. f_equal.
  unfold role_in in Hr. unfold AuthRoute.isOwner, PlanAccess.populate_owner.
  destruct (String.eqb_spec (Plan.owner_id plan) (User._id user)) as [Ho|Ho].
  - injection Hr as <-. rewrite Ho.
    destruct (user_found _ _ Hu) as [u Hf]. rewrite Hf.
    apply user_find_some in Hf as [_ ->]. now rewrite String.eqb_refl.
  - replace (match find _ (Users db) with
             | Some o => User._id o =? User._id user
             | None => false
             end) with false.
    + unfold AuthRoute.memberRole.
      replace (find _ (Plan.members plan))
        with (PlanAccess.member (User._id user) plan); [now rewrite Hr|].
      unfold PlanAccess.member.
      induction (Plan.members plan) as [|m ms IH]; simpl; [reflexivity|].
      rewrite populated_member_test by assumption.
      destruct (Plan.user_id m =? User._id user); [reflexivity|apply IH].
    + destruct (find _ (Users db)) as [o|] eqn:E; [|reflexivity].
      apply user_find_some in E as [_ ->]. symmetry.
      now apply String.eqb_neq.
Qed.

(** X29.  For a stored user, [GET /me] reports exactly the plans on which
    the access middleware finds a role for the user, each with that
    role. *)
Theorem me_roles_agree_with_access (user : User.IUser) (db : Db) :
  NoDup (map Plan._id (Plans db)) ->
  In (User._id user) (map User._id (Users db)) ->
  exists plans,
    AuthRoute.get_me user db = ((user, plans), db)
    /\ forall id name role,
         In {| AuthRoute._id := id; AuthRoute.name := name;
               AuthRoute.role := role |} plans
         <-> exists plan,
               In plan (Plans db) /\ Plan._id plan = id
               /\ Plan.name plan = name
               /\ PlanAccess.getUserPlanRole (User._id user) id db
                  = Some role.
Proof.
  intros Hnd Hu. eexists. split; [reflexivity|].
  intros id name role. rewrite in_map_iff. split.
  - intros (plan & Hs & Hin). apply filter_In in Hin as [Hin Hf].
    rewrite <- role_in_isSome in Hf.
    destruct (role_in (User._id user) plan) as [r|] eqn:Er; [|discriminate].
    rewrite (summary_role user db plan r Hu Er) in Hs.
    injection Hs as <- <- <-. exists plan. repeat split; auto.
    now rewrite getUserPlanRole_role_in, findById_in.
  - intros (plan & Hin & <- & <- & Hr).
    rewrite getUserPlanRole_role_in, findById_in in Hr by assumption.
    exists plan. split; [now apply summary_role|].
    apply filter_In. split; [assumption|].
    now rewrite <- role_in_isSome, Hr.
Qed.

Lemma me_roles_agree_with_access_witness :
  exists plans,
    AuthRoute.get_me (Team.user "cy") Team.db
    = ((Team.user "cy", plans), Team.db)
    /\ forall id name role,
         In {| AuthRoute._id := id; AuthRoute.name := name;
               AuthRoute.role := role |} plans
         <-> exists plan,
               In plan (Plans Team.db) /\ Plan._id plan = id
               /\ Plan.name plan = name
               /\ PlanAccess.getUserPlanRole "cy" id Team.db = Some role.
Proof.
  apply (me_roles_agree_with_access (Team.user "cy") Team.db).
  - repeat constructor; simpl; intuition discriminate.
  - simpl. auto.
Defined.
